(** * Academic Intelligence backend: attempt engine, grading and exam lifecycle

    A shallow embedding of [src/services/attemptService.js],
    [src/services/examService.js] and [calculatePercentage] of
    [src/utils/helpers.js], with the properties of the specification stated
    and settled against it.

    Conventions of the embedding.
    - Every [DOUBLE] column and every JavaScript number is an exact rational
      ([Q]); the rounding of IEEE doubles is not modelled.
    - A [DATETIME] is a count of milliseconds ([Z]); [new Date()] is the
      argument [now] of an operation, read once per request.
    - A Prisma table whose rows are reached through their primary key is a
      [gmap]; a table that is filtered or joined is the list of its rows in
      the order the store returns them.
    - A service method is a computation over the store that returns either a
      value or the error it throws, together with the store it leaves
      behind: writes made before a [throw] stay.
    - Logging, the Redis cache writes and the activity log (whose failures
      the code swallows) have no effect on any result and are left out. *)

From Stdlib Require Import QArith Qround Qabs Qminmax Lqa ZArith List Permutation Ascii.
From stdpp Require Import gmap strings list fin_maps pretty.

Local Open Scope string_scope.
#[local] Set Warnings "-register-all".

(** ** JavaScript values and the built-ins the services call *)

Module Js.

(** The value of a [JSON] column or of a request field: [null], a
    boolean, a number, a string, or an array of such values.  (An answer or
    an answer key is an id, a list of ids, a number or a text; objects are
    left out.) *)
Inductive Json : Type :=
| JNull
| JBool (b : bool)
| JNum (n : Q)
| JStr (s : string)
| JArr (items : list Json).

(** Built-ins of the engine whose full definition (number formatting,
    numeric literals, Unicode case mapping and white space, the sorting
    algorithm) lies outside the repository.  Every theorem holds for any
    choice of them.

    [random_sort draws i l] is [l.sort(() => Math.random() - 0.5)] when
    [Math.random()] returns [draws i], [draws (i+1)], ...; it gives the
    sorted array and the index of the next unused draw.  The comparator is
    not consistent, so ECMAScript leaves the resulting order to the engine;
    whatever the algorithm, it rearranges the elements. *)
Class Runtime : Type := {
  number_to_string : Q -> string;      (* Number.prototype.toString *)
  string_to_number : string -> option Q; (* Number(s); None is NaN *)
  toLowerCase : string -> string;
  trim : string -> string;
  random_sort : forall A : Type, (nat -> Q) -> nat -> list A -> list A * nat;
  random_sort_permutation :
    forall (A : Type) (draws : nat -> Q) (i : nat) (l : list A),
      Permutation (fst (random_sort A draws i l)) l
}.
Arguments random_sort {_ A} draws i l.

(** Truthiness, as [||], [&&], [?:] and [if] test it. *)
Definition truthy (v : Json) : bool :=
  match v with
  | JNull => false
  | JBool b => b
  | JNum n => negb (Qeq_bool n 0)
  | JStr s => negb (String.eqb s "")
  | JArr _ => true
  end.

(** [a === b], and the SameValueZero test of [Array.prototype.includes]
    (they differ on NaN only, which JSON cannot hold).  Two arrays read
    from different places are never the same reference. *)
Definition strict_eq (a b : Json) : bool :=
  match a, b with
  | JNull, JNull => true
  | JBool x, JBool y => Bool.eqb x y
  | JNum x, JNum y => Qeq_bool x y
  | JStr x, JStr y => String.eqb x y
  | _, _ => false
  end.

Definition includes (l : list Json) (v : Json) : bool :=
  existsb (fun x => strict_eq x v) l.

Definition isArray (v : Json) : bool :=
  match v with JArr _ => true | _ => false end.

Fixpoint join (sep : string) (l : list string) : string :=
  match l with
  | [] => ""
  | [s] => s
  | s :: rest => s +:+ sep +:+ join sep rest
  end.

Section WithRuntime.
Context `{rt : Runtime}.

(** [v.toString()], and [String(v)] for [null]; inside an array [null]
    prints as the empty string. *)
Fixpoint toString (v : Json) : string :=
  match v with
  | JNull => "null"
  | JBool true => "true"
  | JBool false => "false"
  | JNum n => number_to_string n
  | JStr s => s
  | JArr items =>
      join "," (List.map (fun x => match x with
                                   | JNull => ""
                                   | _ => toString x
                                   end) items)
  end.

(** [Number(v)]; [None] is NaN, and an infinity as well: the one use of
    the result, the distance test of a numerical answer, is false for
    both. *)
Definition toNumber (v : Json) : option Q :=
  match v with
  | JNull => Some 0%Q
  | JBool true => Some 1%Q
  | JBool false => Some 0%Q
  | JNum n => Some n
  | JStr s => string_to_number s
  | JArr _ => string_to_number (toString v)
  end.

(** [String(v || '')]. *)
Definition string_or_empty (v : Json) : string :=
  if truthy v then toString v else "".

End WithRuntime.

(** [Math.round]: to the nearest integer, halves upwards. *)
Definition round (x : Q) : Z := Qfloor (x + (1 # 2))%Q.

End Js.

(** ** [utils/helpers.js] *)

Module Helpers.

(** The errors a request can end with.  [TypeError] is the uncaught
    exception of the engine (a method called on a value that lacks it, a
    property read on [null]); [DbError] is a statement the store rejects. *)
Inductive ApiError : Type :=
| BadRequest (message : string)
| Forbidden (message : string)
| NotFound (message : string)
| TypeError
| DbError.

Definition statusCode (e : ApiError) : Z :=
  match e with
  | BadRequest _ => 400
  | Forbidden _ => 403
  | NotFound _ => 404
  | TypeError | DbError => 500
  end.

Definition calculatePercentage (value total : Q) : Q :=
  if Qeq_bool total 0 then 0%Q
  else (inject_Z (Js.round ((value / total) * 10000)) / 100)%Q.

End Helpers.

(** ** The store: the tables of [prisma/migrations] the services touch *)

Module Store.
Import Js Helpers.

Inductive ExamStatus : Type := draft | published | active | completed | archived.
Inductive AttemptStatus : Type :=
  started | in_progress | submitted | auto_submitted | graded.
Inductive AssignmentMode : Type :=
  by_section | by_department | by_individual | all_students.
Inductive EnrollmentStatus : Type :=
  enrolled | enrollment_completed | dropped | pending.

#[export] Instance ExamStatus_eq_dec : EqDecision ExamStatus.
Proof. solve_decision. Defined.
#[export] Instance AttemptStatus_eq_dec : EqDecision AttemptStatus.
Proof. solve_decision. Defined.
#[export] Instance AssignmentMode_eq_dec : EqDecision AssignmentMode.
Proof. solve_decision. Defined.
#[export] Instance EnrollmentStatus_eq_dec : EqDecision EnrollmentStatus.
Proof. solve_decision. Defined.

(** A row of [question_options]. *)
Record QuestionOption : Type := {
  o_id : string;
  o_text : string;
  o_isCorrect : bool
}.

(** A row of [questions] with its options joined
    ([include: { options: true }]). *)
Record Question : Type := {
  q_id : string;
  questionType : string;
  options : list QuestionOption;
  correctAnswer : Json;
  marks : Q;
  negativeMarks : Q
}.

Record Exam : Type := {
  e_id : string;
  createdById : string;
  e_institutionId : option string;
  courseId : option string;
  assignmentMode : AssignmentMode;
  durationMinutes : Z;
  totalMarks : Q;
  passingPercentage : Q;
  negativeMarking : bool;
  negativeMarkValue : Q;
  shuffleQuestions : bool;
  shuffleOptions : bool;
  maxAttempts : Z;
  e_status : ExamStatus;
  startTime : option Z;
  endTime : option Z
}.

Record ExamAttempt : Type := {
  a_id : string;
  a_examId : string;
  a_studentId : string;
  attemptNumber : Z;
  a_status : AttemptStatus;
  startedAt : Z;
  submittedAt : option Z;
  totalScore : Q;
  maxScore : option Q;
  percentage : option Q;
  correctAnswers : Z;
  wrongAnswers : Z;
  skipped : Z;
  timeTaken : option Z;
  grade : option string;
  passed : option bool
}.

(** A row of [student_answers]; [(sa_attemptId, sa_questionId)] is its
    unique key, and stands for the row's generated [id] as well. *)
Record StudentAnswer : Type := {
  sa_attemptId : string;
  sa_questionId : string;
  selectedAnswer : Json;
  isCorrect : option bool;
  isAnswered : bool;
  isMarkedForReview : bool;
  marksAwarded : Q;
  timeSpent : option Z;
  answeredAt : option Z
}.

Record User : Type := {
  u_id : string;
  sectionId : option string;
  departmentId : option string;
  u_institutionId : option string
}.

Record StudentEnrollment : Type := {
  en_studentId : string;
  en_courseId : string;
  en_status : EnrollmentStatus
}.

Record Db : Type := {
  exams : gmap string Exam;
  questions : gmap string Question;
  users : gmap string User;
  examAttempts : gmap string ExamAttempt;
  examQuestions : list (string * string);   (* (examId, questionId) *)
  examSections : list (string * string);    (* (examId, sectionId) *)
  examDepartments : list (string * string); (* (examId, departmentId) *)
  examStudents : list (string * string);    (* (examId, studentId) *)
  examAssignments : list (string * string); (* (examId, courseId) *)
  studentAnswers : list StudentAnswer;
  studentEnrollments : list StudentEnrollment
}.

(** *** Requests: store passing with exceptions *)

Inductive Outcome (A : Type) : Type :=
| Ok (value : A)
| Throw (error : ApiError).
Arguments Ok {A} value.
Arguments Throw {A} error.

Definition Request (A : Type) : Type := Db -> Outcome A * Db.

Definition ret {A} (a : A) : Request A := fun db => (Ok a, db).
Definition throw {A} (e : ApiError) : Request A := fun db => (Throw e, db).
Definition bind {A B} (c : Request A) (k : A -> Request B) : Request B :=
  fun db =>
    match c db with
    | (Ok a, db') => k a db'
    | (Throw e, db') => (Throw e, db')
    end.
Definition read : Request Db := fun db => (Ok db, db).
Definition write (f : Db -> Db) : Request unit := fun db => (Ok tt, f db).

Declare Scope request_scope.
Delimit Scope request_scope with request.
Notation "'let*' x := c 'in' k" := (bind c (fun x => k))
  (at level 10, x name, c at level 100, k at level 200) : request_scope.
Notation "'do' c 'then' k" := (bind c (fun _ => k))
  (at level 10, c at level 100, k at level 200) : request_scope.

(** [for (const x of l) { body }] with an accumulator. *)
Fixpoint for_each {A S} (l : list A) (body : S -> A -> Request S) (s : S)
  : Request S :=
  match l with
  | [] => ret s
  | x :: rest => bind (body s x) (for_each rest body)
  end.

(** *** Row updates *)

Definition set_exams (f : gmap string Exam -> gmap string Exam) (db : Db) : Db :=
  {| exams := f (exams db); questions := questions db; users := users db;
     examAttempts := examAttempts db; examQuestions := examQuestions db;
     examSections := examSections db; examDepartments := examDepartments db;
     examStudents := examStudents db; examAssignments := examAssignments db;
     studentAnswers := studentAnswers db;
     studentEnrollments := studentEnrollments db |}.

Definition set_examAttempts
  (f : gmap string ExamAttempt -> gmap string ExamAttempt) (db : Db) : Db :=
  {| exams := exams db; questions := questions db; users := users db;
     examAttempts := f (examAttempts db); examQuestions := examQuestions db;
     examSections := examSections db; examDepartments := examDepartments db;
     examStudents := examStudents db; examAssignments := examAssignments db;
     studentAnswers := studentAnswers db;
     studentEnrollments := studentEnrollments db |}.

Definition set_examQuestions
  (f : list (string * string) -> list (string * string)) (db : Db) : Db :=
  {| exams := exams db; questions := questions db; users := users db;
     examAttempts := examAttempts db; examQuestions := f (examQuestions db);
     examSections := examSections db; examDepartments := examDepartments db;
     examStudents := examStudents db; examAssignments := examAssignments db;
     studentAnswers := studentAnswers db;
     studentEnrollments := studentEnrollments db |}.

Definition set_studentAnswers
  (f : list StudentAnswer -> list StudentAnswer) (db : Db) : Db :=
  {| exams := exams db; questions := questions db; users := users db;
     examAttempts := examAttempts db; examQuestions := examQuestions db;
     examSections := examSections db; examDepartments := examDepartments db;
     examStudents := examStudents db; examAssignments := examAssignments db;
     studentAnswers := f (studentAnswers db);
     studentEnrollments := studentEnrollments db |}.

(** [status: { in: ['started', 'in_progress'] }] *)
Definition is_open (s : AttemptStatus) : bool :=
  match s with started | in_progress => true | _ => false end.

(** The rows of a relation table that belong to one exam, projected on
    the other column. *)
Definition targets_of (examId : string) (rows : list (string * string))
  : list string :=
  List.map snd (List.filter (fun r => String.eqb (fst r) examId) rows).

(** [exam.questions.map((rel) => rel.question)]: the questions of an exam
    in row order.  The foreign key of [exam_questions] makes every
    referenced question exist; a dangling row joins to nothing. *)
Definition exam_questions_of (db : Db) (examId : string) : list Question :=
  omap (fun qid => questions db !! qid) (targets_of examId (examQuestions db)).

(** [findMany({ where: { attemptId } })] *)
Definition answers_of (db : Db) (attemptId : string) : list StudentAnswer :=
  List.filter (fun a => String.eqb (sa_attemptId a) attemptId) (studentAnswers db).

Definition same_answer_key (attemptId questionId : string) (a : StudentAnswer) : bool :=
  String.eqb (sa_attemptId a) attemptId && String.eqb (sa_questionId a) questionId.

(** [studentAnswer.update({ where: { id }, data })] *)
Definition update_answer (attemptId questionId : string)
  (f : StudentAnswer -> StudentAnswer) : Request unit :=
  write (set_studentAnswers
           (List.map (fun a => if same_answer_key attemptId questionId a
                               then f a else a))).

End Store.

(** ** [services/attemptService.js] *)

Module AttemptService.
Import Js Helpers Store.
Local Open Scope request_scope.

Definition Qltb (x y : Q) : bool := negb (Qle_bool y x).

(** [x || y] on two numbers. *)
Definition num_or (x y : Q) : Q := if Qeq_bool x 0 then y else x.

Definition calculateGrade (percentage : Q) : string :=
  if Qle_bool 90 percentage then "A+"
  else if Qle_bool 80 percentage then "A"
  else if Qle_bool 70 percentage then "B"
  else if Qle_bool 60 percentage then "C"
  else if Qle_bool 50 percentage then "D"
  else "F".

Section WithRuntime.
Context `{rt : Runtime}.

(** [formatDuration] of [utils/helpers.js]; [%] is the remainder that
    takes the sign of the dividend, [Math.floor] rounds down. *)
Definition formatDuration (seconds : Z) : string :=
  let hours := (seconds / 3600)%Z in
  let minutes := (Z.rem seconds 3600 / 60)%Z in
  let secs := Z.rem seconds 60 in
  let show (n : Z) := number_to_string (inject_Z n) in
  if (0 <? hours)%Z then show hours +:+ "h " +:+ show minutes +:+ "m"
  else if (0 <? minutes)%Z then show minutes +:+ "m " +:+ show secs +:+ "s"
  else show secs +:+ "s".

(** The [mcq] / [multiple_choice] / [true_false] case of [checkAnswer]. *)
Definition check_single (question : Question) (selectedAnswer : Json) : bool :=
  let fallback :=
    String.eqb (trim (toLowerCase (string_or_empty selectedAnswer)))
               (trim (toLowerCase (string_or_empty (correctAnswer question)))) in
  match List.find o_isCorrect (options question) with
  | Some correctOption =>
      (* selectedAnswer?.toString() || selectedAnswer *)
      let selectedId :=
        match selectedAnswer with
        | JNull => JNull
        | _ => let s := toString selectedAnswer in
               if String.eqb s "" then selectedAnswer else JStr s
        end in
      let correctId := o_id correctOption in
      if truthy selectedId && negb (String.eqb correctId "")
      then strict_eq selectedId (JStr correctId)
      else strict_eq selectedAnswer (JStr (o_text correctOption))
  | None => fallback
  end.

(** The [multiple] / [multiple_select] case of [checkAnswer]. *)
Definition check_multiple (question : Question) (selectedAnswer : Json) : bool :=
  match options question with
  | _ :: _ =>
      let correctOptionIds :=
        List.map o_id (List.filter o_isCorrect (options question)) in
      match selectedAnswer with
      | JArr items =>
          (* a?.toString ? a.toString() : a *)
          let selectedIds :=
            List.map (fun a => match a with
                               | JNull => JNull
                               | _ => JStr (toString a)
                               end) items in
          (length selectedIds =? length correctOptionIds)%nat
          && forallb (fun id => includes (List.map JStr correctOptionIds) id)
                     selectedIds
      | _ => false
      end
  | [] =>
      match selectedAnswer, correctAnswer question with
      | JArr items, JArr correct =>
          (length items =? length correct)%nat
          && forallb (fun a => includes correct a) items
      | _, _ => false
      end
  end.

Definition check_numerical (question : Question) (selectedAnswer : Json) : bool :=
  match toNumber selectedAnswer, toNumber (correctAnswer question) with
  | Some a, Some b => Qltb (Qabs (a - b)) (1 # 1000)
  | _, _ => false
  end.

(** [checkAnswer(question, selectedAnswer)].  Only the [short_answer] case
    can raise: it calls [toLowerCase] on both values, which only a string
    has. *)
Definition checkAnswer (question : Question) (selectedAnswer : Json)
  : Outcome bool :=
  let t := questionType question in
  if String.eqb t "mcq" || String.eqb t "multiple_choice"
     || String.eqb t "true_false"
  then Ok (check_single question selectedAnswer)
  else if String.eqb t "multiple" || String.eqb t "multiple_select"
  then Ok (check_multiple question selectedAnswer)
  else if String.eqb t "numerical"
  then Ok (check_numerical question selectedAnswer)
  else if String.eqb t "short_answer"
  then match selectedAnswer, correctAnswer question with
       | JStr s, JStr c =>
           Ok (String.eqb (trim (toLowerCase s)) (trim (toLowerCase c)))
       | _, _ => Throw TypeError
       end
  else Ok false.

(** The counters of [finalizeAttempt]. *)
Record Tally : Type := {
  t_totalScore : Q;
  t_correctAnswers : Z;
  t_wrongAnswers : Z;
  t_skipped : Z
}.

Definition tally0 : Tally :=
  {| t_totalScore := 0; t_correctAnswers := 0; t_wrongAnswers := 0;
     t_skipped := 0 |}.

Definition graded_answer (isCorrect' : bool) (marksAwarded' : Q)
  (a : StudentAnswer) : StudentAnswer :=
  {| sa_attemptId := sa_attemptId a; sa_questionId := sa_questionId a;
     selectedAnswer := selectedAnswer a; isCorrect := Some isCorrect';
     isAnswered := isAnswered a; isMarkedForReview := isMarkedForReview a;
     marksAwarded := marksAwarded'; timeSpent := timeSpent a;
     answeredAt := answeredAt a |}.

(** One turn of the loop over the answers.  [exam] is what
    [exam.findUnique] returned; reading a field of a missing exam raises. *)
Definition grade_answer (db0 : Db) (exam : option Exam) (t : Tally)
  (answer : StudentAnswer) : Request Tally :=
  match questions db0 !! sa_questionId answer with
  | None => ret t                                  (* continue *)
  | Some question =>
      let key_a := sa_attemptId answer in
      let key_q := sa_questionId answer in
      if negb (isAnswered answer) || strict_eq (selectedAnswer answer) JNull
      then
        do update_answer key_a key_q (graded_answer false 0) then
        ret {| t_totalScore := t_totalScore t;
               t_correctAnswers := t_correctAnswers t;
               t_wrongAnswers := t_wrongAnswers t;
               t_skipped := t_skipped t + 1 |}
      else
        match checkAnswer question (selectedAnswer answer) with
        | Throw e => throw e
        | Ok true =>
            let marksValue :=
              if negb (Qeq_bool (marks question) 0) && Qltb 0 (marks question)
              then marks question else 1%Q in
            do update_answer key_a key_q (graded_answer true marksValue) then
            ret {| t_totalScore := t_totalScore t + marksValue;
                   t_correctAnswers := t_correctAnswers t + 1;
                   t_wrongAnswers := t_wrongAnswers t;
                   t_skipped := t_skipped t |}
        | Ok false =>
            match exam with
            | None => throw TypeError
            | Some exam =>
                let marksAwarded' :=
                  if negativeMarking exam
                  then - (num_or (negativeMarks question)
                                 (num_or (negativeMarkValue exam) 0))
                  else 0%Q in
                do update_answer key_a key_q (graded_answer false marksAwarded')
                then
                ret {| t_totalScore :=
                         (if negativeMarking exam
                          then t_totalScore t + marksAwarded'
                          else t_totalScore t);
                       t_correctAnswers := t_correctAnswers t;
                       t_wrongAnswers := t_wrongAnswers t + 1;
                       t_skipped := t_skipped t |}
            end
        end
  end.

(** What [finalizeAttempt] returns. *)
Record GradedResult : Type := {
  r_attemptId : string;
  r_status : AttemptStatus;
  r_totalScore : Q;
  r_maxScore : Q;
  r_percentage : Q;
  r_correctAnswers : Z;
  r_wrongAnswers : Z;
  r_skipped : Z;
  r_timeTaken : string;
  r_grade : string;
  r_passed : bool
}.

Definition finalized (attempt : ExamAttempt) (submitType : AttemptStatus)
  (now : Z) (t : Tally) (percentage' : Q) (timeTaken' : Z) (grade' : string)
  (passed' : bool) : ExamAttempt :=
  {| a_id := a_id attempt; a_examId := a_examId attempt;
     a_studentId := a_studentId attempt;
     attemptNumber := attemptNumber attempt;
     a_status := match submitType with
                 | auto_submitted => auto_submitted
                 | _ => submitted
                 end;
     startedAt := startedAt attempt;
     submittedAt := Some now;
     totalScore := Qmax 0 (t_totalScore t);
     maxScore := maxScore attempt;
     percentage := Some percentage';
     correctAnswers := t_correctAnswers t;
     wrongAnswers := t_wrongAnswers t;
     skipped := t_skipped t;
     timeTaken := Some timeTaken';
     grade := Some grade';
     passed := Some passed' |}.

(** [finalizeAttempt(attemptId, submitType)] *)
Definition finalizeAttempt (now : Z) (attemptId : string)
  (submitType : AttemptStatus) : Request GradedResult :=
  let* db := read in
  match examAttempts db !! attemptId with
  | None => throw (BadRequest "Attempt already submitted")
  | Some attempt =>
      if negb (is_open (a_status attempt))
      then throw (BadRequest "Attempt already submitted")
      else
        let exam := exams db !! a_examId attempt in
        let answers := answers_of db attemptId in
        let* t := for_each answers (grade_answer db exam) tally0 in
        match exam with
        | None => throw TypeError
        | Some exam =>
            let percentage' :=
              calculatePercentage (t_totalScore t) (totalMarks exam) in
            let passed' := Qle_bool (passingPercentage exam) percentage' in
            let grade' := calculateGrade percentage' in
            let timeTaken' := ((now - startedAt attempt) / 1000)%Z in
            let updatedAttempt :=
              finalized attempt submitType now t percentage' timeTaken'
                        grade' passed' in
            do write (set_examAttempts (insert attemptId updatedAttempt)) then
            ret {| r_attemptId := a_id updatedAttempt;
                   r_status := a_status updatedAttempt;
                   r_totalScore := totalScore updatedAttempt;
                   r_maxScore := totalMarks exam;
                   r_percentage := percentage';
                   r_correctAnswers := t_correctAnswers t;
                   r_wrongAnswers := t_wrongAnswers t;
                   r_skipped := t_skipped t;
                   r_timeTaken := formatDuration timeTaken';
                   r_grade := grade';
                   r_passed := passed' |}
        end
  end.

(** [findFirst({ where: { id, studentId, status: { in: [...] } } })] *)
Definition find_open_attempt (db : Db) (attemptId studentId : string)
  : option ExamAttempt :=
  match examAttempts db !! attemptId with
  | Some attempt =>
      if String.eqb (a_studentId attempt) studentId
         && is_open (a_status attempt)
      then Some attempt else None
  | None => None
  end.

Definition submitAttempt (now : Z) (attemptId studentId : string)
  : Request GradedResult :=
  let* db := read in
  match find_open_attempt db attemptId studentId with
  | None => throw (NotFound "Active attempt not found")
  | Some _ => finalizeAttempt now attemptId submitted
  end.

Definition autoSubmitAttempt (now : Z) (attemptId : string)
  : Request GradedResult :=
  finalizeAttempt now attemptId auto_submitted.

(** The row [saveAnswer] creates when the answer has none yet; every
    column the call leaves out takes its default. *)
Definition new_answer (attemptId questionId : string) (value : Json)
  (answered : bool) (answeredAt' : option Z) (timeSpent' : option Z)
  : StudentAnswer :=
  {| sa_attemptId := attemptId; sa_questionId := questionId;
     selectedAnswer := value; isCorrect := None; isAnswered := answered;
     isMarkedForReview := false; marksAwarded := 0;
     timeSpent := timeSpent'; answeredAt := answeredAt' |}.

(** [answer !== null && answer !== undefined]; [None] is [undefined]. *)
Definition is_answer (answer : option Json) : bool :=
  match answer with
  | None | Some JNull => false
  | Some _ => true
  end.

(** [metadata.timeSpent || 0] *)
Definition timeSpent_or_0 (timeSpent' : option Z) : Z :=
  match timeSpent' with Some n => n | None => 0%Z end.

(** [studentAnswer.upsert] of [saveAnswer].  An [undefined] value leaves
    the stored one as it is on update and stores [NULL] on create; the
    foreign key on [questionId] rejects a row for an unknown question. *)
Definition upsert_answer (now : Z) (attemptId questionId : string)
  (answer : option Json) (timeSpent' : option Z) : Request unit :=
  let* db := read in
  if existsb (same_answer_key attemptId questionId) (studentAnswers db)
  then
    update_answer attemptId questionId (fun a =>
      {| sa_attemptId := sa_attemptId a; sa_questionId := sa_questionId a;
         selectedAnswer := match answer with
                           | Some v => v
                           | None => selectedAnswer a
                           end;
         isCorrect := isCorrect a;
         isAnswered := is_answer answer;
         isMarkedForReview := isMarkedForReview a;
         marksAwarded := marksAwarded a;
         timeSpent := Some (timeSpent_or_0 timeSpent');
         answeredAt := Some now |})
  else
    match questions db !! questionId with
    | None => throw DbError
    | Some _ =>
        write (set_studentAnswers (fun rows =>
          app rows [new_answer attemptId questionId
                     (match answer with Some v => v | None => JNull end)
                     (is_answer answer) (Some now)
                     (Some (timeSpent_or_0 timeSpent'))]))
    end.

Definition with_status (s : AttemptStatus) (a : ExamAttempt) : ExamAttempt :=
  {| a_id := a_id a; a_examId := a_examId a; a_studentId := a_studentId a;
     attemptNumber := attemptNumber a; a_status := s;
     startedAt := startedAt a; submittedAt := submittedAt a;
     totalScore := totalScore a; maxScore := maxScore a;
     percentage := percentage a; correctAnswers := correctAnswers a;
     wrongAnswers := wrongAnswers a; skipped := skipped a;
     timeTaken := timeTaken a; grade := grade a; passed := passed a |}.

(** [endTime.setMinutes(endTime.getMinutes() + exam.durationMinutes)] on a
    copy of [startedAt] (daylight-saving shifts of the local clock are not
    modelled). *)
Definition deadline (attempt : ExamAttempt) (exam : Exam) : Z :=
  (startedAt attempt + durationMinutes exam * 60000)%Z.

(** [saveAnswer(attemptId, questionId, answer, studentId, metadata)];
    [timeSpent'] is [metadata.timeSpent]. *)
Definition saveAnswer (now : Z) (attemptId questionId : string)
  (answer : option Json) (studentId : string) (timeSpent' : option Z)
  : Request bool :=
  let* db := read in
  match find_open_attempt db attemptId studentId with
  | None => throw (NotFound "Active attempt not found")
  | Some attempt =>
      match exams db !! a_examId attempt with
      | None => throw TypeError
      | Some exam =>
          if (deadline attempt exam <? now)%Z
          then
            do autoSubmitAttempt now attemptId then
            throw (BadRequest "Time expired. Exam has been auto-submitted.")
          else
            do upsert_answer now attemptId questionId answer timeSpent' then
            do (match a_status attempt with
                | started =>
                    write (set_examAttempts
                             (alter (with_status in_progress) attemptId))
                | _ => ret tt
                end) then
            ret true                                (* { success: true } *)
      end
  end.

(** [markForReview(attemptId, questionId, isMarked, studentId)] *)
Definition markForReview (attemptId questionId : string) (isMarked : bool)
  (studentId : string) : Request bool :=
  let* db := read in
  match find_open_attempt db attemptId studentId with
  | None => throw (NotFound "Active attempt not found")
  | Some _ =>
      if existsb (same_answer_key attemptId questionId) (studentAnswers db)
      then
        do update_answer attemptId questionId (fun a =>
          {| sa_attemptId := sa_attemptId a; sa_questionId := sa_questionId a;
             selectedAnswer := selectedAnswer a; isCorrect := isCorrect a;
             isAnswered := isAnswered a; isMarkedForReview := isMarked;
             marksAwarded := marksAwarded a; timeSpent := timeSpent a;
             answeredAt := answeredAt a |}) then
        ret isMarked
      else
        match questions db !! questionId with
        | None => throw DbError
        | Some _ =>
            do write (set_studentAnswers (fun rows =>
              app rows [{| sa_attemptId := attemptId;
                          sa_questionId := questionId;
                          selectedAnswer := JNull; isCorrect := None;
                          isAnswered := false; isMarkedForReview := isMarked;
                          marksAwarded := 0; timeSpent := None;
                          answeredAt := None |}])) then
            ret isMarked
        end
  end.

(** *** Presenting the questions of an attempt *)

(** [{ selectedAnswer, isAnswered, isMarkedForReview }] *)
Record SavedAnswer : Type := {
  sv_selectedAnswer : Json;
  sv_isAnswered : bool;
  sv_isMarkedForReview : bool
}.

(** A question as the student sees it (its text is left out).
    [p_savedAnswer] is [None] for [null]; [startAttempt] has no such field
    and always leaves it [None]. *)
Record PresentedQuestion : Type := {
  p_id : string;
  p_questionNumber : Z;
  p_questionType : string;
  p_options : list (string * string);              (* { id, text } *)
  p_marks : Q;
  p_negativeMarks : Q;
  p_savedAnswer : option SavedAnswer
}.

(** What [startAttempt] and [resumeAttempt] return, without the title and
    the instructions of the exam. *)
Record AttemptSession : Type := {
  s_attemptId : string;
  s_status : AttemptStatus;
  s_examId : string;
  s_durationMinutes : Z;
  s_totalQuestions : Z;
  s_totalMarks : Q;
  s_negativeMarking : bool;
  s_startedAt : Z;
  s_endTime : Z;
  s_timeRemaining : Z;
  s_questions : list PresentedQuestion;
  (* the three fields below are returned by [resumeAttempt] only *)
  s_answers : list (string * SavedAnswer);
  s_answeredCount : Z;
  s_markedForReviewCount : Z
}.

Definition status_name (s : ExamStatus) : string :=
  match s with
  | draft => "draft" | published => "published" | active => "active"
  | completed => "completed" | archived => "archived"
  end.

(** A non-empty string: what [if (exam.courseId)] and
    [student.sectionId && ...] test on a nullable text column. *)
Definition truthy_id (x : option string) : bool :=
  match x with
  | Some s => negb (String.eqb s "")
  | None => false
  end.

Definition attempts_where (db : Db) (p : ExamAttempt -> bool)
  : list ExamAttempt :=
  List.filter p (List.map snd (map_to_list (examAttempts db))).

(** [q.options.map((o) => ({ id: o.id, text: o.text }))] *)
Definition option_views (q : Question) : list (string * string) :=
  List.map (fun o => (o_id o, o_text o)) (options q).

(** [questions.map((q, index) => ({ ... }))] of [startAttempt]: the options
    of each question are sorted at random in turn when [shuffle] is set. *)
Fixpoint present_started (shuffle : bool) (draws : nat -> Q) (i : nat)
  (index : Z) (qs : list Question) : list PresentedQuestion :=
  match qs with
  | [] => []
  | q :: rest =>
      let '(opts, i') :=
        if shuffle then random_sort draws i (option_views q)
        else (option_views q, i) in
      {| p_id := q_id q; p_questionNumber := index + 1;
         p_questionType := questionType q; p_options := opts;
         p_marks := marks q; p_negativeMarks := negativeMarks q;
         p_savedAnswer := None |}
      :: present_started shuffle draws i' (index + 1) rest
  end.

(** [createMany({ data, skipDuplicates: true })] on [student_answers] *)
Definition create_answers (attemptId : string) (qs : list Question)
  (rows : list StudentAnswer) : list StudentAnswer :=
  fold_left (fun rows q =>
               if existsb (same_answer_key attemptId (q_id q)) rows then rows
               else app rows [new_answer attemptId (q_id q) JNull false
                                        None None])
            qs rows.

Definition with_exam_status (s : ExamStatus) (e : Exam) : Exam :=
  {| e_id := e_id e; createdById := createdById e;
     e_institutionId := e_institutionId e; courseId := courseId e;
     assignmentMode := assignmentMode e;
     durationMinutes := durationMinutes e; totalMarks := totalMarks e;
     passingPercentage := passingPercentage e;
     negativeMarking := negativeMarking e;
     negativeMarkValue := negativeMarkValue e;
     shuffleQuestions := shuffleQuestions e;
     shuffleOptions := shuffleOptions e; maxAttempts := maxAttempts e;
     e_status := s; startTime := startTime e; endTime := endTime e |}.

(** [startAttempt(examId, studentId, metadata)].  [attemptId] is the key
    the store generates for the new row and [draws] the values
    [Math.random()] returns during the call.  The dates that end two of
    the messages are left out. *)
Definition startAttempt (now : Z) (attemptId : string) (draws : nat -> Q)
  (examId studentId : string) : Request AttemptSession :=
  let* db := read in
  match exams db !! examId with
  | None => throw (NotFound "Exam not found")
  | Some exam =>
      if negb (bool_decide (e_status exam = published)
               || bool_decide (e_status exam = active))
      then throw (BadRequest ("Exam is not available. Current status: "
                              +:+ status_name (e_status exam)))
      else if match startTime exam with
              | Some t => (now <? t)%Z
              | None => false
              end
      then throw (BadRequest "Exam has not started yet.")
      else if match endTime exam with
              | Some t => (t <? now)%Z
              | None => false
              end
      then throw (BadRequest "Exam has ended.")
      else if truthy_id (courseId exam)
              && negb (existsb (fun en =>
                         String.eqb (en_studentId en) studentId
                         && bool_decide (Some (en_courseId en) = courseId exam)
                         && bool_decide (en_status en = enrolled))
                       (studentEnrollments db))
      then throw (Forbidden "You are not enrolled in the course for this exam")
      else
        let attemptCount :=
          Z.of_nat (length (attempts_where db (fun a =>
            String.eqb (a_examId a) examId
            && String.eqb (a_studentId a) studentId))) in
        if (maxAttempts exam <=? attemptCount)%Z
        then throw (BadRequest
               ("Maximum attempts reached. You have already attempted this exam "
                +:+ number_to_string (inject_Z attemptCount) +:+ " time(s)."))
        else if existsb (fun a => is_open (a_status a))
                  (attempts_where db (fun a =>
                     String.eqb (a_examId a) examId
                     && String.eqb (a_studentId a) studentId))
        then throw (BadRequest
               "You have an active attempt. Please complete or submit it first.")
        else
          match examAttempts db !! attemptId, users db !! studentId with
          | Some _, _ | _, None => throw DbError
          | None, Some _ =>
              let attempt :=
                {| a_id := attemptId; a_examId := examId;
                   a_studentId := studentId;
                   attemptNumber := attemptCount + 1;
                   a_status := started; startedAt := now;
                   submittedAt := None; totalScore := 0;
                   maxScore := Some (totalMarks exam); percentage := None;
                   correctAnswers := 0; wrongAnswers := 0; skipped := 0;
                   timeTaken := None; grade := None; passed := None |} in
              do write (set_examAttempts (insert attemptId attempt)) then
              let '(questions', i) :=
                if shuffleQuestions exam
                then random_sort draws 0%nat (exam_questions_of db examId)
                else (exam_questions_of db examId, 0%nat) in
              do write (set_studentAnswers
                          (create_answers attemptId questions')) then
              do (if (attemptCount =? 0)%Z
                  then write (set_exams (alter (fun e =>
                         match e_status e with
                         | published => with_exam_status active e
                         | _ => e
                         end) examId))
                  else ret tt) then
              let endTime' := deadline attempt exam in
              ret {| s_attemptId := attemptId; s_status := a_status attempt;
                     s_examId := e_id exam;
                     s_durationMinutes := durationMinutes exam;
                     s_totalQuestions := Z.of_nat (length questions');
                     s_totalMarks := totalMarks exam;
                     s_negativeMarking := negativeMarking exam;
                     s_startedAt := startedAt attempt;
                     s_endTime := endTime';
                     s_timeRemaining := Z.max 0 ((endTime' - now) / 1000);
                     s_questions :=
                       present_started (shuffleOptions exam) draws i 0
                                       questions';
                     s_answers := []; s_answeredCount := 0;
                     s_markedForReviewCount := 0 |}
          end
  end.

Definition saved_view (a : StudentAnswer) : SavedAnswer :=
  {| sv_selectedAnswer := selectedAnswer a; sv_isAnswered := isAnswered a;
     sv_isMarkedForReview := isMarkedForReview a |}.

(** [answerMap[q.id.toString()] || null]: the map is filled row after row,
    so the last row of a question wins. *)
Definition answerMap_lookup (answers : list StudentAnswer) (questionId : string)
  : option SavedAnswer :=
  option_map saved_view
    (List.find (fun a => String.eqb (sa_questionId a) questionId)
               (rev answers)).

(** [questions.map((q, index) => ({ ... }))] of [resumeAttempt] *)
Fixpoint present_resumed (answers : list StudentAnswer) (index : Z)
  (qs : list Question) : list PresentedQuestion :=
  match qs with
  | [] => []
  | q :: rest =>
      {| p_id := q_id q; p_questionNumber := index + 1;
         p_questionType := questionType q; p_options := option_views q;
         p_marks := marks q; p_negativeMarks := negativeMarks q;
         p_savedAnswer := answerMap_lookup answers (q_id q) |}
      :: present_resumed answers (index + 1) rest
  end.

(** [resumeAttempt(attemptOrExamId, studentId, findByExamId)] *)
Definition resumeAttempt (now : Z) (attemptOrExamId studentId : string)
  (findByExamId : bool) : Request AttemptSession :=
  let* db := read in
  let found :=
    if findByExamId
    then head
           (attempts_where db (fun a =>
              String.eqb (a_examId a) attemptOrExamId
              && String.eqb (a_studentId a) studentId
              && is_open (a_status a)))
    else find_open_attempt db attemptOrExamId studentId in
  match found with
  | None => throw (NotFound "No active attempt found")
  | Some attempt =>
      match exams db !! a_examId attempt with
      | None => throw (NotFound "Exam not found")
      | Some exam =>
          let endTime' := deadline attempt exam in
          if (endTime' <? now)%Z
          then
            do autoSubmitAttempt now (a_id attempt) then
            throw (BadRequest "Time expired. Exam has been auto-submitted.")
          else
            let questions' := exam_questions_of db (a_examId attempt) in
            let answers := answers_of db (a_id attempt) in
            ret {| s_attemptId := a_id attempt; s_status := a_status attempt;
                   s_examId := e_id exam;
                   s_durationMinutes := durationMinutes exam;
                   s_totalQuestions := Z.of_nat (length questions');
                   s_totalMarks := totalMarks exam;
                   s_negativeMarking := negativeMarking exam;
                   s_startedAt := startedAt attempt;
                   s_endTime := endTime';
                   s_timeRemaining := Z.max 0 ((endTime' - now) / 1000);
                   s_questions := present_resumed answers 0 questions';
                   s_answers :=
                     List.map (fun a => (sa_questionId a, saved_view a))
                              answers;
                   s_answeredCount :=
                     Z.of_nat (length (List.filter isAnswered answers));
                   s_markedForReviewCount :=
                     Z.of_nat (length (List.filter isMarkedForReview
                                                   answers)) |}
      end
  end.

End WithRuntime.
End AttemptService.

(** ** [services/examService.js] *)

Module ExamService.
Import Js Helpers Store.
Local Open Scope request_scope.

Inductive Role : Type := student | educator | admin.

#[export] Instance Role_eq_dec : EqDecision Role.
Proof. solve_decision. Defined.

Definition truthy_id := AttemptService.truthy_id.
Definition with_exam_status := AttemptService.with_exam_status.

(** The guard every mutation starts with:
    [if (userRole === 'educator') { ... throw ApiError.forbidden(message) }].
    The user row is read only for an educator, and its field only once
    [exam.institutionId] turned out non-empty. *)
Definition check_institution (message : string) (exam : Exam)
  (userId : string) (userRole : Role) : Request unit :=
  match userRole with
  | educator =>
      let* db := read in
      if truthy_id (e_institutionId exam)
      then match users db !! userId with
           | None => throw TypeError
           | Some user =>
               if truthy_id (u_institutionId user)
                  && negb (bool_decide (e_institutionId exam
                                        = u_institutionId user))
               then throw (Forbidden message)
               else ret tt
           end
      else ret tt
  | _ => ret tt
  end.

(** What [getExamById] answers: the exam and its questions. *)
Record ExamView : Type := {
  v_exam : Exam;
  v_questionCount : Z;
  v_questions : list Question
}.

(** [isAssigned] of [getExamById] *)
Definition isAssigned (db : Db) (exam : Exam) (examId userId : string)
  (student' : User) : bool :=
  let assignedSectionIds := targets_of examId (examSections db) in
  let assignedDepartmentIds := targets_of examId (examDepartments db) in
  let assignedStudentIds := targets_of examId (examStudents db) in
  bool_decide (assignmentMode exam = all_students)
  || (truthy_id (sectionId student')
      && existsb (fun x => bool_decide (Some x = sectionId student'))
                 assignedSectionIds)
  || (truthy_id (departmentId student')
      && existsb (fun x => bool_decide (Some x = departmentId student'))
                 assignedDepartmentIds)
  || existsb (String.eqb userId) assignedStudentIds.

(** [['published', 'active', 'completed'].includes(exam.status)] *)
Definition visible_to_students (s : ExamStatus) : bool :=
  match s with
  | published | active | completed => true
  | draft | archived => false
  end.

(** The checks [getExamById] makes for [userRole === 'student']. *)
Definition check_student_access (exam : Exam) (examId userId : string)
  : Request unit :=
  let* db := read in
  if negb (visible_to_students (e_status exam))
  then throw (NotFound ("This exam is currently unavailable ("
                        +:+ AttemptService.status_name (e_status exam)
                        +:+ "). Please ask your instructor to publish it."))
  else
    match users db !! userId with
    | None => throw (NotFound "Student not found")
    | Some student' =>
        if negb (isAssigned db exam examId userId student')
        then throw (Forbidden "This exam is not assigned to you")
        else if truthy_id (e_institutionId exam)
                && truthy_id (u_institutionId student')
                && negb (bool_decide (e_institutionId exam
                                      = u_institutionId student'))
        then throw (NotFound "Exam not found")
        else ret tt
    end.

(** [getExamById(examId, userId, userRole)]; [cached] is what the cache
    holds under the exam's key. *)
Definition getExamById (cached : option ExamView) (examId userId : string)
  (userRole : Role) : Request ExamView :=
  match cached, userRole with
  | Some view, (educator | admin) => ret view
  | _, _ =>
      let* db := read in
      match exams db !! examId with
      | None => throw (NotFound "Exam not found")
      | Some exam =>
          do (match userRole with
              | student => check_student_access exam examId userId
              | _ => ret tt
              end) then
          let questions' := exam_questions_of db examId in
          ret {| v_exam := exam;
                 v_questionCount := Z.of_nat (length questions');
                 v_questions := questions' |}
      end
  end.

(** [updateExam(examId, updateData, userId, userRole)]; [updateData] is
    the patch, as the change it makes to the row. *)
Definition updateExam (examId : string) (updateData : Exam -> Exam)
  (userId : string) (userRole : Role) : Request Exam :=
  let* db := read in
  match exams db !! examId with
  | None => throw (NotFound "Exam not found")
  | Some exam =>
      do check_institution "You can only update exams in your institution"
           exam userId userRole then
      match e_status exam with
      | active | completed =>
          throw (BadRequest "Cannot update an active or completed exam")
      | _ =>
          do write (set_exams (insert examId (updateData exam))) then
          ret (updateData exam)
      end
  end.

Definition not_of_exam (examId : string) (row : string * string) : bool :=
  negb (String.eqb (fst row) examId).

(** [deleteExam(examId, userId, userRole)].  The six deletes are one
    transaction; the foreign key of [exam_attempts] rejects the last one
    while an attempt refers to the exam, and nothing is deleted then. *)
Definition deleteExam (examId userId : string) (userRole : Role)
  : Request bool :=
  let* db := read in
  match exams db !! examId with
  | None => throw (NotFound "Exam not found")
  | Some exam =>
      do check_institution "You can only delete exams in your institution"
           exam userId userRole then
      match e_status exam with
      | active | completed =>
          throw (BadRequest "Cannot delete an active or completed exam")
      | _ =>
          if existsb (fun a => String.eqb (a_examId a) examId)
                     (List.map snd (map_to_list (examAttempts db)))
          then throw DbError
          else
            do write (fun db =>
              {| exams := delete examId (exams db);
                 questions := questions db; users := users db;
                 examAttempts := examAttempts db;
                 examQuestions :=
                   List.filter (not_of_exam examId) (examQuestions db);
                 examSections :=
                   List.filter (not_of_exam examId) (examSections db);
                 examDepartments :=
                   List.filter (not_of_exam examId) (examDepartments db);
                 examStudents :=
                   List.filter (not_of_exam examId) (examStudents db);
                 examAssignments :=
                   List.filter (not_of_exam examId) (examAssignments db);
                 studentAnswers := studentAnswers db;
                 studentEnrollments := studentEnrollments db |}) then
            ret true
      end
  end.

(** [allQuestions.reduce((sum, rel) => sum + (rel.question.marks || 1), 0)] *)
Definition sum_marks (qs : list Question) : Q :=
  fold_left (fun sum q => (sum + AttemptService.num_or (marks q) 1)%Q) qs 0%Q.

Definition with_totalMarks (m : Q) (e : Exam) : Exam :=
  {| e_id := e_id e; createdById := createdById e;
     e_institutionId := e_institutionId e; courseId := courseId e;
     assignmentMode := assignmentMode e;
     durationMinutes := durationMinutes e; totalMarks := m;
     passingPercentage := passingPercentage e;
     negativeMarking := negativeMarking e;
     negativeMarkValue := negativeMarkValue e;
     shuffleQuestions := shuffleQuestions e;
     shuffleOptions := shuffleOptions e; maxAttempts := maxAttempts e;
     e_status := e_status e; startTime := startTime e;
     endTime := endTime e |}.

(** The tail both question-set edits share: recompute [totalMarks] from
    the rows now in [exam_questions] and answer with the exam as stored. *)
Definition recompute_totalMarks (examId : string) (exam : Exam)
  : Request Exam :=
  let* db := read in
  let totalMarks' := sum_marks (exam_questions_of db examId) in
  do write (set_exams (insert examId (with_totalMarks totalMarks' exam))) then
  ret (with_totalMarks totalMarks' exam).

(** [createMany({ data, skipDuplicates: true })] on [exam_questions] *)
Definition create_exam_questions (examId : string) (questionIds : list string)
  (rows : list (string * string)) : list (string * string) :=
  fold_left (fun rows qid =>
               if existsb (fun r => String.eqb (fst r) examId
                                    && String.eqb (snd r) qid) rows
               then rows else app rows [(examId, qid)])
            questionIds rows.

(** [addQuestionsToExam(examId, questionIds, userId, userRole)].
    [findMany({ where: { id: { in: questionIds } } })] yields each existing
    question once, however often its id is listed. *)
Definition addQuestionsToExam (examId : string) (questionIds : list string)
  (userId : string) (userRole : Role) : Request Exam :=
  let* db := read in
  match exams db !! examId with
  | None => throw (NotFound "Exam not found")
  | Some exam =>
      do check_institution "You can only modify exams in your institution"
           exam userId userRole then
      let found := omap (fun qid => questions db !! qid)
                        (remove_dups questionIds) in
      if negb (length found =? length questionIds)%nat
      then throw (BadRequest "Some questions not found")
      else
        do write (set_examQuestions
                    (create_exam_questions examId questionIds)) then
        recompute_totalMarks examId exam
  end.

(** [removeQuestionsFromExam(examId, questionIds, userId, userRole)] *)
Definition removeQuestionsFromExam (examId : string)
  (questionIds : list string) (userId : string) (userRole : Role)
  : Request Exam :=
  let* db := read in
  match exams db !! examId with
  | None => throw (NotFound "Exam not found")
  | Some exam =>
      do check_institution "You can only modify exams in your institution"
           exam userId userRole then
      do write (set_examQuestions
                  (List.filter (fun r =>
                     negb (String.eqb (fst r) examId
                           && existsb (String.eqb (snd r)) questionIds))))
      then
      recompute_totalMarks examId exam
  end.

(** [publishExam(examId, userId, userRole)] *)
Definition publishExam (examId userId : string) (userRole : Role)
  : Request Exam :=
  let* db := read in
  match exams db !! examId with
  | None => throw (NotFound "Exam not found")
  | Some exam =>
      do check_institution "You can only publish exams in your institution"
           exam userId userRole then
      (* exam._count.questions === 0 *)
      if (length (targets_of examId (examQuestions db)) =? 0)%nat
      then throw (BadRequest "Cannot publish exam without questions")
      else
        do write (set_exams (insert examId (with_exam_status published exam)))
        then ret (with_exam_status published exam)
  end.

(** [activateExam(examId, userId, userRole)] *)
Definition activateExam (examId userId : string) (userRole : Role)
  : Request Exam :=
  let* db := read in
  match exams db !! examId with
  | None => throw (NotFound "Exam not found")
  | Some exam =>
      do check_institution "You can only activate exams in your institution"
           exam userId userRole then
      match e_status exam with
      | published =>
          do write (set_exams (insert examId (with_exam_status active exam)))
          then ret (with_exam_status active exam)
      | _ => throw (BadRequest "Only published exams can be activated")
      end
  end.

(** [closeExam(examId, userId, userRole)] *)
Definition closeExam (examId userId : string) (userRole : Role)
  : Request Exam :=
  let* db := read in
  match exams db !! examId with
  | None => throw (NotFound "Exam not found")
  | Some exam =>
      do check_institution "You can only close exams in your institution"
           exam userId userRole then
      match e_status exam with
      | published | active =>
          do write (set_exams (insert examId (with_exam_status completed exam)))
          then ret (with_exam_status completed exam)
      | _ => throw (BadRequest "Only published or active exams can be closed")
      end
  end.

(** [archiveExam(examId, userId, userRole)] *)
Definition archiveExam (examId userId : string) (userRole : Role)
  : Request Exam :=
  let* db := read in
  match exams db !! examId with
  | None => throw (NotFound "Exam not found")
  | Some exam =>
      if bool_decide (userRole = educator)
         && negb (String.eqb (createdById exam) userId)
      then throw (Forbidden "You can only archive your own exams")
      else
        do write (set_exams (insert examId (with_exam_status archived exam)))
        then ret (with_exam_status archived exam)
  end.

(** [createMany({ data, skipDuplicates: true })] on one of the three
    assignment tables. *)
Definition create_targets (examId : string) (ids : list string)
  (rows : list (string * string)) : list (string * string) :=
  fold_left (fun rows id =>
               if existsb (fun r => String.eqb (fst r) examId
                                    && String.eqb (snd r) id) rows
               then rows else app rows [(examId, id)])
            ids rows.

(** [if (ids) { deleteMany({ where: { examId } }); if (ids.length > 0)
    createMany(...) }]; [None] is a field the request leaves out. *)
Definition replace_targets (examId : string) (ids : option (list string))
  (rows : list (string * string)) : list (string * string) :=
  match ids with
  | None => rows
  | Some l => create_targets examId l (List.filter (not_of_exam examId) rows)
  end.

Definition with_assignmentMode (m : AssignmentMode) (e : Exam) : Exam :=
  {| e_id := e_id e; createdById := createdById e;
     e_institutionId := e_institutionId e; courseId := courseId e;
     assignmentMode := m;
     durationMinutes := durationMinutes e; totalMarks := totalMarks e;
     passingPercentage := passingPercentage e;
     negativeMarking := negativeMarking e;
     negativeMarkValue := negativeMarkValue e;
     shuffleQuestions := shuffleQuestions e;
     shuffleOptions := shuffleOptions e; maxAttempts := maxAttempts e;
     e_status := e_status e; startTime := startTime e;
     endTime := endTime e |}.

(** Every id of a target list the request gives passes [known], the
    foreign key of its column. *)
Definition all_known (known : string -> bool) (ids : option (list string))
  : bool :=
  match ids with
  | None => true
  | Some l => forallb known l
  end.

(** [assignExam(examId, assignmentData, userId, userRole)].  The writes
    are one transaction: a target id that its foreign key rejects undoes
    them all.  [knownSections] and [knownDepartments] are the ids of the
    rows of [sections] and [departments], two tables no service here
    writes. *)
Definition assignExam (knownSections knownDepartments : list string)
  (examId : string) (sectionIds departmentIds studentIds : option (list string))
  (assignmentMode' : option AssignmentMode) (userId : string)
  (userRole : Role) : Request Exam :=
  let* db := read in
  match exams db !! examId with
  | None => throw (NotFound "Exam not found")
  | Some exam =>
      do check_institution "You can only assign exams in your institution"
           exam userId userRole then
      if negb (all_known (fun id => existsb (String.eqb id) knownSections)
                         sectionIds
               && all_known (fun id => existsb (String.eqb id) knownDepartments)
                            departmentIds
               && all_known (fun id => bool_decide (is_Some (users db !! id)))
                            studentIds)
      then throw DbError
      else
        let updated :=
          match assignmentMode' with
          | Some m => with_assignmentMode m exam
          | None => exam
          end in
        do write (fun db =>
          {| exams := <[examId := updated]> (exams db);
             questions := questions db; users := users db;
             examAttempts := examAttempts db;
             examQuestions := examQuestions db;
             examSections :=
               replace_targets examId sectionIds (examSections db);
             examDepartments :=
               replace_targets examId departmentIds (examDepartments db);
             examStudents :=
               replace_targets examId studentIds (examStudents db);
             examAssignments := examAssignments db;
             studentAnswers := studentAnswers db;
             studentEnrollments := studentEnrollments db |}) then
        ret updated
  end.

(** What [getExamAnalytics] returns (the title is left out);
    [gradeDistribution] maps a grade to the number of attempts that got
    it. *)
Record ExamAnalytics : Type := {
  an_examId : string;
  an_totalAttempts : Z;
  an_submittedCount : Z;
  an_passedCount : Z;
  an_failedCount : Z;
  an_passRate : Z;
  an_averageScore : Q;
  an_highestScore : Q;
  an_lowestScore : Q;
  an_gradeDistribution : gmap string Z;
  an_pendingAttempts : Z
}.

(** [['submitted', 'auto_submitted', 'graded'].includes(a.status)] *)
Definition is_submitted (s : AttemptStatus) : bool :=
  match s with
  | submitted | auto_submitted | graded => true
  | started | in_progress => false
  end.

(** [a.grade || 'N/A'] *)
Definition grade_or_NA (a : ExamAttempt) : string :=
  match grade a with
  | Some g => if String.eqb g "" then "N/A" else g
  | None => "N/A"
  end.

(** [gradeDistribution[grade] = (gradeDistribution[grade] || 0) + 1], one
    attempt after the other.  The keys are grades as [finalizeAttempt]
    writes them; a grade that named a property every object inherits
    (such as [constructor]) would not count as a number. *)
Definition count_grades (attempts : list ExamAttempt) : gmap string Z :=
  fold_left (fun dist a =>
               <[grade_or_NA a :=
                   (match dist !! grade_or_NA a with
                    | Some n => n
                    | None => 0
                    end + 1)%Z]> dist)
            attempts ∅.

(** [Math.max(...scores)] and [Math.min(...scores)] of a non-empty list. *)
Definition max_score (first : Q) (rest : list Q) : Q := fold_left Qmax rest first.
Definition min_score (first : Q) (rest : list Q) : Q := fold_left Qmin rest first.

(** [getExamAnalytics(examId, userId, userRole)] *)
Definition getExamAnalytics (examId userId : string) (userRole : Role)
  : Request ExamAnalytics :=
  let* db := read in
  match exams db !! examId with
  | None => throw (NotFound "Exam not found")
  | Some exam =>
      do check_institution "Access denied" exam userId userRole then
      let attempts :=
        List.filter (fun a => String.eqb (a_examId a) examId)
                    (List.map snd (map_to_list (examAttempts db))) in
      let submittedAttempts :=
        List.filter (fun a => is_submitted (a_status a)) attempts in
      let passedAttempts :=
        List.filter (fun a => match passed a with
                              | Some b => b
                              | None => false
                              end) submittedAttempts in
      let scores := omap percentage submittedAttempts in
      let n := Z.of_nat (length scores) in
      let averageScore :=
        match scores with
        | [] => 0%Q
        | _ => (fold_left Qplus scores 0 / inject_Z n)%Q
        end in
      let submittedCount := Z.of_nat (length submittedAttempts) in
      let passedCount := Z.of_nat (length passedAttempts) in
      ret {| an_examId := e_id exam;
             an_totalAttempts := Z.of_nat (length attempts);
             an_submittedCount := submittedCount;
             an_passedCount := passedCount;
             an_failedCount := submittedCount - passedCount;
             an_passRate :=
               (if (0 <? submittedCount)%Z
                then Js.round (inject_Z passedCount / inject_Z submittedCount
                               * 100)
                else 0%Z);
             an_averageScore := (inject_Z (Js.round (averageScore * 100)) / 100)%Q;
             an_highestScore :=
               match scores with s :: rest => max_score s rest | [] => 0%Q end;
             an_lowestScore :=
               match scores with s :: rest => min_score s rest | [] => 0%Q end;
             an_gradeDistribution := count_grades submittedAttempts;
             an_pendingAttempts :=
               Z.of_nat (length (List.filter (fun a => is_open (a_status a))
                                             attempts)) |}
  end.

End ExamService.

(** ** [services/attemptService.js]: reading an attempt back

    The two methods that take the role of the requester: they come after
    [ExamService], which declares the roles. *)

Module AttemptReads.
Import Js Helpers Store AttemptService ExamService.
Local Open Scope request_scope.

(** An entry of [detailedAnswers] (the text and the explanation of the
    question are left out). *)
Record DetailedAnswer : Type := {
  d_questionId : string;
  d_questionType : string;
  d_options : list QuestionOption;
  d_selectedAnswer : Json;
  d_isCorrect : option bool;
  d_marksAwarded : Q;
  d_maxMarks : Q;
  d_correctAnswer : Json
}.

(** What [getAttemptResult] returns, without the title of the exam and
    without [showAnswers], which reads a column of the exam that is not
    modelled. *)
Record AttemptResult : Type := {
  ar_attemptId : string;
  ar_examId : string;
  ar_status : AttemptStatus;
  ar_startedAt : Z;
  ar_submittedAt : option Z;
  ar_totalScore : Q;
  ar_maxScore : Q;
  ar_percentage : option Q;
  ar_correctAnswers : Z;
  ar_wrongAnswers : Z;
  ar_skipped : Z;
  ar_timeTaken : string;
  ar_grade : option string;
  ar_passed : option bool;
  ar_answers : list DetailedAnswer
}.

(** [['submitted', 'auto_submitted', 'graded'].includes(attempt.status)] *)
Definition is_closed (s : AttemptStatus) : bool :=
  match s with
  | submitted | auto_submitted | graded => true
  | started | in_progress => false
  end.

(** [answers.map((a) => ({ questionId: a.question.id, ... }))]: reading a
    field of a question that did not join raises. *)
Fixpoint detailed_answers (db : Db) (answers : list StudentAnswer)
  : Outcome (list DetailedAnswer) :=
  match answers with
  | [] => Ok []
  | a :: rest =>
      match questions db !! sa_questionId a with
      | None => Throw TypeError
      | Some q =>
          match detailed_answers db rest with
          | Throw e => Throw e
          | Ok ds =>
              Ok ({| d_questionId := q_id q;
                     d_questionType := questionType q;
                     d_options := options q;
                     d_selectedAnswer := selectedAnswer a;
                     d_isCorrect := isCorrect a;
                     d_marksAwarded := marksAwarded a;
                     d_maxMarks := marks q;
                     d_correctAnswer := correctAnswer q |} :: ds)
          end
      end
  end.

(** The access check of [getAttemptResult] for [userRole === 'educator']:
    the creator of the exam, or an educator of the institution of the
    exam.  The user row is read only once [exam.institutionId] turned out
    non-empty. *)
Definition check_educator_access (attempt : ExamAttempt) (requesterId : string)
  : Request unit :=
  let* db := read in
  match exams db !! a_examId attempt with
  | None => throw TypeError
  | Some exam =>
      if String.eqb (createdById exam) requesterId then ret tt
      else if negb (truthy_id (e_institutionId exam))
      then throw (Forbidden "Access denied")
      else
        match users db !! requesterId with
        | None => throw TypeError
        | Some user =>
            if negb (truthy_id (u_institutionId user))
               || negb (bool_decide (e_institutionId exam
                                     = u_institutionId user))
            then throw (Forbidden "Access denied")
            else ret tt
        end
  end.

Section WithRuntime.
Context `{rt : Runtime}.

(** [getAttemptResult(attemptId, studentId, userRole)]; [studentId] is the
    id of whoever asks.  A [timeTaken] of [null] formats as zero
    seconds. *)
Definition getAttemptResult (attemptId requesterId : string) (userRole : Role)
  : Request AttemptResult :=
  let* db := read in
  match examAttempts db !! attemptId with
  | None => throw (NotFound "Attempt not found")
  | Some attempt =>
      do (match userRole with
          | student =>
              if negb (String.eqb (a_studentId attempt) requesterId)
              then throw (Forbidden "Access denied")
              else ret tt
          | educator => check_educator_access attempt requesterId
          | admin => ret tt
          end) then
      if negb (is_closed (a_status attempt))
      then throw (BadRequest "Attempt not yet submitted")
      else
        match detailed_answers db (answers_of db attemptId) with
        | Throw e => throw e
        | Ok detailedAnswers =>
            match exams db !! a_examId attempt with
            | None => throw TypeError
            | Some exam =>
                ret {| ar_attemptId := a_id attempt;
                       ar_examId := e_id exam;
                       ar_status := a_status attempt;
                       ar_startedAt := startedAt attempt;
                       ar_submittedAt := submittedAt attempt;
                       ar_totalScore := totalScore attempt;
                       ar_maxScore := totalMarks exam;
                       ar_percentage := percentage attempt;
                       ar_correctAnswers := correctAnswers attempt;
                       ar_wrongAnswers := wrongAnswers attempt;
                       ar_skipped := skipped attempt;
                       ar_timeTaken :=
                         formatDuration
                           (match timeTaken attempt with
                            | Some seconds => seconds
                            | None => 0%Z
                            end);
                       ar_grade := grade attempt;
                       ar_passed := passed attempt;
                       ar_answers := detailedAnswers |}
            end
        end
  end.

(** A question of [getAttemptDetails]: as [resumeAttempt] presents it, but
    without [negativeMarks]. *)
Record DetailQuestion : Type := {
  dq_id : string;
  dq_questionNumber : Z;
  dq_questionType : string;
  dq_options : list (string * string);
  dq_marks : Q;
  dq_savedAnswer : option SavedAnswer
}.

(** What [getAttemptDetails] returns: the questions of an attempt under
    way, or the result of a closed one. *)
Inductive AttemptDetails : Type :=
| UnderWay (attemptId examId : string) (status : AttemptStatus)
           (startedAt' durationMinutes' : Z) (questions' : list DetailQuestion)
| Closed (result : AttemptResult).

(** [answerMap] of [getAttemptDetails], keyed by [a.question.id]: the
    entries in the order the rows are read. *)
Fixpoint details_answerMap (db : Db) (answers : list StudentAnswer)
  : Outcome (list (string * SavedAnswer)) :=
  match answers with
  | [] => Ok []
  | a :: rest =>
      match questions db !! sa_questionId a with
      | None => Throw TypeError
      | Some q =>
          match details_answerMap db rest with
          | Throw e => Throw e
          | Ok entries => Ok ((q_id q, saved_view a) :: entries)
          end
      end
  end.

(** [answerMap[q.id.toString()] || null]: the last entry written under
    the key. *)
Definition details_lookup (entries : list (string * SavedAnswer))
  (questionId : string) : option SavedAnswer :=
  option_map snd
    (List.find (fun e => String.eqb (fst e) questionId) (rev entries)).

Fixpoint present_details (entries : list (string * SavedAnswer)) (idx : Z)
  (qs : list Question) : list DetailQuestion :=
  match qs with
  | [] => []
  | q :: rest =>
      {| dq_id := q_id q; dq_questionNumber := idx + 1;
         dq_questionType := questionType q; dq_options := option_views q;
         dq_marks := marks q;
         dq_savedAnswer := details_lookup entries (q_id q) |}
      :: present_details entries (idx + 1) rest
  end.

(** [getAttemptDetails(attemptId, userId, userRole)] *)
Definition getAttemptDetails (attemptId userId : string) (userRole : Role)
  : Request AttemptDetails :=
  let* db := read in
  match examAttempts db !! attemptId with
  | None => throw (NotFound "Attempt not found")
  | Some attempt =>
      if bool_decide (userRole = student)
         && negb (String.eqb (a_studentId attempt) userId)
      then throw (Forbidden "Access denied")
      else if is_open (a_status attempt)
      then
        match exams db !! a_examId attempt with
        | None => throw TypeError
        | Some exam =>
            match details_answerMap db (answers_of db attemptId) with
            | Throw e => throw e
            | Ok entries =>
                ret (UnderWay (a_id attempt) (e_id exam) (a_status attempt)
                       (startedAt attempt) (durationMinutes exam)
                       (present_details entries 0
                          (exam_questions_of db (a_examId attempt))))
            end
        end
      else
        let* result := getAttemptResult attemptId userId userRole in
        ret (Closed result)
  end.

End WithRuntime.
End AttemptReads.

(** ** A reference engine

    One concrete choice of the built-ins, used to run the services on
    explicit data.  It is exact on what those runs need (integers print in
    decimal, ASCII letters and white space, numerals in plain decimal
    notation, insertion sort), and makes no claim beyond that. *)

Module Reference.
Import Js.

(** Digits after the decimal point of [num / den], at most [fuel] of them. *)
Fixpoint fraction_digits (fuel : nat) (num den : Z) : string :=
  match fuel with
  | O => ""
  | S fuel' =>
      if (num =? 0)%Z then ""
      else pretty (num * 10 / den)%Z
           +:+ fraction_digits fuel' ((num * 10) mod den)%Z den
  end.

Definition print_number (q : Q) : string :=
  let r := Qred q in
  let n := Qnum r in
  let d := Zpos (Qden r) in
  if (d =? 1)%Z then pretty n
  else (if (n <? 0)%Z then "-" else "")
       +:+ pretty (Z.abs n / d)%Z +:+ "."
       +:+ fraction_digits 20 (Z.abs n mod d)%Z d.

Definition is_space (c : ascii) : bool :=
  let n := nat_of_ascii c in
  (n =? 32)%nat || ((9 <=? n)%nat && (n <=? 13)%nat).

Fixpoint drop_spaces (s : string) : string :=
  match s with
  | String c rest => if is_space c then drop_spaces rest else s
  | EmptyString => s
  end.

Definition trim_ascii (s : string) : string :=
  String.rev (drop_spaces (String.rev (drop_spaces s))).

Definition lower_ascii (c : ascii) : ascii :=
  let n := nat_of_ascii c in
  if (65 <=? n)%nat && (n <=? 90)%nat then ascii_of_nat (n + 32) else c.

Fixpoint lower_case (s : string) : string :=
  match s with
  | String c rest => String (lower_ascii c) (lower_case rest)
  | EmptyString => EmptyString
  end.

Definition digit_of (c : ascii) : option Z :=
  let n := nat_of_ascii c in
  if (48 <=? n)%nat && (n <=? 57)%nat then Some (Z.of_nat (n - 48)) else None.

(** Reads [digits] or [digits.digits]: the value so far, the scale of the
    fraction read so far ([None] before the point). *)
Fixpoint read_decimal (s : string) (value : Z) (scale : option positive)
  (seen_digit : bool) : option Q :=
  match s with
  | EmptyString =>
      if seen_digit
      then Some (Qred (value # match scale with Some p => p | None => 1 end))
      else None
  | String c rest =>
      match digit_of c with
      | Some d =>
          read_decimal rest (value * 10 + d)
            (option_map (fun p => (p * 10)%positive) scale) true
      | None =>
          if Ascii.eqb c "."%char
          then match scale with
               | None => read_decimal rest value (Some 1%positive) seen_digit
               | Some _ => None
               end
          else None
      end
  end.

Definition parse_number (s : string) : option Q :=
  match trim_ascii s with
  | EmptyString => Some 0%Q
  | String c rest =>
      if Ascii.eqb c "-"%char
      then option_map Qopp (read_decimal rest 0 None false)
      else if Ascii.eqb c "+"%char
      then read_decimal rest 0 None false
      else read_decimal (String c rest) 0 None false
  end.

(** Insertion sort under the comparator [() => Math.random() - 0.5]: the
    element moves left past its neighbour while the comparator is
    negative.  [sorted_rev] is the sorted prefix, right end first. *)
Fixpoint insert_from_right {A} (draws : nat -> Q) (i : nat) (x : A)
  (sorted_rev : list A) : list A * nat :=
  match sorted_rev with
  | [] => ([x], i)
  | y :: rest =>
      if AttemptService.Qltb (draws i - (1 # 2)) 0
      then let '(r, j) := insert_from_right draws (S i) x rest in (y :: r, j)
      else (x :: y :: rest, S i)
  end.

Fixpoint insertion_sort_from {A} (draws : nat -> Q) (i : nat)
  (sorted_rev : list A) (l : list A) : list A * nat :=
  match l with
  | [] => (rev sorted_rev, i)
  | x :: rest =>
      let '(sorted_rev', j) := insert_from_right draws i x sorted_rev in
      insertion_sort_from draws j sorted_rev' rest
  end.

Definition sort_random {A} (draws : nat -> Q) (i : nat) (l : list A)
  : list A * nat :=
  insertion_sort_from draws i [] l.

Lemma insert_from_right_permutation {A} draws i (x : A) sorted_rev :
  Permutation (fst (insert_from_right draws i x sorted_rev)) (x :: sorted_rev).
Proof.
  revert i; induction sorted_rev as [|y rest IH]; intros i; simpl.
  - reflexivity.
  - destruct (AttemptService.Qltb _ _).
    + specialize (IH (S i)).
      destruct (insert_from_right draws (S i) x rest) as [r j]; simpl in *.
      rewrite IH. apply perm_swap.
    + reflexivity.
Qed.

Lemma insertion_sort_from_permutation {A} draws (l : list A) :
  forall i sorted_rev,
    Permutation (fst (insertion_sort_from draws i sorted_rev l))
                (sorted_rev ++ l)%list.
Proof.
  induction l as [|x rest IH]; intros i sorted_rev; simpl.
  - rewrite app_nil_r. symmetry. apply Permutation_rev.
  - pose proof (insert_from_right_permutation draws i x sorted_rev) as Hins.
    destruct (insert_from_right draws i x sorted_rev) as [s j]; simpl in Hins.
    rewrite IH, Hins. apply Permutation_middle.
Qed.

#[export] Instance runtime : Runtime := {|
  number_to_string := print_number;
  string_to_number := parse_number;
  toLowerCase := lower_case;
  trim := trim_ascii;
  random_sort := @sort_random;
  random_sort_permutation := fun A draws i l =>
    insertion_sort_from_permutation draws l i []
|}.

End Reference.


(** ** Vocabulary of the properties *)

Module Wf.
Import Js Helpers Store AttemptService.

(** The row [finalizeAttempt] stores, given the counters of the loop. *)
Definition finalized_row (attempt : ExamAttempt) (exam : Exam)
  (submitType : AttemptStatus) (now : Z) (t : Tally) : ExamAttempt :=
  let p := calculatePercentage (t_totalScore t) (totalMarks exam) in
  finalized attempt submitType now t p ((now - startedAt attempt) / 1000)%Z
            (calculateGrade p) (Qle_bool (passingPercentage exam) p).

(** The stored answers of the store, without their grading columns. *)
Definition saved_values (db : Db)
  : list (string * string * Json * bool) :=
  List.map (fun a => (sa_attemptId a, sa_questionId a, selectedAnswer a,
                      isAnswered a))
           (studentAnswers db).

(** The ids of the options flagged correct, and equality of two lists of
    ids as sets: the words of the specification for multi-select. *)
Definition correct_option_ids (q : Question) : list string :=
  List.map o_id (List.filter o_isCorrect (options q)).

Definition same_set (l k : list string) : Prop :=
  list_to_set l =@{gset string} list_to_set k.

(** The ids of the questions of a session, in the order presented. *)
Definition presented_ids (s : AttemptSession) : list string :=
  List.map p_id (s_questions s).

Definition stored_ids (db : Db) (examId : string) : list string :=
  List.map q_id (exam_questions_of db examId).

(** *** Starting an attempt *)

(** [attemptCount]: the attempts of a student on an exam, whatever their
    status. *)
Definition attempt_count (db : Db) (examId studentId : string) : Z :=
  Z.of_nat (length (attempts_where db (fun a =>
    String.eqb (a_examId a) examId && String.eqb (a_studentId a) studentId))).

(** [activeAttempt] is found. *)
Definition has_open_attempt (db : Db) (examId studentId : string) : bool :=
  existsb (fun a => is_open (a_status a))
    (attempts_where db (fun a =>
       String.eqb (a_examId a) examId && String.eqb (a_studentId a) studentId)).

(** The exam lets the student in at [now]: it is published or active, its
    time window holds [now], and the student is enrolled in its course if
    it has one. *)
Definition open_for (now : Z) (db : Db) (exam : Exam) (studentId : string)
  : bool :=
  (bool_decide (e_status exam = published)
   || bool_decide (e_status exam = active))
  && negb (match startTime exam with Some t => (now <? t)%Z | None => false end)
  && negb (match endTime exam with Some t => (t <? now)%Z | None => false end)
  && negb (truthy_id (courseId exam)
           && negb (existsb (fun en =>
                      String.eqb (en_studentId en) studentId
                      && bool_decide (Some (en_courseId en) = courseId exam)
                      && bool_decide (en_status en = enrolled))
                    (studentEnrollments db))).

(** The row [startAttempt] creates. *)
Definition new_attempt (now : Z) (attemptId examId studentId : string)
  (exam : Exam) (count : Z) : ExamAttempt :=
  {| a_id := attemptId; a_examId := examId; a_studentId := studentId;
     attemptNumber := count + 1; a_status := started; startedAt := now;
     submittedAt := None; totalScore := 0;
     maxScore := Some (totalMarks exam); percentage := None;
     correctAnswers := 0; wrongAnswers := 0; skipped := 0;
     timeTaken := None; grade := None; passed := None |}.

(** [updateMany({ where: { id, status: 'published' }, data: { status:
    'active' } })] on one row. *)
Definition activate_if_published (e : Exam) : Exam :=
  match e_status e with
  | published => with_exam_status active e
  | _ => e
  end.

(** At most one attempt of a student on an exam is open. *)
Definition one_open_attempt (db : Db) : Prop :=
  forall id1 id2 a1 a2,
    examAttempts db !! id1 = Some a1 ->
    examAttempts db !! id2 = Some a2 ->
    a_examId a1 = a_examId a2 ->
    a_studentId a1 = a_studentId a2 ->
    is_open (a_status a1) = true ->
    is_open (a_status a2) = true ->
    id1 = id2.

(** The primary keys of the store: a question row sits under its own id,
    and an exam lists a question once. *)
Definition questions_keyed (db : Db) : Prop :=
  forall k q, questions db !! k = Some q -> q_id q = k.

(** The foreign key of [student_answers.questionId]. *)
Definition answers_joined (db : Db) (attemptId : string) : bool :=
  forallb (fun a => bool_decide (is_Some (questions db !! sa_questionId a)))
          (answers_of db attemptId).

(** An attempt row sits under its own id. *)
Definition attempts_keyed (db : Db) : Prop :=
  forall k a, examAttempts db !! k = Some a -> a_id a = k.

(** *** Working on an attempt *)

(** What a question shows as saved once [saveAnswer] has stored [answer]
    for it, [prev] being what it showed before: an [undefined] answer
    keeps the stored value, and the review mark is kept. *)
Definition upserted_view (answer : option Json) (prev : option SavedAnswer)
  : SavedAnswer :=
  {| sv_selectedAnswer :=
       match answer, prev with
       | Some v, _ => v
       | None, Some p => sv_selectedAnswer p
       | None, None => JNull
       end;
     sv_isAnswered := is_answer answer;
     sv_isMarkedForReview :=
       match prev with
       | Some p => sv_isMarkedForReview p
       | None => false
       end |}.

(** The same for [markForReview]. *)
Definition marked_view (isMarked : bool) (prev : option SavedAnswer)
  : SavedAnswer :=
  {| sv_selectedAnswer :=
       match prev with Some p => sv_selectedAnswer p | None => JNull end;
     sv_isAnswered :=
       match prev with Some p => sv_isAnswered p | None => false end;
     sv_isMarkedForReview := isMarked |}.

(** The saved answer a session presents for a question, if it presents
    the question. *)
Definition presented_answer (s : AttemptSession) (questionId : string)
  : option (option SavedAnswer) :=
  option_map p_savedAnswer
    (List.find (fun p => String.eqb (p_id p) questionId) (s_questions s)).

(** *** Assignment and analytics *)

(** A target table after [assignExam]: the targets of the exam are the
    ids given, or the table is as before when the request leaves the
    field out; the targets of every other exam are as before. *)
Definition replaced (examId : string) (ids : option (list string))
  (before after : list (string * string)) : Prop :=
  match ids with
  | Some l => forall x, In x (targets_of examId after) <-> In x l
  | None => after = before
  end
  /\ forall other, other <> examId ->
                   targets_of other after = targets_of other before.

(** The grades [finalizeAttempt] writes, the only method that writes the
    column: one of the six of [calculateGrade], or none yet. *)
Definition finalize_grades : list string := ["A+"; "A"; "B"; "C"; "D"; "F"].

Definition graded_by_finalize (a : ExamAttempt) : bool :=
  match grade a with
  | None => true
  | Some g => existsb (String.eqb g) finalize_grades
  end.

(** The number of attempts a grade distribution accounts for. *)
Definition distribution_total (dist : gmap string Z) : Z :=
  map_fold (fun _ n acc => (n + acc)%Z) 0%Z dist.

(** *** Frames *)

(** Of the tables of the store, [db'] differs from [db] at most in the
    attempts and their answers. *)
Definition only_attempts_written (db db' : Db) : Prop :=
  db' = set_studentAnswers (fun _ => studentAnswers db')
          (set_examAttempts (fun _ => examAttempts db') db).

Section WithRuntime.
Context `{rt : Runtime}.

(** *** Answers that can be checked *)



(** The questions of [startAttempt] after the optional shuffle. *)
Definition started_questions (draws : nat -> Q) (db : Db) (exam : Exam)
  (examId : string) : list Question :=
  if shuffleQuestions exam
  then fst (random_sort draws 0%nat (exam_questions_of db examId))
  else exam_questions_of db examId.

(** The store a successful [startAttempt] leaves. *)
Definition started_store (now : Z) (attemptId : string) (draws : nat -> Q)
  (examId studentId : string) (exam : Exam) (db : Db) : Db :=
  let count := attempt_count db examId studentId in
  let db1 :=
    set_studentAnswers
      (create_answers attemptId (started_questions draws db exam examId))
      (set_examAttempts
         (insert attemptId
                 (new_attempt now attemptId examId studentId exam count)) db) in
  if (count =? 0)%Z
  then set_exams (alter activate_if_published examId) db1
  else db1.

End WithRuntime.

End Wf.

(** ** Data for the scenarios *)

Module Examples.
Import Js Helpers Store AttemptService ExamService.

Definition choice (id text : string) (correct : bool) : QuestionOption :=
  {| o_id := id; o_text := text; o_isCorrect := correct |}.

Definition question (id type : string) (opts : list QuestionOption)
  (key : Json) (m : Q) : Question :=
  {| q_id := id; questionType := type; options := opts;
     correctAnswer := key; marks := m; negativeMarks := 0 |}.

Definition q1 : Question :=
  question "q1" "mcq" [choice "o1" "yes" true; choice "o2" "no" false] JNull 5.
Definition q2 : Question :=
  question "q2" "mcq" [choice "o3" "yes" true; choice "o4" "no" false] JNull 5.
Definition q3 : Question :=
  question "q3" "multiple"
           [choice "a" "2" true; choice "b" "3" true; choice "c" "4" false]
           JNull 5.
Definition q4 : Question :=
  question "q4" "short_answer" [] (JStr "Paris") 5.

(** Two questions of five marks each, thirty minutes, negative marking of
    two marks per wrong answer. *)
Definition exam (s : ExamStatus) (total : Q) : Exam :=
  {| e_id := "e1"; createdById := "t1"; e_institutionId := Some "i1";
     courseId := None; assignmentMode := by_section; durationMinutes := 30;
     totalMarks := total; passingPercentage := 40; negativeMarking := true;
     negativeMarkValue := 2; shuffleQuestions := true;
     shuffleOptions := false; maxAttempts := 1; e_status := s;
     startTime := None; endTime := None |}.

Definition attempt : ExamAttempt :=
  {| a_id := "a1"; a_examId := "e1"; a_studentId := "s1";
     attemptNumber := 1; a_status := in_progress; startedAt := 0;
     submittedAt := None; totalScore := 0; maxScore := Some 10%Q;
     percentage := None; correctAnswers := 0; wrongAnswers := 0;
     skipped := 0; timeTaken := None; grade := None; passed := None |}.

Definition answer (questionId : string) (value : Json) : StudentAnswer :=
  {| sa_attemptId := "a1"; sa_questionId := questionId;
     selectedAnswer := value; isCorrect := None; isAnswered := true;
     isMarkedForReview := false; marksAwarded := 0; timeSpent := None;
     answeredAt := None |}.

(** A student of section [sec1] and department [dep1]. *)
Definition student1 : User :=
  {| u_id := "s1"; sectionId := Some "sec1"; departmentId := Some "dep1";
     u_institutionId := Some "i1" |}.

Definition store (e : Exam) (attempts : gmap string ExamAttempt)
  (answers : list StudentAnswer) : Db :=
  {| exams := {[ "e1" := e ]};
     questions := <["q1" := q1]> (<["q2" := q2]> (<["q3" := q3]>
                                                    {[ "q4" := q4 ]}));
     users := {[ "s1" := student1 ]};
     examAttempts := attempts;
     examQuestions := [("e1", "q1"); ("e1", "q2")];
     examSections := [("e1", "sec2")];
     examDepartments := [];
     examStudents := [];
     examAssignments := [];
     studentAnswers := answers;
     studentEnrollments := [] |}.

(** The attempt is under way and both questions are answered wrongly. *)
Definition both_wrong : Db :=
  store (exam active 10) {[ "a1" := attempt ]}
        [answer "q1" (JStr "o2"); answer "q2" (JStr "o4")].


(** The attempt on the exam of the questions q1 and q4, with the number
    42 saved for the short-answer question q4; [total] is the totalMarks
    of the exam. *)
Definition number_for_text (total : Q) : Db :=
  set_examQuestions (fun _ => [("e1", "q1"); ("e1", "q4")])
    (store (exam active total) {[ "a1" := attempt ]}
           [answer "q1" (JStr "o1"); answer "q4" (JNum 42)]).

(** No attempt yet; the exam is in the state given. *)
Definition fresh (s : ExamStatus) : Db := store (exam s 10) ∅ [].

(** The exam with negative marking switched off. *)
Definition lenient (e : Exam) : Exam :=
  {| e_id := e_id e; createdById := createdById e;
     e_institutionId := e_institutionId e; courseId := courseId e;
     assignmentMode := assignmentMode e;
     durationMinutes := durationMinutes e; totalMarks := totalMarks e;
     passingPercentage := passingPercentage e; negativeMarking := false;
     negativeMarkValue := negativeMarkValue e;
     shuffleQuestions := shuffleQuestions e;
     shuffleOptions := shuffleOptions e; maxAttempts := maxAttempts e;
     e_status := e_status e; startTime := startTime e;
     endTime := endTime e |}.

(** The exam with three attempts allowed. *)
Definition retakable (e : Exam) : Exam :=
  {| e_id := e_id e; createdById := createdById e;
     e_institutionId := e_institutionId e; courseId := courseId e;
     assignmentMode := assignmentMode e;
     durationMinutes := durationMinutes e; totalMarks := totalMarks e;
     passingPercentage := passingPercentage e;
     negativeMarking := negativeMarking e;
     negativeMarkValue := negativeMarkValue e;
     shuffleQuestions := shuffleQuestions e;
     shuffleOptions := shuffleOptions e; maxAttempts := 3;
     e_status := e_status e; startTime := startTime e;
     endTime := endTime e |}.

(** An educator of another institution. *)
Definition teacher2 : User :=
  {| u_id := "t2"; sectionId := None; departmentId := None;
     u_institutionId := Some "i2" |}.

Definition with_user (u : User) (db : Db) : Db :=
  {| exams := exams db; questions := questions db;
     users := <[u_id u := u]> (users db);
     examAttempts := examAttempts db; examQuestions := examQuestions db;
     examSections := examSections db; examDepartments := examDepartments db;
     examStudents := examStudents db; examAssignments := examAssignments db;
     studentAnswers := studentAnswers db;
     studentEnrollments := studentEnrollments db |}.

(** The attempt under way on exam [e], the first question answered
    rightly and the second wrongly. *)
Definition under_way (e : Exam) : Db :=
  store e {[ "a1" := attempt ]}
        [answer "q1" (JStr "o1"); answer "q2" (JStr "o4")].

End Examples.

(** * Properties *)

Import Js Helpers Store AttemptService ExamService Wf.

(** Turns the boolean tests on rationals of the context into order facts. *)
Ltac q_tests :=
  repeat match goal with
  | H : Qle_bool _ _ = true |- _ => apply Qle_bool_iff in H
  | H : Qle_bool _ _ = false |- _ =>
      apply not_true_iff_false in H; rewrite Qle_bool_iff in H
  | H : Qeq_bool _ _ = true |- _ => apply Qeq_bool_iff in H
  | H : Qeq_bool _ _ = false |- _ =>
      apply not_true_iff_false in H; rewrite Qeq_bool_iff in H
  end.

(** ** Percentage and grade *)


Lemma calculateGrade_D (p : Q) :
  calculateGrade p = "D" <-> (50 <= p)%Q /\ (p < 60)%Q.
Proof.
  unfold calculateGrade.
  destruct (Qle_bool 90 p) eqn:H90; destruct (Qle_bool 80 p) eqn:H80;
  destruct (Qle_bool 70 p) eqn:H70; destruct (Qle_bool 60 p) eqn:H60;
  destruct (Qle_bool 50 p) eqn:H50; q_tests;
    (split; [intros E; try discriminate E | intros [Hlo Hhi]]);
    try reflexivity; try (exfalso; lra); try (split; lra).
Qed.

Lemma calculateGrade_F (p : Q) :
  calculateGrade p = "F" <-> (p < 50)%Q.
Proof.
  unfold calculateGrade.
  destruct (Qle_bool 90 p) eqn:H90; destruct (Qle_bool 80 p) eqn:H80;
  destruct (Qle_bool 70 p) eqn:H70; destruct (Qle_bool 60 p) eqn:H60;
  destruct (Qle_bool 50 p) eqn:H50; q_tests;
    (split; [intros E; try discriminate E | intros Hlt]);
    try reflexivity; try (exfalso; lra); try lra.
Qed.

(** C2 as stated fails: 40 is graded F, not D. *)
Lemma grade_bands_counterexample :
  ~ (calculateGrade 90 = "A+"
     /\ calculateGrade (8999 # 100) = "A"
     /\ calculateGrade 40 = "D"
     /\ calculateGrade (3999 # 100) = "F").
Proof. intros (_ & _ & H & _). discriminate H. Qed.

(** ** The grading loop *)

Section Grading.
Context `{rt : Runtime}.



(** Grading writes the [isCorrect] and [marksAwarded] columns only. *)
Lemma update_answer_saved_values (a q : string) (c : bool) (m : Q) (db : Db) :
  saved_values (snd (update_answer a q (graded_answer c m) db))
  = saved_values db.
Proof.
  unfold saved_values, update_answer, write; simpl.
  rewrite List.map_map. apply List.map_ext. intros x.
  by destruct (same_answer_key a q x).
Qed.

Lemma grade_answer_saved_values (db0 : Db) (exam : option Exam) (t : Tally)
  (a : StudentAnswer) (db : Db) :
  saved_values (snd (grade_answer db0 exam t a db)) = saved_values db.
Proof.
  unfold grade_answer.
  destruct (questions db0 !! sa_questionId a) as [q|]; [|done].
  destruct (_ || _).
  { apply (update_answer_saved_values _ _ false 0 db). }
  destruct (checkAnswer q (selectedAnswer a)) as [[|]|e]; [| |done].
  - apply (update_answer_saved_values _ _ true _ db).
  - destruct exam as [exam|]; [|done].
    apply (update_answer_saved_values _ _ false _ db).
Qed.

Lemma grading_saved_values (db0 : Db) (exam : option Exam)
  (answers : list StudentAnswer) :
  forall t db,
    saved_values (snd (for_each answers (grade_answer db0 exam) t db))
    = saved_values db.
Proof.
  induction answers as [|a rest IH]; simpl; intros t db; [done|].
  unfold bind at 1.
  pose proof (grade_answer_saved_values db0 exam t a db) as Ha.
  destruct (grade_answer db0 exam t a db) as [[t1|e] db1]; simpl in *.
  - by rewrite IH.
  - done.
Qed.

(** [finalizeAttempt] never touches the stored answer values. *)
Lemma finalizeAttempt_saved_values (now : Z) (attemptId : string)
  (submitType : AttemptStatus) (db : Db) :
  saved_values (snd (finalizeAttempt now attemptId submitType db))
  = saved_values db.
Proof.
  unfold finalizeAttempt, bind at 1, read.
  destruct (examAttempts db !! attemptId) as [attempt|]; [|done].
  destruct (negb (is_open (a_status attempt))); [done|].
  unfold bind at 1.
  pose proof (grading_saved_values db (exams db !! a_examId attempt)
                (answers_of db attemptId) tally0 db) as Hg.
  destruct (for_each _ _ _ _) as [[t|e] db1]; simpl in *; [|done].
  destruct (exams db !! a_examId attempt) as [exam|]; [|done].
  done.
Qed.

End Grading.

(** ** Finalize *)

Section Finalize.
Context `{rt : Runtime}.


(** A successful finalize leaves the attempt closed, with the scores it
    returned. *)
Lemma finalizeAttempt_closes (now : Z) (attemptId : string)
  (submitType : AttemptStatus) (db db1 : Db) (r : GradedResult) :
  finalizeAttempt now attemptId submitType db = (Ok r, db1) ->
  exists a,
    examAttempts db1 !! attemptId = Some a
    /\ is_open (a_status a) = false
    /\ a_status a = r_status r
    /\ totalScore a = r_totalScore r
    /\ percentage a = Some (r_percentage r)
    /\ grade a = Some (r_grade r).
Proof.
  unfold finalizeAttempt, bind at 1, read.
  destruct (examAttempts db !! attemptId) as [attempt|]; [|done].
  destruct (negb (is_open (a_status attempt))); [done|].
  unfold bind at 1.
  destruct (for_each _ _ _ _) as [[t|e] db']; [|done].
  destruct (exams db !! a_examId attempt) as [exam|]; [|done].
  unfold bind, write, ret; simpl. intros [= <- <-]; simpl.
  rewrite lookup_insert_eq. eexists; split; [reflexivity|]; simpl.
  by destruct submitType.
Qed.

(** On an attempt that is no longer open, finalize fails and writes
    nothing. *)
Lemma finalizeAttempt_closed (now : Z) (attemptId : string)
  (submitType : AttemptStatus) (db : Db) (a : ExamAttempt) :
  examAttempts db !! attemptId = Some a ->
  is_open (a_status a) = false ->
  finalizeAttempt now attemptId submitType db
  = (Throw (BadRequest "Attempt already submitted"), db).
Proof.
  intros Ha Hclosed. unfold finalizeAttempt, bind, read.
  by rewrite Ha, Hclosed.
Qed.

(** The grade finalize returns and stores is [calculateGrade] of the
    percentage it returns. *)
Lemma finalizeAttempt_grade (now : Z) (attemptId : string)
  (submitType : AttemptStatus) (db db1 : Db) (r : GradedResult) :
  finalizeAttempt now attemptId submitType db = (Ok r, db1) ->
  r_grade r = calculateGrade (r_percentage r)
  /\ (grade <$> examAttempts db1 !! attemptId)
     = Some (Some (calculateGrade (r_percentage r))).
Proof.
  unfold finalizeAttempt, bind at 1, read.
  destruct (examAttempts db !! attemptId) as [attempt|]; [|done].
  destruct (negb (is_open (a_status attempt))); [done|].
  unfold bind at 1.
  destruct (for_each _ _ _ _) as [[t|e] db']; [|done].
  destruct (exams db !! a_examId attempt) as [exam|]; [|done].
  unfold bind, write, ret; simpl. intros [= <- <-]; simpl.
  by rewrite lookup_insert_eq.
Qed.

(** C2, as the code has it.  The grade computed at finalize is
    [calculateGrade] of the percentage, whose bands start at 90, 80, 70, 60
    and 50: a percentage of 90 yields A+, 89.99 yields A, and both 40 and
    39.99 yield F; the band D runs from 50 to below 60, and everything
    below 50 is an F. *)
Theorem grade_bands :
  (forall now attemptId submitType db db1 r,
      finalizeAttempt now attemptId submitType db = (Ok r, db1) ->
      r_grade r = calculateGrade (r_percentage r))
  /\ calculateGrade 90 = "A+"
  /\ calculateGrade (8999 # 100) = "A"
  /\ calculateGrade 40 = "F"
  /\ calculateGrade (3999 # 100) = "F"
  /\ calculateGrade 50 = "D"
  /\ (forall p, calculateGrade p = "D" <-> (50 <= p)%Q /\ (p < 60)%Q)
  /\ (forall p, calculateGrade p = "F" <-> (p < 50)%Q).
Proof.
  split.
  { intros now attemptId submitType db db1 r H.
    by apply finalizeAttempt_grade in H as [H _]. }
  do 5 (split; [reflexivity|]).
  split; [exact calculateGrade_D | exact calculateGrade_F].
Qed.

(** C3, as the code has it.  Once finalize has succeeded on an attempt,
    any further finalize of that attempt, manual or automatic, fails with
    BadRequest "Attempt already submitted" and leaves the store exactly as
    the first call left it: the stored totalScore, percentage and grade
    are those the first call returned, and nothing is scored again.  The
    second call does not return the first result. *)
Theorem finalize_twice_is_rejected (now1 now2 : Z) (attemptId : string)
  (submitType1 submitType2 : AttemptStatus) (db db1 : Db) (r : GradedResult) :
  finalizeAttempt now1 attemptId submitType1 db = (Ok r, db1) ->
  finalizeAttempt now2 attemptId submitType2 db1
  = (Throw (BadRequest "Attempt already submitted"), db1)
  /\ exists a,
       examAttempts db1 !! attemptId = Some a
       /\ totalScore a = r_totalScore r
       /\ percentage a = Some (r_percentage r)
       /\ grade a = Some (r_grade r).
Proof.
  intros H1.
  destruct (finalizeAttempt_closes _ _ _ _ _ _ H1)
    as (a & Ha & Hclosed & _ & Hs & Hp & Hg).
  split.
  - by apply finalizeAttempt_closed with a.
  - by exists a.
Qed.


(** C1 at its scenario (totalMarks 10, negative marking of 2, both
    questions answered wrongly).  The stored and returned totalScore is the
    floored 0, but the percentage is computed from the raw total -4: the
    code yields -40, where the specification promises 0. *)
Theorem finalize_both_wrong_percentage :
  match finalizeAttempt 60000 "a1" submitted Examples.both_wrong with
  | (Ok r, db') =>
      r_totalScore r = 0%Q
      /\ (r_percentage r == - (40))%Q
      /\ ~ (r_percentage r == 0)%Q
      /\ (totalScore <$> examAttempts db' !! "a1") = Some 0%Q
      /\ (percentage <$> examAttempts db' !! "a1") = Some (Some (r_percentage r))
  | (Throw _, _) => False
  end.
Proof.
  vm_compute. repeat split; try reflexivity. discriminate.
Qed.

(** ** Saving after the deadline *)

Lemma find_open_attempt_Some (db : Db) (attemptId studentId : string)
  (attempt : ExamAttempt) :
  find_open_attempt db attemptId studentId = Some attempt ->
  examAttempts db !! attemptId = Some attempt
  /\ a_studentId attempt = studentId
  /\ is_open (a_status attempt) = true.
Proof.
  unfold find_open_attempt.
  destruct (examAttempts db !! attemptId) as [a|]; [|done].
  destruct (String.eqb (a_studentId a) studentId) eqn:Hs; [|done].
  destruct (is_open (a_status a)) eqn:Ho; [|done].
  simpl. intros [= <-]. apply String.eqb_eq in Hs. done.
Qed.

(** C4 fails on the code.  Thirty-one minutes after the start of the
    thirty-minute exam, a save on the attempt whose answers can be checked
    does what the claim says: it fails with BadRequest "Time expired.
    Exam has been auto-submitted." and leaves the attempt auto_submitted.
    On the attempt that holds the number 42 for the short-answer question
    q4, the same late save is not accepted either, but the finalize it
    triggers raises a TypeError in [checkAnswer]: the save ends with that
    error, not with BadRequest, and the attempt is still in_progress. *)
Theorem late_save_leaves_attempt_open :
  let late := 1860000%Z in
  let save := saveAnswer late "a1" "q1" (Some (JStr "o1")) "s1" None in
  (fst (save Examples.both_wrong)
   = Throw (BadRequest "Time expired. Exam has been auto-submitted.")
   /\ (a_status <$> examAttempts (snd (save Examples.both_wrong)) !! "a1")
      = Some auto_submitted)
  /\ find_open_attempt (Examples.number_for_text 10) "a1" "s1"
     = Some Examples.attempt
  /\ exams (Examples.number_for_text 10) !! "e1"
     = Some (Examples.exam active 10)
  /\ (deadline Examples.attempt (Examples.exam active 10) <? late)%Z = true
  /\ fst (save (Examples.number_for_text 10)) = Throw TypeError
  /\ (a_status <$> examAttempts (snd (save (Examples.number_for_text 10)))
                   !! "a1")
     = Some in_progress
  /\ saved_values (snd (save (Examples.number_for_text 10)))
     = saved_values (Examples.number_for_text 10).
Proof. vm_compute. repeat split; reflexivity. Qed.

End Finalize.


(** ** Multi-select answers *)

Section MultiSelect.
Context `{rt : Runtime}.

Lemma same_set_elem_of (l k : list string) :
  same_set l k <-> forall x, x ∈ l <-> x ∈ k.
Proof. unfold same_set. set_solver. Qed.

Lemma includes_ids (ids : list string) (x : string) :
  includes (List.map JStr ids) (JStr x) = true <-> x ∈ ids.
Proof.
  unfold includes. rewrite existsb_exists. split.
  - intros (y & Hin & Heq). apply in_map_iff in Hin as (s & <- & Hs).
    simpl in Heq. apply String.eqb_eq in Heq. subst.
    by apply list_elem_of_In.
  - intros H. exists (JStr x). split.
    + apply in_map. by apply list_elem_of_In.
    + simpl. apply String.eqb_refl.
Qed.

(** On an array of strings the check is: as many ids as there are correct
    options, each of them a correct option. *)
Lemma check_multiple_strings (q : Question) (ids : list string) :
  options q <> [] ->
  check_multiple q (JArr (List.map JStr ids)) = true
  <-> length ids = length (correct_option_ids q)
      /\ forall x, x ∈ ids -> x ∈ correct_option_ids q.
Proof.
  intros Hopts. unfold check_multiple, correct_option_ids.
  destruct (options q) as [|o os] eqn:E; [done|]. clear Hopts.
  rewrite andb_true_iff, !length_map, Nat.eqb_eq, forallb_forall.
  split; intros [Hlen Hall]; (split; [exact Hlen|]).
  - intros x Hx. apply includes_ids. apply Hall.
    rewrite List.map_map; simpl. apply in_map_iff. exists x.
    split; [done|]. by apply list_elem_of_In.
  - intros v Hv. rewrite List.map_map in Hv; simpl in Hv.
    apply in_map_iff in Hv as (x & <- & Hx).
    apply includes_ids, Hall. by apply list_elem_of_In.
Qed.

(** What the code gets right: without repeated ids in the answer, the
    check is equality of sets. *)
Lemma check_multiple_distinct (q : Question) (ids : list string) :
  options q <> [] ->
  NoDup ids -> NoDup (correct_option_ids q) ->
  check_multiple q (JArr (List.map JStr ids)) = true
  <-> same_set ids (correct_option_ids q).
Proof.
  intros Hopts Hids Hcorrect.
  rewrite check_multiple_strings, same_set_elem_of by done.
  split.
  - intros [Hlen Hsub].
    assert (Hperm : ids ≡ₚ correct_option_ids q).
    { apply submseteq_length_Permutation; [|by rewrite Hlen].
      by apply NoDup_submseteq. }
    intros x. by rewrite Hperm.
  - intros Hsame. split; [|intros x; apply Hsame].
    apply Permutation_length. by apply NoDup_Permutation.
Qed.

(** A value that is not an array is judged incorrect. *)
Lemma check_multiple_not_array (q : Question) (v : Json) :
  isArray v = false -> check_multiple q v = false.
Proof.
  unfold check_multiple. destruct v; try done;
    by destruct (options q); [destruct (correctAnswer q)|].
Qed.

(** C5 fails on the code.  Question [q3] has the options a, b (correct)
    and c.  The answer [["a", "a"]] has as many entries as there are
    correct options and each of them is one, so [checkAnswer] judges it
    correct, although {a} is not the set {a, b}; and the answer
    [["a", "b", "b"]], which names exactly the set {a, b}, is judged
    incorrect for its length. *)
Theorem multi_select_repeated_id_accepted :
  correct_option_ids Examples.q3 = ["a"; "b"]
  /\ checkAnswer Examples.q3 (JArr [JStr "a"; JStr "a"]) = Ok true
  /\ ~ same_set ["a"; "a"] (correct_option_ids Examples.q3)
  /\ checkAnswer Examples.q3 (JArr [JStr "a"; JStr "b"; JStr "b"]) = Ok false
  /\ same_set ["a"; "b"; "b"] (correct_option_ids Examples.q3).
Proof.
  split; [reflexivity|]. split; [reflexivity|]. split; [|split].
  - rewrite same_set_elem_of. intros H.
    assert (Hb : In "b" ["a"; "a"]).
    { apply list_elem_of_In, H, list_elem_of_In. simpl; auto. }
    simpl in Hb. by destruct Hb as [Hb|[Hb|[]]].
  - reflexivity.
  - apply same_set_elem_of. intros x.
    rewrite !list_elem_of_In. simpl. tauto.
Qed.

End MultiSelect.

(** ** Exam lifecycle and edits *)

Section ExamEdits.

Lemma check_institution_frame (message : string) (exam : Exam)
  (userId : string) (userRole : Role) (db : Db) :
  snd (check_institution message exam userId userRole db) = db.
Proof.
  unfold check_institution. destruct userRole; try done.
  unfold bind, read. destruct (truthy_id _); [|done].
  destruct (users db !! userId) as [u|]; [|done].
  by destruct (_ && _).
Qed.

Lemma check_institution_admin (message : string) (exam : Exam)
  (userId : string) (db : Db) :
  check_institution message exam userId admin db = (Ok tt, db).
Proof. done. Qed.


Lemma deleteExam_guarded (examId userId : string) (userRole : Role)
  (db : Db) (exam : Exam) :
  exams db !! examId = Some exam ->
  e_status exam = active \/ e_status exam = completed ->
  (forall b, fst (deleteExam examId userId userRole db) <> Ok b)
  /\ snd (deleteExam examId userId userRole db) = db
  /\ (userRole <> educator ->
      fst (deleteExam examId userId userRole db)
      = Throw (BadRequest "Cannot delete an active or completed exam")).
Proof.
  intros He Hst.
  pose proof (check_institution_frame
                "You can only delete exams in your institution"
                exam userId userRole db) as Hframe.
  assert (Hrun : deleteExam examId userId userRole db
                 = match check_institution
                           "You can only delete exams in your institution"
                           exam userId userRole db with
                   | (Ok _, db') =>
                       (Throw (BadRequest
                                 "Cannot delete an active or completed exam"),
                        db')
                   | (Throw e, db') => (Throw e, db')
                   end).
  { unfold deleteExam, bind at 1, read. rewrite He. unfold bind at 1.
    destruct (check_institution _ _ _ _ _) as [[[]|e] db']; [|done].
    by destruct Hst as [-> | ->]. }
  rewrite Hrun.
  destruct (check_institution _ exam userId userRole db) as [[[]|e] db'] eqn:E;
    simpl in *; subst db'; repeat split; try done.
  intros Hrole. by destruct userRole.
Qed.

(** C6 fails on the code: the two question-set edits lack the guard.  On
    the active exam of the scenario (questions q1 and q2, totalMarks 10) an
    administrator adds q3, and removes q1: both calls succeed and change
    the question set and totalMarks of the exam. *)
Theorem question_edits_on_active_exam :
  match addQuestionsToExam "e1" ["q3"] "adm" admin (Examples.fresh active) with
  | (Ok e, db') =>
      e_status e = active
      /\ (totalMarks e == 15)%Q
      /\ exams db' !! "e1" = Some e
      /\ examQuestions db' = [("e1", "q1"); ("e1", "q2"); ("e1", "q3")]
  | (Throw _, _) => False
  end
  /\ match removeQuestionsFromExam "e1" ["q1"] "adm" admin
             (Examples.fresh active) with
     | (Ok e, db') =>
         e_status e = active
         /\ (totalMarks e == 5)%Q
         /\ exams db' !! "e1" = Some e
         /\ examQuestions db' = [("e1", "q2")]
     | (Throw _, _) => False
     end.
Proof. vm_compute. repeat split; reflexivity. Qed.

(** [publishExam] refuses an exam without questions and writes nothing. *)
Lemma publishExam_without_questions (examId userId : string) (db : Db)
  (exam : Exam) :
  exams db !! examId = Some exam ->
  targets_of examId (examQuestions db) = [] ->
  publishExam examId userId admin db
  = (Throw (BadRequest "Cannot publish exam without questions"), db).
Proof.
  intros He Hq. unfold publishExam, bind, read. rewrite He; simpl.
  by rewrite Hq.
Qed.

(** With a question, [publishExam] publishes whatever the current status. *)
Lemma publishExam_with_questions (examId userId : string) (db : Db)
  (exam : Exam) :
  exams db !! examId = Some exam ->
  targets_of examId (examQuestions db) <> [] ->
  publishExam examId userId admin db
  = (Ok (with_exam_status published exam),
     set_exams (insert examId (with_exam_status published exam)) db).
Proof.
  intros He Hq. unfold publishExam, bind, read. rewrite He; simpl.
  by destruct (targets_of examId (examQuestions db)).
Qed.

(** C7 fails on the code: nothing in [publishExam] looks at the current
    status.  The completed exam of the scenario, which has two questions,
    is published again by an administrator. *)
Theorem publish_completed_exam :
  match publishExam "e1" "adm" admin (Examples.fresh completed) with
  | (Ok e, db') =>
      e_status e = published
      /\ (e_status <$> exams db' !! "e1") = Some published
      /\ (e_status <$> exams (Examples.fresh completed) !! "e1")
         = Some completed
  | (Throw _, _) => False
  end.
Proof. vm_compute. repeat split; reflexivity. Qed.

(** C8, as the code has it.  A student who asks for an exam that exists
    and is published, active or completed but is not assigned to them
    (neither to all, nor to their section or department, nor to them by
    name) gets Forbidden "This exam is not assigned to you", and nothing is
    written. *)
Theorem getExamById_not_assigned (cached : option ExamView)
  (examId userId : string) (db : Db) (exam : Exam) (student' : User) :
  exams db !! examId = Some exam ->
  visible_to_students (e_status exam) = true ->
  users db !! userId = Some student' ->
  isAssigned db exam examId userId student' = false ->
  getExamById cached examId userId student db
  = (Throw (Forbidden "This exam is not assigned to you"), db).
Proof.
  intros He Hvis Hu Hassigned.
  assert (E : getExamById cached examId userId student db
              = getExamById None examId userId student db)
    by (by destruct cached).
  rewrite E. unfold getExamById, bind at 1, read. rewrite He.
  unfold bind at 1, check_student_access, bind at 1, read.
  by rewrite Hvis, Hu, Hassigned.
Qed.

End ExamEdits.


(** ** The order of the questions *)

Section QuestionOrder.
Context `{rt : Runtime}.

Lemma present_started_ids (shuffle : bool) (draws : nat -> Q)
  (qs : list Question) :
  forall i index,
    List.map p_id (present_started shuffle draws i index qs)
    = List.map q_id qs.
Proof.
  induction qs as [|q rest IH]; intros i index; simpl; [done|].
  destruct (if shuffle then _ else _) as [opts i']; simpl.
  by rewrite IH.
Qed.

Lemma present_resumed_ids (answers : list StudentAnswer) (qs : list Question) :
  forall index,
    List.map p_id (present_resumed answers index qs) = List.map q_id qs.
Proof.
  induction qs as [|q rest IH]; intros index; simpl; [done|].
  by rewrite IH.
Qed.


Lemma resumeAttempt_Ok (now : Z) (key studentId : string)
  (findByExamId : bool) (db db1 : Db) (s : AttemptSession) :
  resumeAttempt now key studentId findByExamId db = (Ok s, db1) ->
  exists attempt,
    (if findByExamId then a_examId attempt = key
     else examAttempts db !! key = Some attempt)
    /\ presented_ids s = stored_ids db (a_examId attempt)
    /\ db1 = db.
Proof.
  unfold resumeAttempt, bind at 1, read.
  set (found := if findByExamId then _ else _).
  assert (Hfound : forall a, found = Some a ->
            if findByExamId then a_examId a = key
            else examAttempts db !! key = Some a).
  { subst found. intros a. destruct findByExamId.
    - intros Hhead. apply head_Some_elem_of, list_elem_of_In in Hhead.
      apply filter_In in Hhead as [_ Hp].
      apply andb_true_iff in Hp as [Hp _].
      apply andb_true_iff in Hp as [Hp _].
      by apply String.eqb_eq.
    - intros Hf. by apply find_open_attempt_Some in Hf as [? _]. }
  destruct found as [attempt|]; [|done].
  specialize (Hfound attempt eq_refl).
  destruct (exams db !! a_examId attempt) as [exam|]; [|done].
  destruct (_ <? _)%Z.
  { unfold bind. by destruct (autoSubmitAttempt _ _ _) as [[?|?] ?]. }
  unfold ret, presented_ids, stored_ids. intros [= <- <-]; simpl.
  exists attempt. by rewrite present_resumed_ids.
Qed.


End QuestionOrder.


(** * Further properties of the code *)

Import AttemptReads.

(** ** Starting an attempt *)

Section Starting.
Context `{rt : Runtime}.

(** Passes the next guard of a method, an [if] whose first branch
    throws, and keeps its test under the name given. *)
Ltac pass_guard H :=
  match goal with
  | |- (if ?c then _ else _) _ = _ -> _ => destruct c eqn:H; [done|]
  end.

(** What a successful [startAttempt] tells about the store it ran on, and
    the store it leaves. *)
Lemma startAttempt_success (now : Z) (attemptId : string) (draws : nat -> Q)
  (examId studentId : string) (db db1 : Db) (s : AttemptSession) :
  startAttempt now attemptId draws examId studentId db = (Ok s, db1) ->
  exists exam,
    exams db !! examId = Some exam
    /\ open_for now db exam studentId = true
    /\ (attempt_count db examId studentId < maxAttempts exam)%Z
    /\ has_open_attempt db examId studentId = false
    /\ examAttempts db !! attemptId = None
    /\ db1 = started_store now attemptId draws examId studentId exam db
    /\ presented_ids s
       = List.map q_id (started_questions draws db exam examId)
    /\ s_endTime s = (now + durationMinutes exam * 60000)%Z.
Proof.
  unfold startAttempt, bind at 1, read.
  destruct (exams db !! examId) as [exam|] eqn:He; [|done].
  pass_guard Hstatus. apply negb_false_iff in Hstatus.
  pass_guard Hstart. pass_guard Hend. pass_guard Hcourse.
  pass_guard Hcount. apply Z.leb_gt in Hcount.
  pass_guard Hopen.
  destruct (examAttempts db !! attemptId) eqn:Hfresh; [done|].
  destruct (users db !! studentId); [|done].
  unfold bind, write, ret, presented_ids, started_store, started_questions,
    open_for, has_open_attempt, attempt_count.
  destruct (shuffleQuestions exam) eqn:Hshuffle;
    [destruct (random_sort draws 0%nat (exam_questions_of db examId))
       as [qs' i] eqn:Hsort|];
    destruct (_ =? 0)%Z eqn:Hfirst; intros [= <- <-];
    exists exam; cbv zeta; cbn [s_questions s_endTime];
    rewrite present_started_ids, Hstatus, Hstart, Hend, Hcourse, Hshuffle,
      ?Hsort;
    repeat split; done.
Qed.


(** Whatever makes [startAttempt] fail, it fails before its first write. *)
Lemma startAttempt_failure (now : Z) (attemptId : string) (draws : nat -> Q)
  (examId studentId : string) (db db1 : Db) (e : ApiError) :
  startAttempt now attemptId draws examId studentId db = (Throw e, db1) ->
  db1 = db.
Proof.
  unfold startAttempt, bind at 1, read.
  destruct (exams db !! examId) as [exam|] eqn:He; [|by (cbv [throw]; inversion 1)].
  repeat match goal with
         | |- (if ?c then _ else _) _ = _ -> _ =>
             destruct c; [by (cbv [throw]; inversion 1)|]
         end.
  destruct (examAttempts db !! attemptId); destruct (users db !! studentId);
    try by (cbv [throw]; inversion 1).
  all: unfold bind, write, ret;
    (destruct (shuffleQuestions exam);
       [destruct (random_sort _ _ _)|]); by destruct (_ =? 0)%Z.
Qed.

Lemma started_store_attempts (now : Z) (attemptId : string) (draws : nat -> Q)
  (examId studentId : string) (exam : Exam) (db : Db) :
  examAttempts (started_store now attemptId draws examId studentId exam db)
  = <[attemptId := new_attempt now attemptId examId studentId exam
                     (attempt_count db examId studentId)]> (examAttempts db).
Proof. unfold started_store. by destruct (_ =? 0)%Z. Qed.

(** An attempt of the store is among the rows [attempts_where] filters. *)
Lemma attempts_where_elem (db : Db) (p : ExamAttempt -> bool) (id : string)
  (a : ExamAttempt) :
  examAttempts db !! id = Some a -> p a = true -> In a (attempts_where db p).
Proof.
  intros Ha Hp. unfold attempts_where. apply filter_In. split; [|done].
  apply in_map_iff. exists (id, a). split; [done|].
  by apply list_elem_of_In, elem_of_map_to_list.
Qed.

Lemma has_open_attempt_false (db : Db) (examId studentId id : string)
  (a : ExamAttempt) :
  has_open_attempt db examId studentId = false ->
  examAttempts db !! id = Some a ->
  a_examId a = examId -> a_studentId a = studentId ->
  is_open (a_status a) = false.
Proof.
  unfold has_open_attempt. intros Hnone Ha He Hs.
  destruct (is_open (a_status a)) eqn:Hopen; [|done].
  assert (Hex : existsb (fun a => is_open (a_status a))
                  (attempts_where db (fun a =>
                     String.eqb (a_examId a) examId
                     && String.eqb (a_studentId a) studentId)) = true).
  { apply existsb_exists. exists a. split; [|done].
    apply attempts_where_elem with id; [done|].
    by rewrite He, Hs, !String.eqb_refl. }
  congruence.
Qed.

(** The engine keeps the invariant of the attempt table: a successful
    [startAttempt] leaves at most one open attempt per student and exam,
    if there was at most one before. *)
Theorem startAttempt_keeps_one_open_attempt (now : Z) (attemptId : string)
  (draws : nat -> Q) (examId studentId : string) (db db1 : Db)
  (s : AttemptSession) :
  one_open_attempt db ->
  startAttempt now attemptId draws examId studentId db = (Ok s, db1) ->
  one_open_attempt db1.
Proof.
  intros Hinv Hstart.
  apply startAttempt_success in Hstart
    as (exam & He & _ & _ & Hnone & Hfresh & -> & _).
  intros id1 id2 a1 a2. rewrite started_store_attempts.
  destruct (decide (id1 = attemptId)) as [->|Hne1];
    destruct (decide (id2 = attemptId)) as [->|Hne2]; [done| | |].
  - rewrite lookup_insert_eq, lookup_insert_ne by done.
    intros [= <-] Ha2 Hexam Hstudent _ Hopen2. simpl in *.
    by rewrite (has_open_attempt_false db examId studentId id2 a2) in Hopen2.
  - rewrite lookup_insert_eq, lookup_insert_ne by done.
    intros Ha1 [= <-] Hexam Hstudent Hopen1 _. simpl in *.
    by rewrite (has_open_attempt_false db examId studentId id1 a1) in Hopen1.
  - rewrite !lookup_insert_ne by done. apply Hinv.
Qed.

(** The attempt budget.  A student who already has [maxAttempts] attempts
    or more on the exam, whatever their status, cannot start another one:
    [startAttempt] fails and writes nothing, and when the exam is
    otherwise open to the student the error is the BadRequest "Maximum
    attempts reached". *)
Theorem startAttempt_over_budget (now : Z) (attemptId : string)
  (draws : nat -> Q) (examId studentId : string) (db : Db) (exam : Exam) :
  exams db !! examId = Some exam ->
  (maxAttempts exam <= attempt_count db examId studentId)%Z ->
  let run := startAttempt now attemptId draws examId studentId db in
  (forall s, fst run <> Ok s)
  /\ snd run = db
  /\ (open_for now db exam studentId = true ->
      fst run
      = Throw (BadRequest
          ("Maximum attempts reached. You have already attempted this exam "
           +:+ number_to_string
                 (inject_Z (attempt_count db examId studentId))
           +:+ " time(s)."))).
Proof.
  intros He Hfull run.
  assert (Hnever : forall s, fst run <> Ok s).
  { intros s Hs. subst run.
    destruct (startAttempt _ _ _ _ _ _) as [o db1] eqn:Hrun.
    simpl in Hs; subst o.
    apply startAttempt_success in Hrun as (exam' & He' & _ & Hlt & _).
    rewrite He in He'. injection He' as <-. lia. }
  split; [exact Hnever|]. split.
  - subst run. destruct (startAttempt _ _ _ _ _ _) as [[s|e] db1] eqn:Hrun.
    + by destruct (Hnever s).
    + by apply startAttempt_failure in Hrun.
  - intros Hopen. subst run. unfold startAttempt, bind, read. rewrite He.
    unfold open_for in Hopen.
    apply andb_true_iff in Hopen as [Hopen Hcourse].
    apply andb_true_iff in Hopen as [Hopen Hend].
    apply andb_true_iff in Hopen as [Hstatus Hstart].
    apply negb_true_iff in Hcourse, Hend, Hstart.
    rewrite Hstatus, Hstart, Hend, Hcourse. simpl.
    apply Z.leb_le in Hfull. unfold attempt_count in Hfull. by rewrite Hfull.
Qed.

(** While an attempt of the student on the exam is open, [startAttempt]
    starts no other: it fails and writes nothing, with the BadRequest "You
    have an active attempt" when the exam is open to the student and the
    budget is not used up. *)
Theorem startAttempt_while_open (now : Z) (attemptId : string)
  (draws : nat -> Q) (examId studentId : string) (db : Db) (exam : Exam) :
  exams db !! examId = Some exam ->
  has_open_attempt db examId studentId = true ->
  let run := startAttempt now attemptId draws examId studentId db in
  (forall s, fst run <> Ok s)
  /\ snd run = db
  /\ (open_for now db exam studentId = true ->
      (attempt_count db examId studentId < maxAttempts exam)%Z ->
      fst run
      = Throw (BadRequest
          "You have an active attempt. Please complete or submit it first.")).
Proof.
  intros He Hopen run.
  assert (Hnever : forall s, fst run <> Ok s).
  { intros s Hs. subst run.
    destruct (startAttempt _ _ _ _ _ _) as [o db1] eqn:Hrun.
    simpl in Hs; subst o.
    apply startAttempt_success in Hrun as (_ & _ & _ & _ & Hnone & _).
    congruence. }
  split; [exact Hnever|]. split.
  - subst run. destruct (startAttempt _ _ _ _ _ _) as [[s|e] db1] eqn:Hrun.
    + by destruct (Hnever s).
    + by apply startAttempt_failure in Hrun.
  - intros Hfor Hcount. subst run. unfold startAttempt, bind, read.
    rewrite He. unfold open_for in Hfor.
    apply andb_true_iff in Hfor as [Hfor Hcourse].
    apply andb_true_iff in Hfor as [Hfor Hend].
    apply andb_true_iff in Hfor as [Hstatus Hstart].
    apply negb_true_iff in Hcourse, Hend, Hstart.
    rewrite Hstatus, Hstart, Hend, Hcourse. simpl.
    apply Z.leb_gt in Hcount. unfold attempt_count in Hcount.
    rewrite Hcount. unfold has_open_attempt in Hopen. by rewrite Hopen.
Qed.

Lemma with_exam_status_same (e : Exam) :
  with_exam_status (e_status e) e = e.
Proof. by destruct e. Qed.

Lemma started_store_exams (now : Z) (attemptId : string) (draws : nat -> Q)
  (examId studentId : string) (exam : Exam) (db : Db) :
  exams db !! examId = Some exam ->
  open_for now db exam studentId = true ->
  exams (started_store now attemptId draws examId studentId exam db)
  = if (attempt_count db examId studentId =? 0)%Z
    then <[examId := with_exam_status active exam]> (exams db)
    else exams db.
Proof.
  intros He Hfor.
  unfold started_store. destruct (_ =? 0)%Z; [|done]. simpl.
  apply map_eq. intros k. rewrite lookup_alter.
  destruct (decide (examId = k)) as [<-|Hne].
  - rewrite lookup_insert_eq, He. simpl. f_equal.
    unfold open_for in Hfor.
    apply andb_true_iff in Hfor as [Hfor _].
    apply andb_true_iff in Hfor as [Hfor _].
    apply andb_true_iff in Hfor as [Hstatus _].
    unfold activate_if_published.
    apply orb_true_iff in Hstatus as [Hp|Ha].
    + apply bool_decide_eq_true in Hp. by rewrite Hp.
    + apply bool_decide_eq_true in Ha. rewrite Ha.
      rewrite <- Ha at 1. by rewrite with_exam_status_same.
  - by rewrite lookup_insert_ne.
Qed.

(** Lazy activation.  The first attempt a student starts on an exam
    leaves the exam active, a published exam being switched to active by
    that very call; a later attempt of the same student writes nothing to
    the exam table.  In both cases the new attempt row is the only change
    to the attempt table: it is started, numbered one past the student's
    earlier attempts on the exam, and carries the exam's totalMarks as
    maxScore. *)
Theorem startAttempt_activates_exam (now : Z) (attemptId : string)
  (draws : nat -> Q) (examId studentId : string) (db db1 : Db)
  (s : AttemptSession) :
  startAttempt now attemptId draws examId studentId db = (Ok s, db1) ->
  exists exam,
    exams db !! examId = Some exam
    /\ exams db1
       = (if (attempt_count db examId studentId =? 0)%Z
          then <[examId := with_exam_status active exam]> (exams db)
          else exams db)
    /\ examAttempts db1
       = <[attemptId :=
             new_attempt now attemptId examId studentId exam
                         (attempt_count db examId studentId)]>
           (examAttempts db)
    /\ examAttempts db !! attemptId = None.
Proof.
  intros Hstart.
  apply startAttempt_success in Hstart
    as (exam & He & Hfor & _ & _ & Hfresh & -> & _).
  exists exam. split; [done|]. split; [|split; [|done]].
  - by apply started_store_exams.
  - apply started_store_attempts.
Qed.

Lemma create_answers_fresh (attemptId : string) (qs : list Question) :
  forall rows,
    NoDup (List.map q_id qs) ->
    (forall q, In q qs ->
               existsb (same_answer_key attemptId (q_id q)) rows = false) ->
    create_answers attemptId qs rows
    = app rows (List.map (fun q => new_answer attemptId (q_id q) JNull false
                                              None None) qs).
Proof.
  unfold create_answers.
  induction qs as [|q rest IH]; intros rows Hnodup Hfresh; simpl.
  - by rewrite app_nil_r.
  - rewrite (Hfresh q) by (by left).
    apply NoDup_cons in Hnodup as [Hq Hrest].
    rewrite IH; [by rewrite <- app_assoc|done|].
    intros q' Hq'. rewrite existsb_app, (Hfresh q') by (by right). simpl.
    rewrite orb_false_r. unfold same_answer_key; simpl.
    rewrite String.eqb_refl; simpl. apply String.eqb_neq.
    intros Heq. apply Hq. rewrite Heq.
    apply list_elem_of_In, in_map, Hq'.
Qed.

(** The answers of an attempt are materialized at its start: one row per
    question of the exam, in the order the questions are presented, each
    unanswered, without a value and without a grade.  The rows of the
    other attempts stay as they are.  (The key generated for the attempt
    is new, so no answer row refers to it yet; an exam lists a question
    once.) *)
Theorem startAttempt_materializes_answers (now : Z) (attemptId : string)
  (draws : nat -> Q) (examId studentId : string) (db db1 : Db)
  (s : AttemptSession) :
  startAttempt now attemptId draws examId studentId db = (Ok s, db1) ->
  answers_of db attemptId = [] ->
  NoDup (stored_ids db examId) ->
  answers_of db1 attemptId
  = List.map (fun qid => new_answer attemptId qid JNull false None None)
             (presented_ids s)
  /\ forall other, other <> attemptId ->
                   answers_of db1 other = answers_of db other.
Proof.
  intros Hstart Hnone Hnodup.
  apply startAttempt_success in Hstart
    as (exam & He & _ & _ & _ & _ & -> & Hids & _).
  set (qs := started_questions draws db exam examId) in *.
  assert (Hperm : List.map q_id qs ≡ₚ stored_ids db examId).
  { subst qs. unfold started_questions, stored_ids.
    destruct (shuffleQuestions exam); [|done].
    apply Permutation_map, random_sort_permutation. }
  assert (Hrows : studentAnswers
                    (started_store now attemptId draws examId studentId exam db)
                  = app (studentAnswers db)
                        (List.map (fun q => new_answer attemptId (q_id q)
                                     JNull false None None) qs)).
  { assert (E : studentAnswers
                  (started_store now attemptId draws examId studentId exam db)
                = create_answers attemptId qs (studentAnswers db)).
    { unfold started_store. by destruct (_ =? 0)%Z. }
    rewrite E. apply create_answers_fresh; [by rewrite Hperm|].
    intros q _. apply not_true_is_false. intros Hex.
    apply existsb_exists in Hex as (a & Ha & Hkey).
    apply andb_true_iff in Hkey as [Hkey _].
    assert (Hin : In a (answers_of db attemptId))
      by (apply filter_In; by split).
    by rewrite Hnone in Hin. }
  split.
  - unfold answers_of at 1. rewrite Hrows, List.filter_app.
    fold (answers_of db attemptId).
    rewrite Hnone, Hids, List.map_map; simpl. clear.
    induction qs as [|q rest IH]; simpl; [done|].
    by rewrite String.eqb_refl, IH.
  - intros other Hother.
    assert (E : List.filter
                  (fun a => String.eqb (sa_attemptId a) other)
                  (List.map (fun q => new_answer attemptId (q_id q) JNull false
                                                 None None) qs) = []).
    { clear -Hother. induction qs as [|q rest IH]; simpl; [done|].
      assert (attemptId <> other) as ->%String.eqb_neq by congruence.
      done. }
    unfold answers_of. by rewrite Hrows, List.filter_app, E, app_nil_r.
Qed.

End Starting.

(** ** Working on an attempt *)

Section Working.
Context `{rt : Runtime}.

Lemma find_map_preserved {A} (p : A -> bool) (g : A -> A) (l : list A) :
  (forall x, p (g x) = p x) ->
  List.find p (List.map g l) = option_map g (List.find p l).
Proof.
  intros Hp. induction l as [|x rest IH]; simpl; [done|].
  rewrite Hp. by destruct (p x).
Qed.

Lemma filter_map_preserved {A} (p : A -> bool) (g : A -> A) (l : list A) :
  (forall x, p (g x) = p x) ->
  List.filter p (List.map g l) = List.map g (List.filter p l).
Proof.
  intros Hp. induction l as [|x rest IH]; simpl; [done|].
  rewrite Hp. destruct (p x); simpl; by rewrite IH.
Qed.

(** The upsert of a row under the key [(attemptId, questionId)], as the
    questions of the attempt show it. *)
Lemma upsert_rows (attemptId questionId : string)
  (f : StudentAnswer -> StudentAnswer) (new : StudentAnswer)
  (rows : list StudentAnswer) :
  (forall a, sa_attemptId (f a) = sa_attemptId a
             /\ sa_questionId (f a) = sa_questionId a) ->
  sa_attemptId new = attemptId ->
  sa_questionId new = questionId ->
  let by_attempt id :=
    List.filter (fun a => String.eqb (sa_attemptId a) id) in
  let last_of q l :=
    List.find (fun a => String.eqb (sa_questionId a) q) (rev l) in
  let rows' :=
    if existsb (same_answer_key attemptId questionId) rows
    then List.map (fun a => if same_answer_key attemptId questionId a
                            then f a else a) rows
    else app rows [new] in
  last_of questionId (by_attempt attemptId rows')
  = Some (match last_of questionId (by_attempt attemptId rows) with
          | Some a => f a
          | None => new
          end)
  /\ (forall q, q <> questionId ->
                last_of q (by_attempt attemptId rows')
                = last_of q (by_attempt attemptId rows))
  /\ (forall other, other <> attemptId ->
                    by_attempt other rows' = by_attempt other rows).
Proof.
  intros Hf Hnew_a Hnew_q by_attempt last_of rows'.
  set (upd := fun a => if same_answer_key attemptId questionId a
                       then f a else a).
  assert (Hupd_a : forall id x,
             String.eqb (sa_attemptId (upd x)) id
             = String.eqb (sa_attemptId x) id).
  { intros id x. unfold upd. destruct (same_answer_key _ _ x); [|done].
    by destruct (Hf x) as [-> _]. }
  assert (Hupd_q : forall q x,
             String.eqb (sa_questionId (upd x)) q
             = String.eqb (sa_questionId x) q).
  { intros q x. unfold upd. destruct (same_answer_key _ _ x); [|done].
    by destruct (Hf x) as [_ ->]. }
  destruct (existsb (same_answer_key attemptId questionId) rows) eqn:Hex;
    subst rows'.
  - (* update *)
    fold upd. split; [|split].
    + unfold last_of, by_attempt.
      rewrite (filter_map_preserved _ upd) by apply Hupd_a.
      rewrite <- map_rev, (find_map_preserved _ upd) by apply Hupd_q.
      apply existsb_exists in Hex as (x & Hx & Hkey).
      apply andb_true_iff in Hkey as [Hxa Hxq].
      destruct (List.find _ (rev _)) as [a|] eqn:Hfind.
      * simpl. f_equal. apply find_some in Hfind as [Hin Hq].
        apply in_rev, filter_In in Hin as [_ Ha].
        unfold upd, same_answer_key. by rewrite Ha, Hq.
      * exfalso.
        assert (Hin : In x (rev (List.filter
                  (fun a => String.eqb (sa_attemptId a) attemptId) rows))).
        { apply in_rev. rewrite rev_involutive. apply filter_In. by split. }
        apply (find_none _ _ Hfind) in Hin. congruence.
    + intros q Hq. unfold last_of, by_attempt.
      rewrite (filter_map_preserved _ upd) by apply Hupd_a.
      rewrite <- map_rev, (find_map_preserved _ upd) by apply Hupd_q.
      destruct (List.find _ (rev _)) as [a|] eqn:Hfind; [|done].
      simpl. f_equal. apply find_some in Hfind as [_ Ha].
      unfold upd, same_answer_key.
      apply String.eqb_eq in Ha. rewrite Ha.
      apply String.eqb_neq in Hq. by rewrite Hq, andb_false_r.
    + intros other Hother. unfold by_attempt.
      induction rows as [|x rest IH]; simpl in *; [done|].
      apply orb_true_iff in Hex. rewrite Hupd_a.
      assert (IH' : List.filter (fun a => String.eqb (sa_attemptId a) other)
                      (List.map upd rest)
                    = List.filter (fun a => String.eqb (sa_attemptId a) other)
                        rest).
      { clear -Hother Hupd_a. induction rest as [|y rest IH]; simpl; [done|].
        rewrite Hupd_a. destruct (String.eqb (sa_attemptId y) other) eqn:Hy;
          [|done].
        rewrite IH. f_equal. unfold upd, same_answer_key.
        apply String.eqb_eq in Hy. rewrite Hy.
        by apply String.eqb_neq in Hother as ->. }
      rewrite IH'. destruct (String.eqb (sa_attemptId x) other) eqn:Hx; [|done].
      f_equal. unfold upd, same_answer_key. apply String.eqb_eq in Hx.
      rewrite Hx. by apply String.eqb_neq in Hother as ->.
  - (* create *)
    assert (Hnone : last_of questionId (by_attempt attemptId rows) = None).
    { unfold last_of. destruct (List.find _ (rev _)) as [a|] eqn:Hfind; [|done].
      apply find_some in Hfind as [Hin Hq].
      apply in_rev, filter_In in Hin as [Hin Ha].
      assert (existsb (same_answer_key attemptId questionId) rows = true);
        [|congruence].
      apply existsb_exists. exists a. split; [done|].
      unfold same_answer_key. by rewrite Ha, Hq. }
    assert (Hrows : by_attempt attemptId (app rows [new])
                    = app (by_attempt attemptId rows) [new]).
    { unfold by_attempt. rewrite List.filter_app; simpl.
      by rewrite Hnew_a, String.eqb_refl. }
    split; [|split].
    + rewrite Hnone. unfold last_of. rewrite Hrows, rev_unit; simpl.
      by rewrite Hnew_q, String.eqb_refl.
    + intros q Hq. unfold last_of. rewrite Hrows, rev_unit; simpl.
      rewrite Hnew_q. assert (questionId <> q) as ->%String.eqb_neq by done.
      done.
    + intros other Hother. unfold by_attempt.
      rewrite List.filter_app; simpl. rewrite Hnew_a.
      assert (attemptId <> other) as ->%String.eqb_neq by done.
      by rewrite app_nil_r.
Qed.

Lemma set_studentAnswers_same (db : Db) :
  set_studentAnswers (fun _ => studentAnswers db) db = db.
Proof. by destruct db. Qed.

Lemma set_examAttempts_same (db : Db) :
  set_examAttempts (fun _ => examAttempts db) db = db.
Proof. by destruct db. Qed.

Lemma with_status_same (a : ExamAttempt) : with_status (a_status a) a = a.
Proof. by destruct a. Qed.

(** What [upsert_answer] leaves: either the foreign key rejects the row
    and nothing is written, or the answers are the only table written and
    the question shows the value saved. *)
Lemma upsert_answer_spec (now : Z) (attemptId questionId : string)
  (answer : option Json) (timeSpent' : option Z) (db : Db) :
  (upsert_answer now attemptId questionId answer timeSpent' db
   = (Throw DbError, db)
   /\ questions db !! questionId = None
   /\ answerMap_lookup (answers_of db attemptId) questionId = None)
  \/ exists rows',
       upsert_answer now attemptId questionId answer timeSpent' db
       = (Ok tt, set_studentAnswers (fun _ => rows') db)
       /\ answerMap_lookup
            (answers_of (set_studentAnswers (fun _ => rows') db) attemptId)
            questionId
          = Some (upserted_view answer
                    (answerMap_lookup (answers_of db attemptId) questionId))
       /\ (forall q, q <> questionId ->
             answerMap_lookup
               (answers_of (set_studentAnswers (fun _ => rows') db) attemptId) q
             = answerMap_lookup (answers_of db attemptId) q)
       /\ (forall other, other <> attemptId ->
             answers_of (set_studentAnswers (fun _ => rows') db) other
             = answers_of db other).
Proof.
  set (f := fun a : StudentAnswer =>
              {| sa_attemptId := sa_attemptId a;
                 sa_questionId := sa_questionId a;
                 selectedAnswer := match answer with
                                   | Some v => v
                                   | None => selectedAnswer a
                                   end;
                 isCorrect := isCorrect a;
                 isAnswered := is_answer answer;
                 isMarkedForReview := isMarkedForReview a;
                 marksAwarded := marksAwarded a;
                 timeSpent := Some (timeSpent_or_0 timeSpent');
                 answeredAt := Some now |}).
  set (new := new_answer attemptId questionId
                (match answer with Some v => v | None => JNull end)
                (is_answer answer) (Some now)
                (Some (timeSpent_or_0 timeSpent'))).
  pose proof (upsert_rows attemptId questionId f new (studentAnswers db))
    as Hrows.
  cbv zeta in Hrows.
  unfold upsert_answer, bind, read, update_answer, write.
  fold f new.
  destruct (existsb (same_answer_key attemptId questionId) (studentAnswers db))
    eqn:Hex;
    (destruct Hrows as (Hlast & Hrest & Hother); [done..|]).
  - right. eexists. split; [reflexivity|].
    unfold answerMap_lookup, answers_of, set_studentAnswers;
      cbn [studentAnswers].
    split; [|split].
    + etransitivity;
        [exact (f_equal (option_map saved_view) Hlast)|].
      clear. simpl. destruct (List.find _ (rev _)); destruct answer; reflexivity.
    + intros q Hq. exact (f_equal (option_map saved_view) (Hrest q Hq)).
    + exact Hother.
  - destruct (questions db !! questionId) as [question|] eqn:Hq.
    + right. eexists. split; [reflexivity|].
      unfold answerMap_lookup, answers_of, set_studentAnswers;
      cbn [studentAnswers].
      split; [|split].
      * etransitivity;
          [exact (f_equal (option_map saved_view) Hlast)|].
        clear. simpl. destruct (List.find _ (rev _)); destruct answer; reflexivity.
      * intros q Hq'. exact (f_equal (option_map saved_view) (Hrest q Hq')).
      * exact Hother.
    + left. split; [done|]. split; [done|].
      clear Hlast Hrest Hother. unfold answerMap_lookup, answers_of.
      destruct (List.find _ (rev _)) as [a|] eqn:Hfind; [|done].
      apply find_some in Hfind as [Hin Hqa].
      rewrite <- in_rev in Hin. apply filter_In in Hin as [Hin Ha].
      assert (existsb (same_answer_key attemptId questionId)
                      (studentAnswers db) = true); [|congruence].
      apply existsb_exists. exists a. split; [done|].
      unfold same_answer_key. by rewrite Ha, Hqa.
Qed.

(** [saveAnswer] before the deadline is the upsert followed by the move
    of the attempt to [in_progress]. *)
Lemma saveAnswer_before_deadline (now : Z) (attemptId questionId : string)
  (answer : option Json) (studentId : string) (timeSpent' : option Z)
  (db : Db) (attempt : ExamAttempt) (exam : Exam) :
  find_open_attempt db attemptId studentId = Some attempt ->
  exams db !! a_examId attempt = Some exam ->
  (now <= deadline attempt exam)%Z ->
  saveAnswer now attemptId questionId answer studentId timeSpent' db
  = match upsert_answer now attemptId questionId answer timeSpent' db with
    | (Ok _, db') =>
        (Ok true,
         set_examAttempts
           (fun _ => <[attemptId := with_status in_progress attempt]>
                       (examAttempts db)) db')
    | (Throw e, db') => (Throw e, db')
    end.
Proof.
  intros Hfind He Htime.
  destruct (find_open_attempt_Some _ _ _ _ Hfind) as (Ha & _ & Hopen).
  unfold saveAnswer, bind at 1, read. rewrite Hfind, He.
  apply Z.ltb_ge in Htime. rewrite Htime. unfold bind at 1.
  destruct (upsert_answer_spec now attemptId questionId answer timeSpent' db)
    as [(-> & _)|(rows' & -> & _)]; [done|].
  unfold bind, write, ret.
  destruct (a_status attempt) eqn:Hstatus; try done; simpl.
  - f_equal. unfold set_examAttempts, set_studentAnswers; cbn. f_equal.
    apply map_eq. intros k. rewrite lookup_alter.
    destruct (decide (attemptId = k)) as [<-|Hne].
    + by rewrite lookup_insert_eq, Ha.
    + by rewrite lookup_insert_ne.
  - f_equal. rewrite <- Hstatus, with_status_same.
    unfold set_examAttempts, set_studentAnswers; cbn. by rewrite insert_id.
Qed.


(** Saving an answer in time.  On an open attempt of the caller whose
    deadline has not passed, [saveAnswer] of a question that exists is
    accepted; the attempt is then in progress, the question shows the
    value saved (an undefined answer keeps the stored value) with the
    review mark it had, and every other question of the attempt, and
    every other attempt, shows what it showed before.  The exam is not
    written. *)
Theorem saveAnswer_in_time (now : Z) (attemptId questionId : string)
  (answer : option Json) (studentId : string) (timeSpent' : option Z)
  (db : Db) (attempt : ExamAttempt) (exam : Exam) :
  find_open_attempt db attemptId studentId = Some attempt ->
  exams db !! a_examId attempt = Some exam ->
  (now <= deadline attempt exam)%Z ->
  is_Some (questions db !! questionId) ->
  exists db1,
    saveAnswer now attemptId questionId answer studentId timeSpent' db
    = (Ok true, db1)
    /\ examAttempts db1
       = <[attemptId := with_status in_progress attempt]> (examAttempts db)
    /\ exams db1 = exams db
    /\ answerMap_lookup (answers_of db1 attemptId) questionId
       = Some (upserted_view answer
                 (answerMap_lookup (answers_of db attemptId) questionId))
    /\ (forall q, q <> questionId ->
          answerMap_lookup (answers_of db1 attemptId) q
          = answerMap_lookup (answers_of db attemptId) q)
    /\ (forall other, other <> attemptId ->
          answers_of db1 other = answers_of db other).
Proof.
  intros Hfind He Htime [question Hq].
  rewrite (saveAnswer_before_deadline _ _ _ _ _ _ _ _ _ Hfind He Htime).
  destruct (upsert_answer_spec now attemptId questionId answer timeSpent' db)
    as [(_ & Hnone & _)|(rows' & -> & Hlast & Hrest & Hother)]; [congruence|].
  eexists. split; [reflexivity|]. by repeat split.
Qed.




(** Marking a question for review.  On an open attempt of the caller,
    [markForReview] of a question that exists is accepted whatever the
    time; the question then shows the mark given, with the value and the
    answered flag it had; every other question and every other attempt
    shows what it showed before, and neither the attempt row (its status
    included) nor the exam is written. *)
Theorem markForReview_marks (attemptId questionId : string) (isMarked : bool)
  (studentId : string) (db : Db) (attempt : ExamAttempt) :
  find_open_attempt db attemptId studentId = Some attempt ->
  is_Some (questions db !! questionId) ->
  exists db1,
    markForReview attemptId questionId isMarked studentId db
    = (Ok isMarked, db1)
    /\ examAttempts db1 = examAttempts db
    /\ exams db1 = exams db
    /\ answerMap_lookup (answers_of db1 attemptId) questionId
       = Some (marked_view isMarked
                 (answerMap_lookup (answers_of db attemptId) questionId))
    /\ (forall q, q <> questionId ->
          answerMap_lookup (answers_of db1 attemptId) q
          = answerMap_lookup (answers_of db attemptId) q)
    /\ (forall other, other <> attemptId ->
          answers_of db1 other = answers_of db other).
Proof.
  intros Hfind [question Hq].
  set (f := fun a : StudentAnswer =>
              {| sa_attemptId := sa_attemptId a;
                 sa_questionId := sa_questionId a;
                 selectedAnswer := selectedAnswer a; isCorrect := isCorrect a;
                 isAnswered := isAnswered a; isMarkedForReview := isMarked;
                 marksAwarded := marksAwarded a; timeSpent := timeSpent a;
                 answeredAt := answeredAt a |}).
  set (new := {| sa_attemptId := attemptId; sa_questionId := questionId;
                 selectedAnswer := JNull; isCorrect := None;
                 isAnswered := false; isMarkedForReview := isMarked;
                 marksAwarded := 0; timeSpent := None; answeredAt := None |}).
  pose proof (upsert_rows attemptId questionId f new (studentAnswers db))
    as Hrows.
  cbv zeta in Hrows.
  unfold markForReview, bind at 1, read. rewrite Hfind.
  unfold bind, update_answer, write, ret. rewrite Hq.
  destruct (existsb (same_answer_key attemptId questionId) (studentAnswers db));
    (destruct Hrows as (Hlast & Hrest & Hother); [done..|]);
    (eexists; split; [reflexivity|]);
    (split; [done|]); (split; [done|]);
    unfold answerMap_lookup, answers_of, set_studentAnswers;
    cbn [studentAnswers];
    (split; [|split;
              [intros q Hq';
               exact (f_equal (option_map saved_view) (Hrest q Hq'))
              |exact Hother]]);
    (etransitivity; [exact (f_equal (option_map saved_view) Hlast)|]);
    clear; simpl; by destruct (List.find _ (rev _)).
Qed.

(** Whoever does not own an open attempt under the id given (the attempt
    does not exist, belongs to another student, or is closed) can neither
    save an answer, nor mark a question, nor submit, nor resume: each call
    ends with NotFound and writes nothing. *)
Theorem foreign_attempt_not_found (now : Z) (attemptId questionId : string)
  (answer : option Json) (isMarked : bool) (studentId : string)
  (timeSpent' : option Z) (db : Db) :
  (forall a, examAttempts db !! attemptId = Some a ->
             a_studentId a = studentId -> is_open (a_status a) = false) ->
  saveAnswer now attemptId questionId answer studentId timeSpent' db
  = (Throw (NotFound "Active attempt not found"), db)
  /\ markForReview attemptId questionId isMarked studentId db
     = (Throw (NotFound "Active attempt not found"), db)
  /\ submitAttempt now attemptId studentId db
     = (Throw (NotFound "Active attempt not found"), db)
  /\ resumeAttempt now attemptId studentId false db
     = (Throw (NotFound "No active attempt found"), db).
Proof.
  intros Hforeign.
  assert (Hnone : find_open_attempt db attemptId studentId = None).
  { unfold find_open_attempt.
    destruct (examAttempts db !! attemptId) as [a|]; [|done].
    destruct (String.eqb (a_studentId a) studentId) eqn:Hs; [|done].
    apply String.eqb_eq in Hs. by rewrite (Hforeign a eq_refl Hs). }
  unfold saveAnswer, markForReview, submitAttempt, resumeAttempt, bind, read.
  by rewrite Hnone.
Qed.

(** Under the invariant that a student has at most one open attempt on
    an exam, resuming by exam id is resuming that attempt: the call by
    the id of the exam and the call by the id of the attempt return the
    same session or the same error, and leave the same store. *)
Theorem resume_by_exam_is_by_attempt (now : Z) (attemptId studentId : string)
  (db : Db) (attempt : ExamAttempt) :
  one_open_attempt db ->
  find_open_attempt db attemptId studentId = Some attempt ->
  resumeAttempt now (a_examId attempt) studentId true db
  = resumeAttempt now attemptId studentId false db.
Proof.
  intros Hone Hfind.
  destruct (find_open_attempt_Some _ _ _ _ Hfind) as (Ha & Hs & Hopen).
  set (p := fun a : ExamAttempt =>
              String.eqb (a_examId a) (a_examId attempt)
              && String.eqb (a_studentId a) studentId
              && is_open (a_status a)).
  assert (Hhead : head (attempts_where db p) = Some attempt).
  { assert (Hall : forall x, In x (attempts_where db p) -> x = attempt).
    { intros x Hx. apply filter_In in Hx as [Hx Hp].
      apply in_map_iff in Hx as ([k x'] & <- & Hx).
      apply list_elem_of_In, elem_of_map_to_list in Hx. simpl in *.
      unfold p in Hp.
      apply andb_true_iff in Hp as [Hp Hxo].
      apply andb_true_iff in Hp as [Hxe Hxs].
      apply String.eqb_eq in Hxe, Hxs.
      assert (k = attemptId)
        by (apply (Hone k attemptId x' attempt); congruence).
      congruence. }
    assert (Hin : In attempt (attempts_where db p)).
    { apply filter_In. split.
      - apply in_map_iff. exists (attemptId, attempt). split; [done|].
        by apply list_elem_of_In, elem_of_map_to_list.
      - unfold p. by rewrite !String.eqb_refl, Hs, String.eqb_refl, Hopen. }
    destruct (attempts_where db p) as [|x rest]; [done|].
    simpl. f_equal. apply Hall. by left. }
  unfold resumeAttempt, bind at 1 3, read.
  fold p. by rewrite Hhead, Hfind.
Qed.

End Working.

(** ** What finalize computes and what it leaves alone *)

Section Finalizing.
Context `{rt : Runtime}.

Lemma for_each_invariant {A S} (P : Db -> Prop) (body : S -> A -> Request S)
  (l : list A) :
  (forall s a db, In a l -> P db -> P (snd (body s a db))) ->
  forall s db, P db -> P (snd (for_each l body s db)).
Proof.
  induction l as [|x rest IH]; intros Hbody s db HP; simpl; [done|].
  unfold bind.
  pose proof (Hbody s x db (or_introl eq_refl) HP) as Hx.
  destruct (body s x db) as [[s1|e] db1]; simpl in *; [|done].
  apply IH; [|done]. intros s' a db' Ha. apply Hbody. by right.
Qed.

(** What a successful [finalizeAttempt] did. *)
Lemma finalizeAttempt_Ok (now : Z) (attemptId : string)
  (submitType : AttemptStatus) (db db1 : Db) (r : GradedResult) :
  finalizeAttempt now attemptId submitType db = (Ok r, db1) ->
  exists attempt exam t db',
    examAttempts db !! attemptId = Some attempt
    /\ is_open (a_status attempt) = true
    /\ exams db !! a_examId attempt = Some exam
    /\ for_each (answers_of db attemptId) (grade_answer db (Some exam))
                tally0 db = (Ok t, db')
    /\ db1 = set_examAttempts
               (insert attemptId (finalized_row attempt exam submitType now t))
               db'
    /\ r = {| r_attemptId := a_id attempt;
              r_status := match submitType with
                          | auto_submitted => auto_submitted
                          | _ => submitted
                          end;
              r_totalScore := Qmax 0 (t_totalScore t);
              r_maxScore := totalMarks exam;
              r_percentage :=
                calculatePercentage (t_totalScore t) (totalMarks exam);
              r_correctAnswers := t_correctAnswers t;
              r_wrongAnswers := t_wrongAnswers t;
              r_skipped := t_skipped t;
              r_timeTaken := formatDuration ((now - startedAt attempt) / 1000);
              r_grade :=
                calculateGrade
                  (calculatePercentage (t_totalScore t) (totalMarks exam));
              r_passed :=
                Qle_bool (passingPercentage exam)
                  (calculatePercentage (t_totalScore t) (totalMarks exam)) |}.
Proof.
  unfold finalizeAttempt, bind at 1, read.
  destruct (examAttempts db !! attemptId) as [attempt|] eqn:Ha; [|done].
  destruct (is_open (a_status attempt)) eqn:Hopen; [|done]. simpl.
  unfold bind at 1.
  destruct (exams db !! a_examId attempt) as [exam|] eqn:He.
  - destruct (for_each _ _ _ _) as [[t|e] db'] eqn:Hloop; [|done].
    unfold bind, write, ret. intros [= <- <-].
    by exists attempt, exam, t, db'.
  - by destruct (for_each _ _ _ _) as [[t|e] db'].
Qed.

(** One turn of the grading loop moves exactly one counter by one when
    the question of the answer exists, never lowers a counter, and
    without negative marking never lowers the score. *)
Lemma grade_answer_tally (db0 : Db) (exam : Exam) (t t' : Tally)
  (a : StudentAnswer) (db db' : Db) :
  grade_answer db0 (Some exam) t a db = (Ok t', db') ->
  (is_Some (questions db0 !! sa_questionId a) ->
   (t_correctAnswers t' + t_wrongAnswers t' + t_skipped t'
    = t_correctAnswers t + t_wrongAnswers t + t_skipped t + 1)%Z)
  /\ (t_correctAnswers t <= t_correctAnswers t')%Z
  /\ (t_wrongAnswers t <= t_wrongAnswers t')%Z
  /\ (t_skipped t <= t_skipped t')%Z
  /\ (negativeMarking exam = false -> t_totalScore t <= t_totalScore t')%Q.
Proof.
  unfold grade_answer.
  destruct (questions db0 !! sa_questionId a) as [q|].
  2:{ unfold ret. intros [= <- _]. repeat split; try lia.
      - by intros [? ?].
      - intros _. apply Qle_refl. }
  destruct (_ || _).
  { unfold bind, update_answer, write, ret. intros [= <- _]; simpl.
    repeat split; try lia. intros _. apply Qle_refl. }
  destruct (checkAnswer q (selectedAnswer a)) as [[|]|e]; [| |done].
  - unfold bind, update_answer, write, ret. intros [= <- _]; simpl.
    repeat split; try lia. intros _.
    destruct (_ && _) eqn:Hm.
    + apply andb_true_iff in Hm as [_ Hm]. unfold Qltb in Hm.
      apply negb_true_iff in Hm. q_tests. lra.
    + lra.
  - unfold bind, update_answer, write, ret. intros [= <- _]; simpl.
    repeat split; try lia. intros ->. apply Qle_refl.
Qed.

Lemma grading_tally (db0 : Db) (exam : Exam) (answers : list StudentAnswer) :
  forall t t' db db',
    for_each answers (grade_answer db0 (Some exam)) t db = (Ok t', db') ->
    ((forall a, In a answers -> is_Some (questions db0 !! sa_questionId a)) ->
     (t_correctAnswers t' + t_wrongAnswers t' + t_skipped t'
      = t_correctAnswers t + t_wrongAnswers t + t_skipped t
        + Z.of_nat (length answers))%Z)
    /\ (t_correctAnswers t <= t_correctAnswers t')%Z
    /\ (t_wrongAnswers t <= t_wrongAnswers t')%Z
    /\ (t_skipped t <= t_skipped t')%Z
    /\ (negativeMarking exam = false -> t_totalScore t <= t_totalScore t')%Q.
Proof.
  induction answers as [|a rest IH]; intros t t' db db'.
  - simpl. unfold ret. intros [= <- _]. repeat split; try lia.
    intros _. apply Qle_refl.
  - simpl for_each. unfold bind at 1.
    destruct (grade_answer db0 (Some exam) t a db) as [[t1|e] db1] eqn:Ha;
      [|done].
    intros Hrest.
    apply grade_answer_tally in Ha as (Hsum & Hc & Hw & Hs & Hscore).
    apply IH in Hrest as (Hsum' & Hc' & Hw' & Hs' & Hscore').
    repeat split; try lia.
    + intros Hjoined. rewrite length_cons, Nat2Z.inj_succ.
      rewrite Hsum', Hsum; [lia|apply Hjoined; by left|].
      intros x Hx. apply Hjoined. by right.
    + intros Hneg. eapply Qle_trans; [by apply Hscore|by apply Hscore'].
Qed.

Lemma answers_joined_In (db : Db) (attemptId : string) (a : StudentAnswer) :
  answers_joined db attemptId = true ->
  In a (answers_of db attemptId) ->
  is_Some (questions db !! sa_questionId a).
Proof.
  unfold answers_joined. rewrite forallb_forall. intros Hall Ha.
  by apply Hall, bool_decide_eq_true in Ha.
Qed.

(** The counters of a result.  Every answer row of the attempt is counted
    once, as correct, wrong or skipped: the three counters are not
    negative and add up to the number of rows; and the score returned is
    not negative. *)
Theorem finalize_counts (now : Z) (attemptId : string)
  (submitType : AttemptStatus) (db db1 : Db) (r : GradedResult) :
  answers_joined db attemptId = true ->
  finalizeAttempt now attemptId submitType db = (Ok r, db1) ->
  (r_correctAnswers r + r_wrongAnswers r + r_skipped r
   = Z.of_nat (length (answers_of db attemptId)))%Z
  /\ (0 <= r_correctAnswers r)%Z
  /\ (0 <= r_wrongAnswers r)%Z
  /\ (0 <= r_skipped r)%Z
  /\ (0 <= r_totalScore r)%Q.
Proof.
  intros Hjoined Hrun.
  apply finalizeAttempt_Ok in Hrun
    as (attempt & exam & t & db' & _ & _ & _ & Hloop & _ & ->).
  apply grading_tally in Hloop as (Hsum & Hc & Hw & Hs & _).
  specialize (Hsum (fun a => answers_joined_In db attemptId a Hjoined)).
  simpl in *. repeat split; try lia. apply Q.le_max_l.
Qed.

Lemma calculatePercentage_value (v1 v2 total : Q) :
  (v1 == v2)%Q -> calculatePercentage v1 total = calculatePercentage v2 total.
Proof.
  intros Hv. unfold calculatePercentage, Js.round.
  destruct (Qeq_bool total 0); [done|].
  do 2 f_equal. apply Qfloor_comp. by rewrite Hv.
Qed.

Lemma calculatePercentage_nonneg (value total : Q) :
  (0 <= value)%Q -> (0 <= total)%Q ->
  (0 <= calculatePercentage value total)%Q.
Proof.
  intros Hv Ht. unfold calculatePercentage, Js.round.
  destruct (Qeq_bool total 0) eqn:Hzero; [apply Qle_refl|]. q_tests.
  assert (0 < total)%Q by lra.
  assert (0 <= value / total)%Q.
  { apply Qle_shift_div_l; [done|]. lra. }
  assert (0 <= Qfloor (value / total * 10000 + (1 # 2)))%Z.
  { change 0%Z with (Qfloor 0). apply Qfloor_resp_le. nra. }
  apply Qle_shift_div_l; [reflexivity|].
  rewrite Qmult_0_l. change 0%Q with (inject_Z 0). by rewrite <- Zle_Qle.
Qed.

(** Without negative marking the percentage is what the specification of
    finalize says: the percentage of the score returned (the floored one)
    in the total marks of the exam, and it is not negative when the total
    is not. *)
Theorem finalize_without_negative_marking (now : Z) (attemptId : string)
  (submitType : AttemptStatus) (db db1 : Db) (r : GradedResult)
  (attempt : ExamAttempt) (exam : Exam) :
  examAttempts db !! attemptId = Some attempt ->
  exams db !! a_examId attempt = Some exam ->
  negativeMarking exam = false ->
  finalizeAttempt now attemptId submitType db = (Ok r, db1) ->
  r_percentage r = calculatePercentage (r_totalScore r) (totalMarks exam)
  /\ r_maxScore r = totalMarks exam
  /\ ((0 <= totalMarks exam)%Q -> (0 <= r_percentage r)%Q).
Proof.
  intros Ha He Hneg Hrun.
  apply finalizeAttempt_Ok in Hrun
    as (attempt' & exam' & t & db' & Ha' & _ & He' & Hloop & _ & ->).
  rewrite Ha in Ha'. injection Ha' as <-.
  rewrite He in He'. injection He' as <-.
  apply grading_tally in Hloop as (_ & _ & _ & _ & Hscore).
  specialize (Hscore Hneg). simpl in *.
  assert (Hmax : (Qmax 0 (t_totalScore t) == t_totalScore t)%Q)
    by (by apply Q.max_r).
  split; [|split; [done|]].
  - symmetry. by apply calculatePercentage_value.
  - intros Htotal. by apply calculatePercentage_nonneg.
Qed.

Lemma only_attempts_written_refl (db : Db) : only_attempts_written db db.
Proof. by destruct db. Qed.

Lemma update_answer_frame (attemptId questionId : string)
  (f : StudentAnswer -> StudentAnswer) (db0 db : Db) :
  (forall a, sa_attemptId (f a) = sa_attemptId a) ->
  only_attempts_written db0 db /\ examAttempts db = examAttempts db0 ->
  let db' := snd (update_answer attemptId questionId f db) in
  (only_attempts_written db0 db' /\ examAttempts db' = examAttempts db0)
  /\ forall other, other <> attemptId ->
                   answers_of db' other = answers_of db other.
Proof.
  intros Hf [Hframe Hattempts]. simpl. split; [split|].
  - unfold only_attempts_written in *. rewrite Hframe at 1. done.
  - done.
  - intros other Hother. unfold answers_of; simpl.
    induction (studentAnswers db) as [|x rest IH]; simpl; [done|].
    assert (Ha : sa_attemptId (if same_answer_key attemptId questionId x
                               then f x else x) = sa_attemptId x)
      by (destruct (same_answer_key attemptId questionId x); [apply Hf|done]).
    rewrite Ha, IH.
    destruct (String.eqb (sa_attemptId x) other) eqn:Hx; [|done].
    f_equal. unfold same_answer_key. apply String.eqb_eq in Hx. rewrite Hx.
    by apply String.eqb_neq in Hother as ->.
Qed.

Lemma grade_answer_frame (db0 : Db) (exam : option Exam) (t : Tally)
  (a : StudentAnswer) (base db : Db) :
  only_attempts_written base db /\ examAttempts db = examAttempts base ->
  let db' := snd (grade_answer db0 exam t a db) in
  (only_attempts_written base db' /\ examAttempts db' = examAttempts base)
  /\ forall other, other <> sa_attemptId a ->
                   answers_of db' other = answers_of db other.
Proof.
  intros Hframe. unfold grade_answer.
  destruct (questions db0 !! sa_questionId a) as [q|]; [|done].
  destruct (_ || _).
  { unfold bind.
    apply (update_answer_frame (sa_attemptId a) (sa_questionId a)
             (graded_answer false 0) base db); done. }
  destruct (checkAnswer q (selectedAnswer a)) as [[|]|e]; [| |done].
  - unfold bind.
    apply (update_answer_frame (sa_attemptId a) (sa_questionId a)
             (graded_answer true _) base db); done.
  - destruct exam as [exam|]; [|done]. unfold bind.
    apply (update_answer_frame (sa_attemptId a) (sa_questionId a)
             (graded_answer false _) base db); done.
Qed.

Lemma grading_frame (db0 : Db) (exam : option Exam) (attemptId : string)
  (answers : list StudentAnswer) (t : Tally) (db : Db) :
  (forall a, In a answers -> sa_attemptId a = attemptId) ->
  let db' := snd (for_each answers (grade_answer db0 exam) t db) in
  (only_attempts_written db db' /\ examAttempts db' = examAttempts db)
  /\ forall other, other <> attemptId ->
                   answers_of db' other = answers_of db other.
Proof.
  intros Hown.
  apply (for_each_invariant
           (fun db' =>
              (only_attempts_written db db'
               /\ examAttempts db' = examAttempts db)
              /\ forall other, other <> attemptId ->
                               answers_of db' other = answers_of db other)).
  - intros s a db' Ha [Hframe Hothers].
    destruct (grade_answer_frame db0 exam s a db db' Hframe) as [Hf Ho].
    split; [done|]. intros other Hother.
    rewrite Ho, Hothers; [done..|]. by rewrite (Hown a Ha).
  - split; [|done]. split; [apply only_attempts_written_refl|done].
Qed.

Lemma answers_of_attempt (db : Db) (attemptId : string) (a : StudentAnswer) :
  In a (answers_of db attemptId) -> sa_attemptId a = attemptId.
Proof. intros [_ Ha]%filter_In. by apply String.eqb_eq. Qed.

Lemma only_attempts_written_tables (db db' : Db) :
  only_attempts_written db db' ->
  exams db' = exams db
  /\ questions db' = questions db
  /\ users db' = users db
  /\ examQuestions db' = examQuestions db
  /\ examSections db' = examSections db
  /\ examDepartments db' = examDepartments db
  /\ examStudents db' = examStudents db
  /\ examAssignments db' = examAssignments db
  /\ studentEnrollments db' = studentEnrollments db.
Proof.
  unfold only_attempts_written. intros H. rewrite H. by repeat split.
Qed.

Lemma finalizeAttempt_attempts_only (now : Z) (attemptId : string)
  (submitType : AttemptStatus) (db : Db) :
  let db1 := snd (finalizeAttempt now attemptId submitType db) in
  only_attempts_written db db1
  /\ (forall other, other <> attemptId ->
        examAttempts db1 !! other = examAttempts db !! other)
  /\ (forall other, other <> attemptId ->
        answers_of db1 other = answers_of db other).
Proof.
  intros db1.
  split; [|split];
    subst db1; unfold finalizeAttempt, bind at 1, read;
    (destruct (examAttempts db !! attemptId) as [attempt|];
       [|by try apply only_attempts_written_refl]);
    (destruct (negb (is_open (a_status attempt)));
       [by try apply only_attempts_written_refl|]);
    unfold bind at 1;
    pose proof (grading_frame db (exams db !! a_examId attempt) attemptId
                  (answers_of db attemptId) tally0 db
                  (answers_of_attempt db attemptId))
      as [[Hframe Hattempts] Hothers];
    (destruct (for_each _ _ _ _) as [[t|e] db'];
       simpl in Hframe, Hattempts, Hothers;
       [|simpl; try done; intros; by rewrite Hattempts]);
    (destruct (exams db !! a_examId attempt) as [exam|];
       [|simpl; try done; intros; by rewrite Hattempts]);
    unfold bind, write, ret; simpl.
  - unfold only_attempts_written in *. rewrite Hframe at 1. done.
  - intros other Hother. by rewrite lookup_insert_ne, Hattempts.
  - exact Hothers.
Qed.

(** Finalize touches its attempt only.  Whatever its outcome, and even
    when the grading loop raises half-way, [finalizeAttempt] leaves the
    exams, the questions, the users, the questions of the exams, the
    three assignment tables, the assignments and the enrolments as they
    are; of the attempts it writes the row of its own attempt only, and of
    the answers the grading columns of the answers of its own attempt
    only: every other attempt row and the answers of every other attempt
    are as before, and so are the value and the answered flag of every
    answer of the store.  (The row it adds to the activity log when it
    succeeds is not part of the store modelled here.) *)
Theorem finalize_touches_its_attempt_only (now : Z) (attemptId : string)
  (submitType : AttemptStatus) (db : Db) :
  let db1 := snd (finalizeAttempt now attemptId submitType db) in
  (exams db1 = exams db
   /\ questions db1 = questions db
   /\ users db1 = users db
   /\ examQuestions db1 = examQuestions db
   /\ examSections db1 = examSections db
   /\ examDepartments db1 = examDepartments db
   /\ examStudents db1 = examStudents db
   /\ examAssignments db1 = examAssignments db
   /\ studentEnrollments db1 = studentEnrollments db)
  /\ (forall other, other <> attemptId ->
        examAttempts db1 !! other = examAttempts db !! other)
  /\ (forall other, other <> attemptId ->
        answers_of db1 other = answers_of db other)
  /\ saved_values db1 = saved_values db.
Proof.
  intros db1.
  destruct (finalizeAttempt_attempts_only now attemptId submitType db)
    as (Hframe & Hattempts & Hanswers).
  split; [by apply only_attempts_written_tables|].
  split; [exact Hattempts|]. split; [exact Hanswers|].
  apply finalizeAttempt_saved_values.
Qed.

Lemma saved_values_answers (db db1 : Db) (attemptId : string) :
  saved_values db1 = saved_values db ->
  List.map (fun a => (sa_questionId a, selectedAnswer a))
           (answers_of db1 attemptId)
  = List.map (fun a => (sa_questionId a, selectedAnswer a))
             (answers_of db attemptId).
Proof.
  unfold saved_values, answers_of.
  generalize (studentAnswers db) as l. generalize (studentAnswers db1) as l1.
  induction l1 as [|x rest IH]; intros [|y l]; simpl; try done.
  intros [= Ha Hq Hv _ Hrest]. rewrite Ha.
  destruct (String.eqb (sa_attemptId y) attemptId); simpl;
    rewrite (IH l Hrest); [by rewrite Hq, Hv|done].
Qed.

Lemma detailed_answers_Ok (db : Db) (answers : list StudentAnswer) :
  (forall a, In a answers -> is_Some (questions db !! sa_questionId a)) ->
  exists ds,
    detailed_answers db answers = Ok ds
    /\ List.map d_selectedAnswer ds = List.map selectedAnswer answers.
Proof.
  induction answers as [|a rest IH]; intros Hjoined; simpl.
  - by exists [].
  - destruct (Hjoined a (or_introl eq_refl)) as [q ->].
    destruct IH as (ds & -> & Hds); [intros x Hx; apply Hjoined; by right|].
    eexists. split; [reflexivity|]. simpl. by rewrite Hds.
Qed.

(** From submission to result.  Once [submitAttempt] has succeeded, the
    student reads the result back with [getAttemptResult]: the call
    succeeds, writes nothing, and reports the attempt as submitted at the
    time of submission with the score, the percentage, the grade, the
    verdict, the counters and the duration that [submitAttempt] returned,
    and with the answer values as they were saved before submission. *)
Theorem submit_then_result (now : Z) (attemptId studentId : string)
  (db db1 : Db) (r : GradedResult) :
  answers_joined db attemptId = true ->
  submitAttempt now attemptId studentId db = (Ok r, db1) ->
  exists res,
    getAttemptResult attemptId studentId student db1 = (Ok res, db1)
    /\ ar_attemptId res = r_attemptId r
    /\ ar_status res = submitted
    /\ r_status r = submitted
    /\ ar_submittedAt res = Some now
    /\ ar_totalScore res = r_totalScore r
    /\ ar_maxScore res = r_maxScore r
    /\ ar_percentage res = Some (r_percentage r)
    /\ ar_grade res = Some (r_grade r)
    /\ ar_passed res = Some (r_passed r)
    /\ ar_correctAnswers res = r_correctAnswers r
    /\ ar_wrongAnswers res = r_wrongAnswers r
    /\ ar_skipped res = r_skipped r
    /\ ar_timeTaken res = r_timeTaken r
    /\ List.map d_selectedAnswer (ar_answers res)
       = List.map selectedAnswer (answers_of db attemptId).
Proof.
  intros Hjoined. unfold submitAttempt, bind, read.
  destruct (find_open_attempt db attemptId studentId) as [attempt0|] eqn:Hfind;
    [|done].
  apply find_open_attempt_Some in Hfind as (Ha0 & Howner & _).
  intros Hrun.
  pose proof (finalizeAttempt_saved_values now attemptId submitted db)
    as Hsaved.
  rewrite Hrun in Hsaved. simpl in Hsaved.
  apply finalizeAttempt_Ok in Hrun
    as (attempt & exam & t & db' & Ha & _ & He & Hloop & Hdb1 & ->).
  rewrite Ha0 in Ha. injection Ha as <-.
  destruct (grading_frame db (Some exam) attemptId (answers_of db attemptId)
              tally0 db (answers_of_attempt db attemptId))
    as [[Hframe _] _].
  rewrite Hloop in Hframe. simpl in Hframe.
  assert (Hexams : exams db1 = exams db) by (by rewrite Hdb1, Hframe).
  assert (Hquestions : questions db1 = questions db)
    by (by rewrite Hdb1, Hframe).
  assert (Hrow : examAttempts db1 !! attemptId
                 = Some (finalized_row attempt0 exam submitted now t)).
  { rewrite Hdb1. simpl. by rewrite lookup_insert_eq. }
  pose proof (saved_values_answers db db1 attemptId Hsaved) as Hanswers.
  destruct (detailed_answers_Ok db1 (answers_of db1 attemptId))
    as (ds & Hds & Hvalues).
  { intros a Ha. rewrite Hquestions.
    assert (Hq : In (sa_questionId a)
                    (List.map (fun x => sa_questionId x)
                              (answers_of db attemptId))).
    { apply (f_equal (List.map fst)) in Hanswers.
      rewrite !List.map_map in Hanswers. simpl in Hanswers.
      rewrite <- Hanswers. by apply (in_map (fun x => sa_questionId x)). }
    apply in_map_iff in Hq as (a' & <- & Ha').
    by apply (answers_joined_In db attemptId). }
  unfold getAttemptResult, bind at 1, read. rewrite Hrow.
  unfold bind at 1, finalized_row, finalized. simpl.
  rewrite Howner, String.eqb_refl.
  simpl. rewrite Hds, Hexams, He. unfold ret.
  eexists. split; [reflexivity|]. simpl.
  repeat (split; [reflexivity|]).
  rewrite Hvalues.
  apply (f_equal (List.map snd)) in Hanswers.
  by rewrite !List.map_map in Hanswers.
Qed.

Lemma check_educator_access_frame (attempt : ExamAttempt)
  (requesterId : string) (db : Db) :
  snd (check_educator_access attempt requesterId db) = db.
Proof.
  unfold check_educator_access, bind, read.
  destruct (exams db !! a_examId attempt) as [exam|]; [|done].
  destruct (String.eqb _ _); [done|].
  destruct (negb _); [done|].
  destruct (users db !! requesterId) as [user|]; [|done].
  by destruct (_ || _).
Qed.

Lemma getAttemptResult_frame (attemptId requesterId : string)
  (userRole : Role) (db : Db) :
  snd (getAttemptResult attemptId requesterId userRole db) = db.
Proof.
  unfold getAttemptResult, bind at 1, read.
  destruct (examAttempts db !! attemptId) as [attempt|]; [|done].
  unfold bind at 1.
  pose proof (check_educator_access_frame attempt requesterId db) as Hf.
  destruct userRole;
    [destruct (negb (String.eqb _ _)); [done|]
    |destruct (check_educator_access attempt requesterId db)
       as [[[]|e] db']; simpl in Hf; subst db'; [|done]
    |];
    unfold ret;
    (destruct (negb (is_closed _)); [done|]);
    (destruct (detailed_answers _ _); [|done]);
    by destruct (exams db !! a_examId attempt).
Qed.

(** A result is returned for a closed attempt only. *)
Lemma getAttemptResult_closed (attemptId requesterId : string)
  (userRole : Role) (db db1 : Db) (res : AttemptResult) :
  getAttemptResult attemptId requesterId userRole db = (Ok res, db1) ->
  exists attempt exam,
    examAttempts db !! attemptId = Some attempt
    /\ exams db !! a_examId attempt = Some exam
    /\ is_closed (a_status attempt) = true
    /\ ar_status res = a_status attempt.
Proof.
  unfold getAttemptResult, bind at 1, read.
  destruct (examAttempts db !! attemptId) as [attempt|] eqn:Ha; [|done].
  unfold bind at 1.
  pose proof (check_educator_access_frame attempt requesterId db) as Hf.
  destruct userRole;
    [destruct (negb (String.eqb _ _)); [done|]
    |destruct (check_educator_access attempt requesterId db)
       as [[[]|e] db']; simpl in Hf; subst db'; [|done]
    |];
    unfold ret;
    (destruct (is_closed (a_status attempt)) eqn:Hclosed; [|done]); simpl;
    (destruct (detailed_answers _ _); [|done]);
    (destruct (exams db !! a_examId attempt) as [exam|] eqn:He; [|done]);
    intros [= <- <-]; by exists attempt, exam.
Qed.

(** Who reads a result.  [getAttemptResult] and [getAttemptDetails] write
    nothing, whatever they answer.  A result is returned only for an
    attempt that is closed, and only to the student who made the attempt,
    to the educator who created the exam or belongs to the institution of
    the exam, or to an administrator. *)
Theorem attempt_result_access (attemptId requesterId : string)
  (userRole : Role) (db : Db) :
  snd (getAttemptResult attemptId requesterId userRole db) = db
  /\ snd (getAttemptDetails attemptId requesterId userRole db) = db
  /\ forall res,
       fst (getAttemptResult attemptId requesterId userRole db) = Ok res ->
       exists attempt exam,
         examAttempts db !! attemptId = Some attempt
         /\ exams db !! a_examId attempt = Some exam
         /\ is_closed (a_status attempt) = true
         /\ ar_status res = a_status attempt
         /\ match userRole with
            | student => a_studentId attempt = requesterId
            | educator =>
                createdById exam = requesterId
                \/ exists user,
                     users db !! requesterId = Some user
                     /\ truthy_id (e_institutionId exam) = true
                     /\ e_institutionId exam = u_institutionId user
            | admin => True
            end.
Proof.
  split; [apply getAttemptResult_frame|]. split.
  - unfold getAttemptDetails, bind at 1, read.
    destruct (examAttempts db !! attemptId) as [attempt|]; [|done].
    destruct (_ && _); [done|].
    destruct (is_open (a_status attempt)).
    + destruct (exams db !! a_examId attempt); [|done].
      by destruct (details_answerMap _ _).
    + unfold bind.
      pose proof (getAttemptResult_frame attemptId requesterId userRole db)
        as Hf.
      by destruct (getAttemptResult _ _ _ _) as [[?|?] ?].
  - intros res Hres.
    destruct (getAttemptResult attemptId requesterId userRole db)
      as [o db1] eqn:Hrun.
    simpl in Hres. subst o.
    destruct (getAttemptResult_closed _ _ _ _ _ _ Hrun)
      as (attempt & exam & Ha & He & Hclosed & Hstatus).
    exists attempt, exam. repeat (split; [done|]).
    revert Hrun. unfold getAttemptResult, bind at 1, read. rewrite Ha.
    unfold bind at 1. destruct userRole; [| |done].
    + destruct (String.eqb _ _) eqn:Hs; [|done].
      intros _. by apply String.eqb_eq.
    + destruct (check_educator_access attempt requesterId db)
        as [[[]|e] db'] eqn:Hcheck; [|done].
      intros _. revert Hcheck.
      unfold check_educator_access, bind, read. rewrite He.
      destruct (String.eqb (createdById exam) requesterId) eqn:Hc.
      { intros _. left. by apply String.eqb_eq. }
      destruct (truthy_id (e_institutionId exam)) eqn:Hi; [|done]. simpl.
      destruct (users db !! requesterId) as [user|]; [|done].
      destruct (negb (truthy_id (u_institutionId user))); [done|]. simpl.
      destruct (bool_decide _) eqn:Hsame; [|done].
      apply bool_decide_eq_true in Hsame. intros _. right. by exists user.
Qed.

End Finalizing.

(** ** Exams: who may change them, and what a change leaves *)

Section ExamChanges.
Context `{rt : Runtime}.

Lemma check_institution_foreign (message : string) (exam : Exam)
  (userId : string) (user : User) (db : Db) :
  users db !! userId = Some user ->
  truthy_id (e_institutionId exam) = true ->
  truthy_id (u_institutionId user) = true ->
  e_institutionId exam <> u_institutionId user ->
  check_institution message exam userId educator db
  = (Throw (Forbidden message), db).
Proof.
  intros Hu He Hi Hne. unfold check_institution, bind, read.
  rewrite He, Hu, Hi. simpl.
  by rewrite bool_decide_eq_false_2.
Qed.

(** The institution guard.  An educator of one institution who calls a
    mutation on an exam of another institution gets Forbidden, with the
    message of the method, and nothing is written: the exam can neither
    be updated, deleted, published, activated, closed or assigned, nor
    can its questions be changed or its analytics be read. *)
Theorem institution_guard (examId userId : string) (exam : Exam)
  (user : User) (db : Db) (updateData : Exam -> Exam)
  (questionIds : list string) (knownSections knownDepartments : list string)
  (sectionIds departmentIds studentIds : option (list string))
  (assignmentMode' : option AssignmentMode) :
  exams db !! examId = Some exam ->
  users db !! userId = Some user ->
  truthy_id (e_institutionId exam) = true ->
  truthy_id (u_institutionId user) = true ->
  e_institutionId exam <> u_institutionId user ->
  updateExam examId updateData userId educator db
  = (Throw (Forbidden "You can only update exams in your institution"), db)
  /\ deleteExam examId userId educator db
     = (Throw (Forbidden "You can only delete exams in your institution"), db)
  /\ addQuestionsToExam examId questionIds userId educator db
     = (Throw (Forbidden "You can only modify exams in your institution"), db)
  /\ removeQuestionsFromExam examId questionIds userId educator db
     = (Throw (Forbidden "You can only modify exams in your institution"), db)
  /\ publishExam examId userId educator db
     = (Throw (Forbidden "You can only publish exams in your institution"), db)
  /\ activateExam examId userId educator db
     = (Throw (Forbidden "You can only activate exams in your institution"),
        db)
  /\ closeExam examId userId educator db
     = (Throw (Forbidden "You can only close exams in your institution"), db)
  /\ assignExam knownSections knownDepartments examId sectionIds
       departmentIds studentIds assignmentMode' userId educator db
     = (Throw (Forbidden "You can only assign exams in your institution"), db)
  /\ getExamAnalytics examId userId educator db
     = (Throw (Forbidden "Access denied"), db).
Proof.
  intros He Hu Hexam Huser Hne.
  pose proof (fun message =>
                check_institution_foreign message exam userId user db
                  Hu Hexam Huser Hne) as Hguard.
  unfold updateExam, deleteExam, addQuestionsToExam, removeQuestionsFromExam,
    publishExam, activateExam, closeExam, assignExam, getExamAnalytics.
  unfold bind, read. rewrite He, !Hguard. done.
Qed.



(** *** Changing the questions of an exam *)

Lemma remove_dups_length (l : list string) :
  (length (remove_dups l) <= length l)%nat
  /\ (length (remove_dups l) = length l -> NoDup l).
Proof.
  induction l as [|x rest [IHle IHeq]]; simpl.
  - split; [lia|]. intros _. constructor.
  - destruct (decide_rel elem_of x rest) as [Hin|Hin]; simpl.
    + split; lia.
    + split; [lia|]. intros [= Hlen]. constructor; [done|by apply IHeq].
Qed.

Lemma remove_dups_NoDup (l : list string) : NoDup l -> remove_dups l = l.
Proof.
  induction 1 as [|x rest Hx _ IH]; simpl; [done|].
  destruct (decide_rel elem_of x rest); [done|]. by rewrite IH.
Qed.

Lemma omap_length {A B} (f : A -> option B) (l : list A) :
  (length (omap f l) <= length l)%nat
  /\ (length (omap f l) = length l <-> forall x, In x l -> is_Some (f x)).
Proof.
  induction l as [|x rest [IHle IHeq]]; csimpl.
  - split; [lia|]. split; [by intros _ x []|done].
  - destruct (f x) as [y|] eqn:Hfx; csimpl.
    + split; [lia|]. split.
      * intros [= Hlen] z [<-|Hz]; [by rewrite Hfx|]. by apply IHeq.
      * intros Hall. f_equal. apply IHeq. intros z Hz. apply Hall. by right.
    + split; [lia|]. split; [lia|].
      intros Hall. destruct (Hall x (or_introl eq_refl)) as [y Hy].
      congruence.
Qed.

(** [found.length === questionIds.length]: every id is listed once and
    names a question. *)
Lemma all_found (db : Db) (questionIds : list string) :
  (length (omap (fun qid => questions db !! qid) (remove_dups questionIds))
   =? length questionIds)%nat = true
  <-> NoDup questionIds
      /\ forall q, In q questionIds -> is_Some (questions db !! q).
Proof.
  rewrite Nat.eqb_eq.
  destruct (remove_dups_length questionIds) as [Hle Hnodup].
  destruct (omap_length (fun qid => questions db !! qid)
              (remove_dups questionIds)) as [Hle' Hall].
  split.
  - intros Hlen.
    assert (Hd : NoDup questionIds) by (apply Hnodup; lia).
    split; [done|]. rewrite remove_dups_NoDup in Hall, Hlen by done.
    by apply Hall.
  - intros [Hd Hex]. rewrite remove_dups_NoDup in * by done. by apply Hall.
Qed.

Lemma existsb_target (examId qid : string) (rows : list (string * string)) :
  existsb (fun r => String.eqb (fst r) examId && String.eqb (snd r) qid) rows
  = existsb (String.eqb qid) (targets_of examId rows).
Proof.
  unfold targets_of. induction rows as [|[e q] rest IH]; simpl; [done|].
  destruct (String.eqb e examId); simpl; rewrite IH; [|done].
  by rewrite (String.eqb_sym q qid).
Qed.

Lemma targets_of_app (examId : string) (rows rows' : list (string * string)) :
  targets_of examId (app rows rows')
  = app (targets_of examId rows) (targets_of examId rows').
Proof. unfold targets_of. by rewrite List.filter_app, List.map_app. Qed.

(** The rows [createMany] adds for an exam: the ids not yet attached, in
    the order given; the rows of the other exams are not touched. *)
Lemma create_exam_questions_targets (examId : string)
  (questionIds : list string) :
  forall rows,
    NoDup questionIds ->
    targets_of examId (create_exam_questions examId questionIds rows)
    = app (targets_of examId rows)
          (List.filter (fun q => negb (existsb (String.eqb q)
                                         (targets_of examId rows)))
                       questionIds)
    /\ forall other, other <> examId ->
         targets_of other (create_exam_questions examId questionIds rows)
         = targets_of other rows.
Proof.
  unfold create_exam_questions.
  induction questionIds as [|q rest IH]; intros rows Hnodup; simpl.
  - by rewrite app_nil_r.
  - apply NoDup_cons in Hnodup as [Hq Hrest].
    rewrite existsb_target.
    destruct (existsb (String.eqb q) (targets_of examId rows)) eqn:Hex; simpl.
    + by apply IH.
    + destruct (IH (app rows [(examId, q)]) Hrest) as [Hthis Hothers].
      split.
      * rewrite Hthis, targets_of_app. unfold targets_of at 2; simpl.
        rewrite String.eqb_refl; simpl. rewrite <- app_assoc; simpl.
        do 2 f_equal. apply List.filter_ext_in. intros x Hx.
        rewrite existsb_app. unfold targets_of at 2; simpl.
        rewrite String.eqb_refl; simpl.
        assert (x <> q) as ->%String.eqb_neq; [|by rewrite ?orb_false_r].
        intros ->. by apply Hq, list_elem_of_In.
      * intros other Hother. rewrite Hothers, targets_of_app by done.
        unfold targets_of at 2; simpl.
        assert (examId <> other) as ->%String.eqb_neq by done.
        by rewrite app_nil_r.
Qed.

Lemma check_institution_Ok (message : string) (exam : Exam)
  (userId : string) (userRole : Role) (db db' : Db) (u : unit) :
  check_institution message exam userId userRole db = (Ok u, db') ->
  db' = db.
Proof.
  intros E. pose proof (check_institution_frame message exam userId userRole db)
    as Hf. by rewrite E in Hf.
Qed.

Lemma exam_questions_of_set_exams (f : gmap string Exam -> gmap string Exam)
  (db : Db) (examId : string) :
  exam_questions_of (set_exams f db) examId = exam_questions_of db examId.
Proof. done. Qed.

(** Adding questions is all or nothing.  [addQuestionsToExam] succeeds
    only when every id is listed once and names a question; it then
    attaches to the exam the ids not yet attached, after those it had and
    in the order given, and leaves the questions of every other exam as
    they are.  When it fails it writes nothing; an administrator whose ids
    repeat or name no question gets BadRequest "Some questions not
    found". *)
Theorem addQuestionsToExam_all_or_nothing (examId : string)
  (questionIds : list string) (userId : string) (userRole : Role) (db : Db) :
  match addQuestionsToExam examId questionIds userId userRole db with
  | (Ok e, db1) =>
      NoDup questionIds
      /\ (forall q, In q questionIds -> is_Some (questions db !! q))
      /\ targets_of examId (examQuestions db1)
         = app (targets_of examId (examQuestions db))
               (List.filter
                  (fun q => negb (existsb (String.eqb q)
                                    (targets_of examId (examQuestions db))))
                  questionIds)
      /\ forall other, other <> examId ->
           targets_of other (examQuestions db1)
           = targets_of other (examQuestions db)
  | (Throw e, db1) =>
      db1 = db
      /\ (userRole = admin -> is_Some (exams db !! examId) ->
          e = BadRequest "Some questions not found"
          /\ ~ (NoDup questionIds
                /\ forall q, In q questionIds -> is_Some (questions db !! q)))
  end.
Proof.
  unfold addQuestionsToExam, bind at 1, read.
  destruct (exams db !! examId) as [exam|].
  2:{ split; [done|]. by intros _ [? ?]. }
  unfold bind at 1.
  destruct (check_institution _ exam userId userRole db) as [[[]|e] db']
    eqn:Hcheck.
  2:{ pose proof (check_institution_frame
                    "You can only modify exams in your institution"
                    exam userId userRole db) as Hf.
      rewrite Hcheck in Hf. split; [done|]. intros -> _. done. }
  apply check_institution_Ok in Hcheck as ->.
  pose proof (all_found db questionIds) as Hfound.
  destruct (_ =? _)%nat; simpl.
  - destruct Hfound as [[Hnodup Hall] _]; [done|].
    destruct (create_exam_questions_targets examId questionIds
                (examQuestions db) Hnodup) as [Hthis Hothers].
    unfold bind, write, recompute_totalMarks, bind, read, write, ret. simpl.
    done.
  - split; [done|]. intros _ _. split; [done|].
    intros Hgood. by apply Hfound in Hgood.
Qed.

(** The total marks follow the questions.  After either edit of the
    question set, the exam stored and returned is the exam as it was with
    its totalMarks recomputed: the sum, over the questions now attached,
    of the marks of each (1 for a question of 0 marks). *)
Theorem question_edits_keep_totalMarks (examId : string)
  (questionIds : list string) (userId : string) (userRole : Role)
  (db db1 : Db) (e : Exam) :
  addQuestionsToExam examId questionIds userId userRole db = (Ok e, db1)
  \/ removeQuestionsFromExam examId questionIds userId userRole db
     = (Ok e, db1) ->
  exists exam,
    exams db !! examId = Some exam
    /\ e = with_totalMarks (sum_marks (exam_questions_of db1 examId)) exam
    /\ totalMarks e = sum_marks (exam_questions_of db1 examId)
    /\ exams db1 = <[examId := e]> (exams db)
    /\ questions db1 = questions db.
Proof.
  intros [Hrun|Hrun]; revert Hrun;
    unfold addQuestionsToExam, removeQuestionsFromExam, bind at 1, read;
    (destruct (exams db !! examId) as [exam|]; [|done]);
    unfold bind at 1;
    (destruct (check_institution _ exam userId userRole db) as [[[]|err] db']
       eqn:Hcheck; [|done]);
    apply check_institution_Ok in Hcheck as ->.
  - destruct (negb _); [done|].
    unfold bind, write, recompute_totalMarks, bind, read, write, ret.
    intros [= <- <-]. by exists exam.
  - unfold bind, write, recompute_totalMarks, bind, read, write, ret.
    intros [= <- <-]. by exists exam.
Qed.

(** Removing questions detaches exactly the ids given from the exam,
    keeps the order of the others, and leaves the questions of every
    other exam as they are. *)
Theorem removeQuestionsFromExam_detaches (examId : string)
  (questionIds : list string) (userId : string) (userRole : Role)
  (db db1 : Db) (e : Exam) :
  removeQuestionsFromExam examId questionIds userId userRole db
  = (Ok e, db1) ->
  targets_of examId (examQuestions db1)
  = List.filter (fun q => negb (existsb (String.eqb q) questionIds))
                (targets_of examId (examQuestions db))
  /\ forall other, other <> examId ->
       targets_of other (examQuestions db1)
       = targets_of other (examQuestions db).
Proof.
  unfold removeQuestionsFromExam, bind at 1, read.
  destruct (exams db !! examId) as [exam|]; [|done].
  unfold bind at 1.
  destruct (check_institution _ exam userId userRole db) as [[[]|err] db']
    eqn:Hcheck; [|done].
  apply check_institution_Ok in Hcheck as ->.
  unfold bind, write, recompute_totalMarks, bind, read, write, ret.
  intros [= _ <-]. simpl. unfold targets_of. split.
  - induction (examQuestions db) as [|[x q] rest IH]; simpl; [done|].
    destruct (String.eqb x examId) eqn:Hx; simpl.
    + destruct (existsb (String.eqb q) questionIds); simpl;
        rewrite ?Hx; simpl; by rewrite IH.
    + by rewrite Hx.
  - intros other Hother.
    induction (examQuestions db) as [|[x q] rest IH]; simpl; [done|].
    destruct (String.eqb x examId) eqn:Hx; simpl.
    + apply String.eqb_eq in Hx. subst x.
      assert (examId <> other) as Hne by done.
      apply String.eqb_neq in Hne.
      destruct (existsb (String.eqb q) questionIds); simpl;
        by rewrite ?Hne.
    + destruct (String.eqb x other); simpl; by rewrite IH.
Qed.

(** *** Deleting an exam *)

Lemma targets_of_not (examId other : string) (rows : list (string * string)) :
  targets_of other (List.filter (not_of_exam examId) rows)
  = if String.eqb other examId then [] else targets_of other rows.
Proof.
  unfold targets_of, not_of_exam.
  induction rows as [|[x q] rest IH]; simpl; [by destruct (String.eqb _ _)|].
  destruct (String.eqb x examId) eqn:Hx; simpl.
  - rewrite IH. destruct (String.eqb other examId) eqn:Ho; [done|].
    apply String.eqb_eq in Hx. subst x.
    rewrite String.eqb_sym in Ho. by rewrite Ho.
  - destruct (String.eqb x other) eqn:Hxo; simpl; rewrite IH.
    + apply String.eqb_eq in Hxo. subst x. by rewrite Hx.
    + done.
Qed.


(** *** Assigning an exam *)

Lemma create_targets_spec (examId : string) (ids : list string) :
  forall rows,
    (forall x, In x (targets_of examId (create_targets examId ids rows))
               <-> In x (targets_of examId rows) \/ In x ids)
    /\ forall other, other <> examId ->
         targets_of other (create_targets examId ids rows)
         = targets_of other rows.
Proof.
  unfold create_targets.
  induction ids as [|id rest IH]; intros rows; simpl.
  - split; [|done]. intros x. tauto.
  - rewrite existsb_target.
    destruct (existsb (String.eqb id) (targets_of examId rows)) eqn:Hex.
    + destruct (IH rows) as [Hthis Hothers]. split; [|done].
      intros x. rewrite Hthis.
      apply existsb_exists in Hex as (y & Hy & ->%String.eqb_eq).
      split; [tauto|]. intros [?|[<-|?]]; tauto.
    + destruct (IH (app rows [(examId, id)])) as [Hthis Hothers]. split.
      * intros x. rewrite Hthis, targets_of_app, in_app_iff.
        unfold targets_of at 2; simpl. rewrite String.eqb_refl; simpl. tauto.
      * intros other Hother. rewrite Hothers, targets_of_app by done.
        unfold targets_of at 2; simpl.
        assert (examId <> other) as ->%String.eqb_neq by done.
        by rewrite app_nil_r.
Qed.

Lemma replace_targets_replaced (examId : string) (ids : option (list string))
  (rows : list (string * string)) :
  replaced examId ids rows (replace_targets examId ids rows).
Proof.
  unfold replaced, replace_targets. destruct ids as [l|]; [|done].
  destruct (create_targets_spec examId l
              (List.filter (not_of_exam examId) rows)) as [Hthis Hothers].
  split.
  - intros x. rewrite Hthis, targets_of_not, String.eqb_refl. simpl. tauto.
  - intros other Hother. rewrite Hothers, targets_of_not by done.
    by apply String.eqb_neq in Hother as ->.
Qed.

(** What a successful [assignExam] did. *)
Lemma assignExam_Ok (knownSections knownDepartments : list string)
  (examId : string) (sectionIds departmentIds studentIds : option (list string))
  (assignmentMode' : option AssignmentMode) (userId : string)
  (userRole : Role) (db db1 : Db) (e : Exam) :
  assignExam knownSections knownDepartments examId sectionIds departmentIds
    studentIds assignmentMode' userId userRole db = (Ok e, db1) ->
  exists exam,
    exams db !! examId = Some exam
    /\ e = match assignmentMode' with
           | Some m => with_assignmentMode m exam
           | None => exam
           end
    /\ all_known (fun id => bool_decide (is_Some (users db !! id))) studentIds
       = true
    /\ db1 = {| exams := <[examId := e]> (exams db);
                questions := questions db; users := users db;
                examAttempts := examAttempts db;
                examQuestions := examQuestions db;
                examSections :=
                  replace_targets examId sectionIds (examSections db);
                examDepartments :=
                  replace_targets examId departmentIds (examDepartments db);
                examStudents :=
                  replace_targets examId studentIds (examStudents db);
                examAssignments := examAssignments db;
                studentAnswers := studentAnswers db;
                studentEnrollments := studentEnrollments db |}.
Proof.
  unfold assignExam, bind at 1, read.
  destruct (exams db !! examId) as [exam|]; [|done].
  unfold bind at 1.
  destruct (check_institution _ exam userId userRole db) as [[[]|err] db']
    eqn:Hcheck; [|done].
  apply check_institution_Ok in Hcheck as ->.
  destruct (all_known _ sectionIds && all_known _ departmentIds
            && all_known _ studentIds) eqn:Hknown; [|done].
  apply andb_true_iff in Hknown as [_ Hstudents].
  unfold bind, write, ret. simpl. intros [= <- <-]. by exists exam.
Qed.

(** Assignment replaces.  After a successful [assignExam], each target
    list the request gave is the list of targets of the exam, whatever it
    was before, and each list the request left out is untouched; the
    targets of every other exam are as before; the exam keeps its fields,
    but for the assignment mode when the request gave one. *)
Theorem assignExam_replaces (knownSections knownDepartments : list string)
  (examId : string) (sectionIds departmentIds studentIds : option (list string))
  (assignmentMode' : option AssignmentMode) (userId : string)
  (userRole : Role) (db db1 : Db) (e : Exam) :
  assignExam knownSections knownDepartments examId sectionIds departmentIds
    studentIds assignmentMode' userId userRole db = (Ok e, db1) ->
  replaced examId sectionIds (examSections db) (examSections db1)
  /\ replaced examId departmentIds (examDepartments db) (examDepartments db1)
  /\ replaced examId studentIds (examStudents db) (examStudents db1)
  /\ exams db1 !! examId = Some e
  /\ exists exam,
       exams db !! examId = Some exam
       /\ e = match assignmentMode' with
              | Some m => with_assignmentMode m exam
              | None => exam
              end.
Proof.
  intros Hrun.
  apply assignExam_Ok in Hrun as (exam & He & Hupdated & _ & ->). simpl.
  repeat (split; [apply replace_targets_replaced|]).
  split; [apply lookup_insert_eq|]. by exists exam.
Qed.

(** From assignment to access.  A student named in the student list of a
    successful [assignExam] can open the exam with [getExamById] as soon
    as its status is published, active or completed, unless student and
    exam belong to two different institutions; the exam shown is the one
    [assignExam] returned. *)
Theorem assigned_student_can_open
  (knownSections knownDepartments : list string) (examId : string)
  (sectionIds departmentIds : option (list string)) (studentIds : list string)
  (assignmentMode' : option AssignmentMode) (userId : string)
  (userRole : Role) (db db1 : Db) (e : Exam) (cached : option ExamView)
  (studentId : string) (student' : User) :
  assignExam knownSections knownDepartments examId sectionIds departmentIds
    (Some studentIds) assignmentMode' userId userRole db = (Ok e, db1) ->
  In studentId studentIds ->
  users db !! studentId = Some student' ->
  visible_to_students (e_status e) = true ->
  (truthy_id (e_institutionId e) = true ->
   truthy_id (u_institutionId student') = true ->
   e_institutionId e = u_institutionId student') ->
  exists view,
    getExamById cached examId studentId student db1 = (Ok view, db1)
    /\ v_exam view = e
    /\ v_questions view = exam_questions_of db examId.
Proof.
  intros Hrun Hin Hu Hvisible Hinst.
  apply assignExam_Ok in Hrun as (exam & He & Hupdated & _ & ->).
  assert (E : forall db', getExamById cached examId studentId student db'
                          = getExamById None examId studentId student db')
    by (by destruct cached).
  rewrite E. unfold getExamById, bind at 1, read. cbn [exams].
  rewrite lookup_insert_eq.
  unfold bind at 1, check_student_access, bind at 1, read.
  rewrite Hvisible. cbn [users negb]. rewrite Hu.
  assert (Hassigned :
            isAssigned
              {| exams := <[examId := e]> (exams db);
                 questions := questions db; users := users db;
                 examAttempts := examAttempts db;
                 examQuestions := examQuestions db;
                 examSections :=
                   replace_targets examId sectionIds (examSections db);
                 examDepartments :=
                   replace_targets examId departmentIds (examDepartments db);
                 examStudents :=
                   replace_targets examId (Some studentIds) (examStudents db);
                 examAssignments := examAssignments db;
                 studentAnswers := studentAnswers db;
                 studentEnrollments := studentEnrollments db |}
              e examId studentId student' = true).
  { unfold isAssigned. cbn [examStudents].
    apply orb_true_iff. right. apply existsb_exists. exists studentId.
    split; [|apply String.eqb_refl].
    destruct (replace_targets_replaced examId (Some studentIds)
                (examStudents db)) as [Hthis _].
    by apply Hthis. }
  rewrite Hassigned. cbn [negb].
  destruct (truthy_id (e_institutionId e)) eqn:Hei;
    destruct (truthy_id (u_institutionId student')) eqn:Hui; simpl;
    rewrite ?bool_decide_eq_true_2 by (by apply Hinst); simpl;
    unfold ret; by eexists.
Qed.

(** *** Analytics *)

Lemma filter_partition {A} (p q : A -> bool) (l : list A) :
  (forall x, q x = negb (p x)) ->
  (length (List.filter p l) + length (List.filter q l))%nat = length l.
Proof.
  intros Hq. induction l as [|x rest IH]; simpl; [done|].
  rewrite Hq. destruct (p x); simpl; lia.
Qed.

Lemma filter_length_le {A} (p : A -> bool) (l : list A) :
  (length (List.filter p l) <= length l)%nat.
Proof. induction l as [|x rest IH]; simpl; [done|]. destruct (p x); simpl; lia. Qed.

Lemma distribution_total_insert (dist : gmap string Z) (g : string) (n : Z) :
  distribution_total (<[g := n]> dist)
  = (distribution_total dist
     - match dist !! g with Some m => m | None => 0 end + n)%Z.
Proof.
  unfold distribution_total.
  assert (Hcomm : forall (j1 j2 : string) (z1 z2 y : Z),
             (z1 + (z2 + y) = z2 + (z1 + y))%Z) by (intros; lia).
  destruct (dist !! g) as [m|] eqn:Hg.
  - rewrite <- (insert_delete_id dist g m Hg) at 2.
    rewrite <- insert_delete_eq.
    rewrite !map_fold_insert_L by (try apply lookup_delete_eq; intros; lia).
    lia.
  - rewrite map_fold_insert_L by (try done; intros; lia). lia.
Qed.

Lemma count_grades_total (attempts : list ExamAttempt) :
  distribution_total (count_grades attempts) = Z.of_nat (length attempts).
Proof.
  unfold count_grades.
  assert (Hgen : forall dist,
             distribution_total
               (fold_left (fun dist a =>
                             <[grade_or_NA a :=
                                 (match dist !! grade_or_NA a with
                                  | Some n => n
                                  | None => 0
                                  end + 1)%Z]> dist) attempts dist)
             = (distribution_total dist + Z.of_nat (length attempts))%Z).
  { induction attempts as [|a rest IH]; intros dist; simpl length.
    - simpl. lia.
    - simpl fold_left. rewrite IH, distribution_total_insert.
      rewrite Nat2Z.inj_succ. destruct (dist !! grade_or_NA a); lia. }
  rewrite Hgen. unfold distribution_total. by rewrite map_fold_empty.
Qed.

Lemma round_percent (p s : Z) :
  (0 <= p <= s)%Z -> (0 < s)%Z ->
  (0 <= Js.round (inject_Z p / inject_Z s * 100) <= 100)%Z.
Proof.
  intros Hp Hs. unfold Js.round.
  assert (Hs' : (0 < inject_Z s)%Q)
    by (change 0%Q with (inject_Z 0); by rewrite <- Zlt_Qlt).
  assert (Hp0 : (0 <= inject_Z p)%Q)
    by (change 0%Q with (inject_Z 0); rewrite <- Zle_Qle; lia).
  assert (Hps : (inject_Z p <= inject_Z s)%Q) by (rewrite <- Zle_Qle; lia).
  assert (Hlo : (0 <= inject_Z p / inject_Z s)%Q)
    by (apply Qle_shift_div_l; [done|]; lra).
  assert (Hhi : (inject_Z p / inject_Z s <= 1)%Q)
    by (apply Qle_shift_div_r; [done|]; lra).
  set (x := (inject_Z p / inject_Z s)%Q) in *.
  split.
  - apply (Qfloor_resp_le 0). lra.
  - apply (Qfloor_resp_le _ (100 + (1 # 2))). lra.
Qed.

Lemma grade_or_NA_known (a : ExamAttempt) :
  graded_by_finalize a = true ->
  In (grade_or_NA a) (app finalize_grades ["N/A"]).
Proof.
  unfold graded_by_finalize, grade_or_NA.
  destruct (grade a) as [g|]; [|intros _; apply in_or_app; right; by left].
  intros Hg. apply existsb_exists in Hg as (x & Hx & ->%String.eqb_eq).
  destruct (String.eqb x ""); apply in_or_app; [right; by left|by left].
Qed.

Lemma count_grades_keys (attempts : list ExamAttempt) :
  (forall a, In a attempts -> graded_by_finalize a = true) ->
  forall g n,
    count_grades attempts !! g = Some n ->
    In g (app finalize_grades ["N/A"]) /\ (0 < n)%Z.
Proof.
  unfold count_grades. intros Hknown.
  assert (Hgen : forall dist : gmap string Z,
             (forall g n, dist !! g = Some n ->
                          In g (app finalize_grades ["N/A"]) /\ (0 < n)%Z) ->
             forall g n,
               fold_left (fun dist a =>
                            <[grade_or_NA a :=
                                (match dist !! grade_or_NA a with
                                 | Some n => n
                                 | None => 0
                                 end + 1)%Z]> dist) attempts dist !! g
               = Some n ->
               In g (app finalize_grades ["N/A"]) /\ (0 < n)%Z).
  { induction attempts as [|a rest IH]; intros dist Hdist; [exact Hdist|].
    simpl fold_left. apply IH; [intros x Hx; apply Hknown; by right|].
    intros g n. destruct (decide (grade_or_NA a = g)) as [<-|Hne].
    - rewrite lookup_insert_eq. intros [= <-]. split.
      + apply grade_or_NA_known, Hknown. by left.
      + destruct (dist !! grade_or_NA a) as [m|] eqn:Hm; [|lia].
        apply Hdist in Hm as [_ Hm]. lia.
    - rewrite lookup_insert_ne by done. apply Hdist. }
  apply Hgen. intros g n. by rewrite lookup_empty.
Qed.

(** The figures of [getExamAnalytics] are consistent.  The call writes
    nothing; every attempt on the exam is either submitted or pending, so
    the two counts add up to the total; the passed and the failed add up
    to the submitted; the pass rate is a whole number from 0 to 100; and,
    the grades stored being those finalize writes, the grade distribution
    has an entry only for a grade that occurs (one of the six, or N/A for
    an attempt without a grade) and accounts for every submitted attempt
    once. *)
Theorem getExamAnalytics_consistent (examId userId : string)
  (userRole : Role) (db db1 : Db) (an : ExamAnalytics) :
  (forall k a, examAttempts db !! k = Some a -> graded_by_finalize a = true) ->
  getExamAnalytics examId userId userRole db = (Ok an, db1) ->
  db1 = db
  /\ (an_totalAttempts an = an_submittedCount an + an_pendingAttempts an)%Z
  /\ (an_submittedCount an = an_passedCount an + an_failedCount an)%Z
  /\ (0 <= an_passedCount an)%Z
  /\ (0 <= an_failedCount an)%Z
  /\ (0 <= an_pendingAttempts an)%Z
  /\ (0 <= an_passRate an <= 100)%Z
  /\ distribution_total (an_gradeDistribution an) = an_submittedCount an
  /\ forall g n,
       an_gradeDistribution an !! g = Some n ->
       In g (app finalize_grades ["N/A"]) /\ (0 < n)%Z.
Proof.
  intros Hgrades.
  unfold getExamAnalytics, bind at 1, read.
  destruct (exams db !! examId) as [exam|]; [|done].
  unfold bind at 1.
  destruct (check_institution _ exam userId userRole db) as [[[]|err] db']
    eqn:Hcheck; [|done].
  apply check_institution_Ok in Hcheck as ->.
  unfold ret. intros [= <- <-]. cbn -[Js.round count_grades Z.of_nat].
  set (attempts := List.filter _ (List.map snd _)).
  set (submitted' := List.filter (fun a => is_submitted (a_status a)) attempts).
  set (passed' := List.filter _ submitted').
  pose proof (filter_partition (fun a => is_submitted (a_status a))
                (fun a => is_open (a_status a)) attempts) as Hpart.
  pose proof (filter_length_le
                (fun a => match passed a with Some b => b | None => false end)
                submitted') as Hpassed.
  fold submitted' in Hpart. fold passed' in Hpassed.
  split; [done|]. split.
  { rewrite <- Nat2Z.inj_add, Hpart; [done|].
    intros a. by destruct (a_status a). }
  split; [lia|]. split; [lia|]. split; [lia|]. split; [lia|]. split; [|split].
  - destruct (0 <? Z.of_nat (length submitted'))%Z eqn:Hs; [|lia].
    apply Z.ltb_lt in Hs. apply round_percent; lia.
  - apply count_grades_total.
  - apply count_grades_keys. intros a Ha.
    apply filter_In in Ha as [Ha _]. apply filter_In in Ha as [Ha _].
    apply in_map_iff in Ha as ([k a'] & <- & Ha).
    apply list_elem_of_In, elem_of_map_to_list in Ha.
    by apply (Hgrades k).
Qed.

End ExamChanges.

(** ** Two views of an attempt under way *)

Section Details.
Context `{rt : Runtime}.

Lemma details_answerMap_keyed (db : Db) (answers : list StudentAnswer) :
  questions_keyed db ->
  (forall a, In a answers -> is_Some (questions db !! sa_questionId a)) ->
  details_answerMap db answers
  = Ok (List.map (fun a => (sa_questionId a, saved_view a)) answers).
Proof.
  intros Hkeyed. induction answers as [|a rest IH]; intros Hjoined; simpl.
  - done.
  - destruct (Hjoined a (or_introl eq_refl)) as [q Hq]. rewrite Hq.
    rewrite IH by (intros x Hx; apply Hjoined; by right).
    by rewrite (Hkeyed _ _ Hq).
Qed.

Lemma details_lookup_answers (answers : list StudentAnswer)
  (questionId : string) :
  details_lookup (List.map (fun a => (sa_questionId a, saved_view a)) answers)
                 questionId
  = answerMap_lookup answers questionId.
Proof.
  unfold details_lookup, answerMap_lookup. rewrite <- map_rev.
  induction (rev answers) as [|a rest IH]; simpl; [done|].
  by destruct (String.eqb (sa_questionId a) questionId).
Qed.

Lemma present_details_resumed (answers : list StudentAnswer)
  (qs : list Question) :
  forall index,
    List.map (fun q => (dq_id q, dq_questionNumber q, dq_questionType q,
                        dq_options q, dq_marks q, dq_savedAnswer q))
      (present_details
         (List.map (fun a => (sa_questionId a, saved_view a)) answers)
         index qs)
    = List.map (fun p => (p_id p, p_questionNumber p, p_questionType p,
                          p_options p, p_marks p, p_savedAnswer p))
        (present_resumed answers index qs).
Proof.
  induction qs as [|q rest IH]; intros index; simpl; [done|].
  by rewrite IH, details_lookup_answers.
Qed.

(** The two views agree.  Whenever [resumeAttempt] presents an attempt
    to its student, [getAttemptDetails] presents the same attempt as
    under way, with the same questions in the same order, each with the
    same number, type, options, marks and saved answer. *)
Theorem details_agree_with_resume (now : Z) (attemptId studentId : string)
  (db db1 : Db) (s : AttemptSession) :
  questions_keyed db ->
  attempts_keyed db ->
  answers_joined db attemptId = true ->
  resumeAttempt now attemptId studentId false db = (Ok s, db1) ->
  exists questions',
    getAttemptDetails attemptId studentId student db
    = (Ok (UnderWay (s_attemptId s) (s_examId s) (s_status s) (s_startedAt s)
                    (s_durationMinutes s) questions'), db)
    /\ List.map (fun q => (dq_id q, dq_questionNumber q, dq_questionType q,
                           dq_options q, dq_marks q, dq_savedAnswer q))
                questions'
       = List.map (fun p => (p_id p, p_questionNumber p, p_questionType p,
                             p_options p, p_marks p, p_savedAnswer p))
                  (s_questions s).
Proof.
  intros Hquestions Hattempts Hjoined.
  unfold resumeAttempt, bind at 1, read.
  destruct (find_open_attempt db attemptId studentId) as [attempt|] eqn:Hfind;
    [|done].
  destruct (find_open_attempt_Some _ _ _ _ Hfind) as (Ha & Howner & Hopen).
  destruct (exams db !! a_examId attempt) as [exam|] eqn:He; [|done].
  destruct (_ <? _)%Z.
  { unfold bind. by destruct (autoSubmitAttempt _ _ _) as [[?|?] ?]. }
  unfold ret. intros [= <- <-]. cbn [s_attemptId s_examId s_status s_startedAt
                                     s_durationMinutes s_questions].
  unfold getAttemptDetails, bind at 1, read.
  rewrite Ha, Howner, String.eqb_refl, Hopen, He, andb_false_r.
  rewrite details_answerMap_keyed;
    [|done|intros a; by apply answers_joined_In].
  unfold ret. eexists. split; [reflexivity|].
  rewrite (Hattempts _ _ Ha). apply present_details_resumed.
Qed.

End Details.


(** ** Runs on the reference engine *)

Import Reference.


(** The scenario attempt, submitted and then finalized once more. *)
Lemma finalize_twice_is_rejected_witness :
  exists r db1,
    finalizeAttempt 60000 "a1" submitted Examples.both_wrong = (Ok r, db1)
    /\ finalizeAttempt 61000 "a1" auto_submitted db1
       = (Throw (BadRequest "Attempt already submitted"), db1).
Proof.
  destruct (finalizeAttempt 60000 "a1" submitted Examples.both_wrong)
    as [[r|e] db1] eqn:E; [|vm_compute in E; discriminate E].
  exists r, db1. split; [reflexivity|].
  exact (proj1 (finalize_twice_is_rejected 60000 61000 "a1" submitted
                  auto_submitted Examples.both_wrong db1 r E)).
Defined.

(** C3 as stated fails: the second finalize does not return what the
    first one returned. *)
Lemma finalize_twice_counterexample :
  let first := finalizeAttempt 60000 "a1" submitted Examples.both_wrong in
  let second := finalizeAttempt 61000 "a1" submitted (snd first) in
  (exists r, fst first = Ok r) /\ fst second <> fst first.
Proof.
  vm_compute. split; [eexists; reflexivity | discriminate].
Qed.



(** The exam is assigned to section sec2; the student is in sec1. *)
Lemma getExamById_not_assigned_witness :
  getExamById None "e1" "s1" student (Examples.fresh published)
  = (Throw (Forbidden "This exam is not assigned to you"),
     Examples.fresh published).
Proof.
  apply (getExamById_not_assigned None "e1" "s1" (Examples.fresh published)
           (Examples.exam published 10) Examples.student1);
    reflexivity.
Defined.

(** C8 as stated fails: for the unassigned student the error is not the
    NotFound an absent exam gives. *)
Lemma getExamById_not_assigned_counterexample :
  fst (getExamById None "none" "s1" student (Examples.fresh published))
  = Throw (NotFound "Exam not found")
  /\ (forall message,
        fst (getExamById None "e1" "s1" student (Examples.fresh published))
        <> Throw (NotFound message)).
Proof. split; [reflexivity | intros message; vm_compute; discriminate]. Qed.



(** ** Further runs on the reference engine *)

(** *** Starting *)

Lemma one_open_attempt_single (e : Exam) (answers : list StudentAnswer)
  (id : string) (a : ExamAttempt) :
  one_open_attempt (Examples.store e {[ id := a ]} answers).
Proof.
  intros id1 id2 a1 a2 H1 H2. simpl in H1, H2.
  apply lookup_singleton_Some in H1 as [<- _].
  by apply lookup_singleton_Some in H2 as [<- _].
Qed.

Lemma attempts_keyed_single (e : Exam) (answers : list StudentAnswer)
  (a : ExamAttempt) :
  attempts_keyed (Examples.store e {[ a_id a := a ]} answers).
Proof.
  intros k a' H. simpl in H. by apply lookup_singleton_Some in H as [<- <-].
Qed.

Lemma questions_keyed_store (e : Exam) (attempts : gmap string ExamAttempt)
  (answers : list StudentAnswer) :
  questions_keyed (Examples.store e attempts answers).
Proof.
  apply (bool_decide_unpack
           (map_Forall (fun k q => q_id q = k)
              (questions (Examples.store e attempts answers)))).
  by vm_compute.
Qed.

(** The first attempt on the scenario exam. *)
Lemma startAttempt_keeps_one_open_attempt_witness :
  one_open_attempt
    (snd (startAttempt 0 "a1" (fun _ => 1 # 4)%Q "e1" "s1"
                       (Examples.fresh published))).
Proof.
  destruct (startAttempt 0 "a1" (fun _ => 1 # 4)%Q "e1" "s1"
              (Examples.fresh published)) as [[s|e] db1] eqn:Hstart;
    [|vm_compute in Hstart; discriminate Hstart].
  refine (startAttempt_keeps_one_open_attempt 0 "a1" (fun _ => 1 # 4)%Q
            "e1" "s1" (Examples.fresh published) db1 s _ Hstart).
  intros id1 id2 a1 a2 H. simpl in H. by rewrite lookup_empty in H.
Defined.

(** A second attempt on the scenario exam, which allows one. *)
Lemma startAttempt_over_budget_witness :
  let run := startAttempt 60000 "a2" (fun _ => 1 # 4)%Q "e1" "s1"
                          Examples.both_wrong in
  snd run = Examples.both_wrong
  /\ fst run
     = Throw (BadRequest
         "Maximum attempts reached. You have already attempted this exam 1 time(s).").
Proof.
  pose proof (startAttempt_over_budget 60000 "a2" (fun _ => 1 # 4)%Q "e1" "s1"
                Examples.both_wrong (Examples.exam active 10)) as H.
  destruct H as (_ & Hsame & Hmessage).
  - reflexivity.
  - vm_compute. discriminate.
  - split; [exact Hsame|]. apply Hmessage. reflexivity.
Defined.

(** A second attempt while the first is under way, on the exam that
    allows three. *)
Lemma startAttempt_while_open_witness :
  let db := Examples.under_way (Examples.retakable (Examples.exam active 10)) in
  startAttempt 60000 "a2" (fun _ => 1 # 4)%Q "e1" "s1" db
  = (Throw (BadRequest
       "You have an active attempt. Please complete or submit it first."),
     db).
Proof.
  intros db.
  destruct (startAttempt_while_open 60000 "a2" (fun _ => 1 # 4)%Q "e1" "s1"
              db (Examples.retakable (Examples.exam active 10)))
    as (_ & Hsame & Hmessage).
  - reflexivity.
  - reflexivity.
  - specialize (Hmessage eq_refl).
    destruct (startAttempt 60000 "a2" (fun _ => 1 # 4)%Q "e1" "s1" db)
      as [o db1].
    simpl in Hsame, Hmessage. rewrite Hsame, Hmessage; [reflexivity|].
    vm_compute. reflexivity.
Defined.

(** The first attempt switches the published scenario exam to active. *)
Lemma startAttempt_activates_exam_witness :
  (e_status <$> exams (snd (startAttempt 0 "a1" (fun _ => 1 # 4)%Q "e1" "s1"
                                         (Examples.fresh published))) !! "e1")
  = Some active.
Proof.
  destruct (startAttempt 0 "a1" (fun _ => 1 # 4)%Q "e1" "s1"
              (Examples.fresh published)) as [[s|e] db1] eqn:Hstart;
    [|vm_compute in Hstart; discriminate Hstart].
  destruct (startAttempt_activates_exam 0 "a1" (fun _ => 1 # 4)%Q "e1" "s1"
              (Examples.fresh published) db1 s Hstart)
    as (exam & He & Hexams & _).
  simpl. rewrite Hexams. change (attempt_count _ _ _ =? 0)%Z with true.
  cbv iota. by rewrite lookup_insert_eq.
Defined.

(** The two answer rows of the first attempt on the scenario exam. *)
Lemma startAttempt_materializes_answers_witness :
  exists s db1,
    startAttempt 0 "a1" (fun _ => 1 # 4)%Q "e1" "s1" (Examples.fresh published)
    = (Ok s, db1)
    /\ answers_of db1 "a1"
       = List.map (fun qid => new_answer "a1" qid JNull false None None)
                  (presented_ids s).
Proof.
  destruct (startAttempt 0 "a1" (fun _ => 1 # 4)%Q "e1" "s1"
              (Examples.fresh published)) as [[s|e] db1] eqn:Hstart;
    [|vm_compute in Hstart; discriminate Hstart].
  exists s, db1. split; [reflexivity|].
  refine (proj1 (startAttempt_materializes_answers 0 "a1" (fun _ => 1 # 4)%Q
                   "e1" "s1" (Examples.fresh published) db1 s Hstart _ _)).
  - reflexivity.
  - apply (bool_decide_unpack _). by vm_compute.
Defined.

(** *** Working on an attempt *)

(** A minute into the scenario attempt, the student changes the answer
    to the first question. *)
Lemma saveAnswer_in_time_witness :
  exists db1,
    saveAnswer 60000 "a1" "q1" (Some (JStr "o1")) "s1" (Some 12%Z)
               Examples.both_wrong = (Ok true, db1)
    /\ answerMap_lookup (answers_of db1 "a1") "q1"
       = Some {| sv_selectedAnswer := JStr "o1"; sv_isAnswered := true;
                 sv_isMarkedForReview := false |}.
Proof.
  destruct (saveAnswer_in_time 60000 "a1" "q1" (Some (JStr "o1")) "s1"
              (Some 12%Z) Examples.both_wrong Examples.attempt
              (Examples.exam active 10))
    as (db1 & Hrun & _ & _ & Hsaved & _).
  - reflexivity.
  - reflexivity.
  - vm_compute. discriminate.
  - by eexists.
  - exists db1. split; [exact Hrun|]. exact Hsaved.
Defined.


(** The student marks the second question of the scenario attempt. *)
Lemma markForReview_marks_witness :
  exists db1,
    markForReview "a1" "q2" true "s1" Examples.both_wrong = (Ok true, db1)
    /\ answerMap_lookup (answers_of db1 "a1") "q2"
       = Some {| sv_selectedAnswer := JStr "o4"; sv_isAnswered := true;
                 sv_isMarkedForReview := true |}.
Proof.
  destruct (markForReview_marks "a1" "q2" true "s1" Examples.both_wrong
              Examples.attempt) as (db1 & Hrun & _ & _ & Hmarked & _).
  - reflexivity.
  - by eexists.
  - exists db1. split; [exact Hrun|]. exact Hmarked.
Defined.

(** Another student tries to submit the scenario attempt. *)
Lemma foreign_attempt_not_found_witness :
  submitAttempt 60000 "a1" "s2" Examples.both_wrong
  = (Throw (NotFound "Active attempt not found"), Examples.both_wrong).
Proof.
  refine (proj1 (proj2 (proj2 (foreign_attempt_not_found 60000 "a1" "q1"
            None false "s2" None Examples.both_wrong _)))).
  intros a Ha Hs. simpl in Ha. apply lookup_singleton_Some in Ha as [_ <-].
  discriminate Hs.
Defined.

(** The scenario attempt, resumed by the id of its exam. *)
Lemma resume_by_exam_is_by_attempt_witness :
  resumeAttempt 60000 "e1" "s1" true Examples.both_wrong
  = resumeAttempt 60000 "a1" "s1" false Examples.both_wrong.
Proof.
  apply (resume_by_exam_is_by_attempt 60000 "a1" "s1" Examples.both_wrong
           Examples.attempt).
  - apply one_open_attempt_single.
  - reflexivity.
Defined.

(** *** Finalize and results *)

(** The scenario attempt, submitted after a minute: two wrong answers. *)
Lemma finalize_counts_witness :
  exists r db1,
    finalizeAttempt 60000 "a1" submitted Examples.both_wrong = (Ok r, db1)
    /\ (r_correctAnswers r + r_wrongAnswers r + r_skipped r = 2)%Z.
Proof.
  destruct (finalizeAttempt 60000 "a1" submitted Examples.both_wrong)
    as [[r|e] db1] eqn:Hrun; [|vm_compute in Hrun; discriminate Hrun].
  exists r, db1. split; [reflexivity|].
  refine (proj1 (finalize_counts 60000 "a1" submitted Examples.both_wrong db1 r
                   _ Hrun)).
  reflexivity.
Defined.

(** One right and one wrong answer on the exam without negative marking:
    5 marks of 10. *)
Lemma finalize_without_negative_marking_witness :
  exists r db1,
    finalizeAttempt 60000 "a1" submitted
      (Examples.under_way (Examples.lenient (Examples.exam active 10)))
    = (Ok r, db1)
    /\ r_percentage r = calculatePercentage (r_totalScore r) 10.
Proof.
  destruct (finalizeAttempt 60000 "a1" submitted
              (Examples.under_way (Examples.lenient (Examples.exam active 10))))
    as [[r|e] db1] eqn:Hrun; [|vm_compute in Hrun; discriminate Hrun].
  exists r, db1. split; [reflexivity|].
  refine (proj1 (finalize_without_negative_marking 60000 "a1" submitted _ db1 r
                   Examples.attempt
                   (Examples.lenient (Examples.exam active 10))
                   _ _ _ Hrun)); reflexivity.
Defined.

(** The scenario attempt, submitted and read back by its student. *)
Lemma submit_then_result_witness :
  exists r db1 res,
    submitAttempt 60000 "a1" "s1" Examples.both_wrong = (Ok r, db1)
    /\ getAttemptResult "a1" "s1" student db1 = (Ok res, db1)
    /\ ar_percentage res = Some (r_percentage r).
Proof.
  destruct (submitAttempt 60000 "a1" "s1" Examples.both_wrong)
    as [[r|e] db1] eqn:Hrun; [|vm_compute in Hrun; discriminate Hrun].
  destruct (submit_then_result 60000 "a1" "s1" Examples.both_wrong db1 r)
    as (res & Hres & _ & _ & _ & _ & _ & _ & Hp & _).
  - reflexivity.
  - exact Hrun.
  - by exists r, db1, res.
Defined.

(** The scenario attempt under way, as [resumeAttempt] and as
    [getAttemptDetails] show it. *)
Lemma details_agree_with_resume_witness :
  exists s questions',
    resumeAttempt 60000 "a1" "s1" false Examples.both_wrong
    = (Ok s, Examples.both_wrong)
    /\ getAttemptDetails "a1" "s1" student Examples.both_wrong
       = (Ok (UnderWay (s_attemptId s) (s_examId s) (s_status s)
                (s_startedAt s) (s_durationMinutes s) questions'),
          Examples.both_wrong)
    /\ List.map dq_savedAnswer questions'
       = List.map p_savedAnswer (s_questions s).
Proof.
  destruct (resumeAttempt 60000 "a1" "s1" false Examples.both_wrong)
    as [[s|e] db1] eqn:Hrun; [|vm_compute in Hrun; discriminate Hrun].
  destruct (details_agree_with_resume 60000 "a1" "s1" Examples.both_wrong
              db1 s) as (questions' & Hdetails & Hsame).
  - apply questions_keyed_store.
  - apply (attempts_keyed_single _ _ Examples.attempt).
  - reflexivity.
  - exact Hrun.
  - exists s, questions'.
    destruct (resumeAttempt_Ok _ _ _ _ _ _ _ Hrun) as (a & _ & _ & ->).
    split; [reflexivity|]. split; [exact Hdetails|].
    apply (f_equal (List.map snd)) in Hsame.
    by rewrite !List.map_map in Hsame.
Defined.


(** *** Multi-select *)

(** The two correct options of question q3, in the other order. *)
Lemma check_multiple_distinct_witness :
  check_multiple Examples.q3 (JArr [JStr "b"; JStr "a"]) = true
  <-> same_set ["b"; "a"] (correct_option_ids Examples.q3).
Proof.
  apply (check_multiple_distinct Examples.q3 ["b"; "a"]).
  - discriminate.
  - apply (bool_decide_unpack _). by vm_compute.
  - apply (bool_decide_unpack _). by vm_compute.
Defined.

(** *** Exams *)

(** An educator of institution i2 and the scenario exam of i1. *)
Lemma institution_guard_witness :
  let db := Examples.with_user Examples.teacher2 (Examples.fresh draft) in
  publishExam "e1" "t2" educator db
  = (Throw (Forbidden "You can only publish exams in your institution"), db).
Proof.
  intros db.
  refine (proj1 (proj2 (proj2 (proj2 (proj2
            (institution_guard "e1" "t2" (Examples.exam draft 10)
               Examples.teacher2 db (fun e => e) [] [] [] None None None None
               _ _ _ _ _)))))); try reflexivity.
  discriminate.
Defined.


(** An administrator adds q3 to the scenario exam in draft: 15 marks. *)
Lemma question_edits_keep_totalMarks_witness :
  exists e db1,
    addQuestionsToExam "e1" ["q3"] "adm" admin (Examples.fresh draft)
    = (Ok e, db1)
    /\ totalMarks e = sum_marks (exam_questions_of db1 "e1").
Proof.
  destruct (addQuestionsToExam "e1" ["q3"] "adm" admin (Examples.fresh draft))
    as [[e|err] db1] eqn:Hrun; [|vm_compute in Hrun; discriminate Hrun].
  exists e, db1. split; [reflexivity|].
  destruct (question_edits_keep_totalMarks "e1" ["q3"] "adm" admin
              (Examples.fresh draft) db1 e (or_introl Hrun))
    as (exam & _ & _ & Htotal & _).
  exact Htotal.
Defined.

(** An administrator removes q1 from the scenario exam in draft. *)
Lemma removeQuestionsFromExam_detaches_witness :
  exists e db1,
    removeQuestionsFromExam "e1" ["q1"] "adm" admin (Examples.fresh draft)
    = (Ok e, db1)
    /\ targets_of "e1" (examQuestions db1) = ["q2"].
Proof.
  destruct (removeQuestionsFromExam "e1" ["q1"] "adm" admin
              (Examples.fresh draft))
    as [[e|err] db1] eqn:Hrun; [|vm_compute in Hrun; discriminate Hrun].
  exists e, db1. split; [reflexivity|].
  exact (proj1 (removeQuestionsFromExam_detaches "e1" ["q1"] "adm" admin
                  (Examples.fresh draft) db1 e Hrun)).
Defined.


(** The scenario exam, assigned to section sec1 instead of sec2. *)
Lemma assignExam_replaces_witness :
  exists e db1,
    assignExam ["sec1"; "sec2"] [] "e1" (Some ["sec1"]) None None None
               "adm" admin (Examples.fresh published) = (Ok e, db1)
    /\ forall x, In x (targets_of "e1" (examSections db1)) <-> In x ["sec1"].
Proof.
  destruct (assignExam ["sec1"; "sec2"] [] "e1" (Some ["sec1"]) None None None
              "adm" admin (Examples.fresh published))
    as [[e|err] db1] eqn:Hrun; [|vm_compute in Hrun; discriminate Hrun].
  exists e, db1. split; [reflexivity|].
  exact (proj1 (proj1 (assignExam_replaces ["sec1"; "sec2"] [] "e1"
                         (Some ["sec1"]) None None None "adm" admin
                         (Examples.fresh published) db1 e Hrun))).
Defined.

(** The scenario exam, assigned to the student by name, and opened. *)
Lemma assigned_student_can_open_witness :
  exists e db1 view,
    assignExam [] [] "e1" None None (Some ["s1"]) None "adm" admin
               (Examples.fresh published) = (Ok e, db1)
    /\ getExamById None "e1" "s1" student db1 = (Ok view, db1)
    /\ v_exam view = e.
Proof.
  destruct (assignExam [] [] "e1" None None (Some ["s1"]) None "adm" admin
              (Examples.fresh published))
    as [[e|err] db1] eqn:Hrun; [|vm_compute in Hrun; discriminate Hrun].
  destruct (assigned_student_can_open [] [] "e1" None None ["s1"] None "adm"
              admin (Examples.fresh published) db1 e None "s1"
              Examples.student1 Hrun)
    as (view & Hopen & Hexam & _).
  - by left.
  - reflexivity.
  - vm_compute in Hrun. by injection Hrun as <- _.
  - vm_compute in Hrun. by injection Hrun as <- _.
  - by exists e, db1, view.
Defined.

(** The analytics of the scenario exam with its attempt under way. *)
Lemma getExamAnalytics_consistent_witness :
  exists an,
    getExamAnalytics "e1" "adm" admin Examples.both_wrong
    = (Ok an, Examples.both_wrong)
    /\ (an_totalAttempts an = an_submittedCount an + an_pendingAttempts an)%Z.
Proof.
  destruct (getExamAnalytics "e1" "adm" admin Examples.both_wrong)
    as [[an|err] db1] eqn:Hrun; [|vm_compute in Hrun; discriminate Hrun].
  destruct (getExamAnalytics_consistent "e1" "adm" admin Examples.both_wrong
              db1 an) as (-> & Htotal & _).
  - intros k a Ha. simpl in Ha.
    by apply lookup_singleton_Some in Ha as [_ <-].
  - exact Hrun.
  - by exists an.
Defined.
